(** * RISC-V SMP bring-up and PLIC driver: a shallow embedding

    The development follows two translation units of the kernel tree:

    - [drivers/irqchip/irq-riscv-plic.c]  (module [Plic]);
    - [arch/riscv/kernel/smpboot.c]       (module [Smpboot]).

    C integers are integers of [Z] with the conversions written out, the
    memory-mapped register window is a finite map from addresses to 32-bit
    words, cpumasks are bitmaps, and every side effect that a reader of the
    kernel log or of the bus could observe is appended to a trace. *)

From Stdlib Require Import ZArith Lia Bool List.
From stdpp Require Import base tactics option list gmap.

Local Open Scope Z_scope.

(** ** Machine integers *)

Module CInt.

(** Conversion to [u32]: reduction modulo 2^32. *)
Definition u32 (x : Z) : Z := x mod 2 ^ 32.

(** Conversion to [int]: two's complement on 32 bits. *)
Definition to_int (x : Z) : Z := (x + 2 ^ 31) mod 2 ^ 32 - 2 ^ 31.

(** [~x] on a [u32]. *)
Definition not32 (x : Z) : Z := u32 (Z.lnot x).

Lemma u32_range x : 0 <= u32 x < 2 ^ 32.
Proof. unfold u32. apply Z.mod_pos_bound. lia. Qed.

Lemma u32_small x : 0 <= x < 2 ^ 32 -> u32 x = x.
Proof. intros. unfold u32. now apply Z.mod_small. Qed.

Lemma to_int_small x : - 2 ^ 31 <= x < 2 ^ 31 -> to_int x = x.
Proof. intros. unfold to_int. rewrite Z.mod_small; lia. Qed.

Lemma u32_testbit x i : 0 <= i < 32 -> Z.testbit (u32 x) i = Z.testbit x i.
Proof. intros. unfold u32. apply Z.mod_pow2_bits_low. lia. Qed.

Lemma u32_testbit_high x i : 32 <= i -> Z.testbit (u32 x) i = false.
Proof. intros. unfold u32. apply Z.mod_pow2_bits_high. lia. Qed.

Lemma not32_testbit x i :
  0 <= i < 32 -> Z.testbit (not32 x) i = negb (Z.testbit x i).
Proof.
  intros. unfold not32. rewrite u32_testbit by lia. apply Z.lnot_spec. lia.
Qed.

End CInt.

(** ** cpumasks

    [linux/cpumask.h] is not part of the translation units above.  A cpumask
    is a bitmap with one bit per logical cpu; the iterators visit the set
    bits below [nr_cpu_ids] in increasing order. *)

Module Cpumask.

Definition cpumask := Z.

Definition cpumask_test_cpu (cpu : Z) (mask : cpumask) : bool :=
  Z.testbit mask cpu.

Definition cpumask_set_cpu (cpu : Z) (mask : cpumask) : cpumask :=
  Z.setbit mask cpu.

Definition cpumask_clear_cpu (cpu : Z) (mask : cpumask) : cpumask :=
  Z.clearbit mask cpu.

(** [for_each_cpu(cpu, mask)]: the cpus visited, in order. *)
Definition for_each_cpu (nr_cpu_ids : Z) (mask : cpumask) : list Z :=
  filter (fun cpu => Is_true (cpumask_test_cpu cpu mask)) (seqZ 0 nr_cpu_ids).

(** [cpumask_weight(mask)], an [unsigned int]. *)
Definition cpumask_weight (nr_cpu_ids : Z) (mask : cpumask) : Z :=
  Z.of_nat (length (for_each_cpu nr_cpu_ids mask)).

Lemma elem_of_for_each_cpu n mask cpu :
  cpu ∈ for_each_cpu n mask <->
  cpumask_test_cpu cpu mask = true /\ 0 <= cpu < n.
Proof.
  unfold for_each_cpu. rewrite list_elem_of_filter, elem_of_seqZ.
  rewrite Is_true_true. intuition lia.
Qed.

Lemma cpumask_weight_nonneg n mask : 0 <= cpumask_weight n mask.
Proof. unfold cpumask_weight. lia. Qed.

End Cpumask.

(** ** A state monad

    The C functions below read and write globals and device registers; each
    is a function from the state before to a result and the state after. *)

Module StateMonad.

Definition M (S A : Type) : Type := S -> A * S.

Definition ret {S A} (a : A) : M S A := fun st => (a, st).

Definition bind {S A B} (m : M S A) (k : A -> M S B) : M S B :=
  fun st => let (a, st') := m st in k a st'.

Definition exec {S A} (m : M S A) (st : S) : S := snd (m st).

Definition get {S A} (f : S -> A) : M S A := fun st => (f st, st).

Definition modify {S} (f : S -> S) : M S unit := fun st => (tt, f st).

Notation "'do' x <- m ; k" := (bind m (fun x => k))
  (at level 10, x name, m at level 100, k at level 200).
Notation "m ;; k" := (bind m (fun _ => k))
  (at level 100, k at level 200, right associativity).

(** [for (x in l) body(x);] *)
Fixpoint for_each {S A} (l : list A) (body : A -> M S unit) : M S unit :=
  match l with
  | [] => ret tt
  | x :: l' => body x ;; for_each l' body
  end.

Lemma exec_bind {S A B} (m : M S A) (k : A -> M S B) st :
  exec (bind m k) st = exec (k (fst (m st))) (exec m st).
Proof. unfold exec, bind. now destruct (m st). Qed.

Lemma exec_for_each_cons {S A} (x : A) l (body : A -> M S unit) st :
  exec (for_each (x :: l) body) st = exec (for_each l body) (exec (body x) st).
Proof. unfold exec. simpl. unfold bind. now destruct (body x st). Qed.

(** A property every turn of the loop keeps holds after the loop. *)
Lemma for_each_preserves {S A} (P : S -> Prop) (body : A -> M S unit) l :
  (forall x st, x ∈ l -> P st -> P (exec (body x) st)) ->
  forall st, P st -> P (exec (for_each l body) st).
Proof.
  induction l as [| y l IH]; intros Hbody st HP; [exact HP |].
  rewrite exec_for_each_cons. apply IH.
  - intros x st0 Hx. apply Hbody. now right.
  - apply Hbody; [left | exact HP].
Qed.

(** A property the turn for [x] sets up, and no turn destroys, holds after
    the loop for every [x] it visited. *)
Lemma for_each_establishes {S A} (P : A -> S -> Prop)
      (body : A -> M S unit) l :
  (forall x st, x ∈ l -> P x (exec (body x) st)) ->
  (forall x y st, y ∈ l -> P x st -> P x (exec (body y) st)) ->
  forall x st, x ∈ l -> P x (exec (for_each l body) st).
Proof.
  induction l as [| y l IH]; intros Hest Hstable x st Hx;
    [inversion Hx |].
  rewrite exec_for_each_cons. apply elem_of_cons in Hx as [-> | Hx].
  - apply for_each_preserves.
    + intros z st0 Hz. apply Hstable. now right.
    + apply Hest. left.
  - apply IH; [| | exact Hx].
    + intros z st0 Hz. apply Hest. now right.
    + intros z w st0 Hw. apply Hstable. now right.
Qed.

Lemma flat_map_ext_elem {A B} (f g : A -> list B) (l : list A) :
  (forall x, x ∈ l -> f x = g x) -> flat_map f l = flat_map g l.
Proof.
  induction l as [| x l IH]; intros Hfg; simpl; [reflexivity |].
  rewrite Hfg by left. rewrite IH; [reflexivity |].
  intros y Hy. apply Hfg. now right.
Qed.

Lemma snoc2 {A} (l : list A) a b : l ++ [a; b] = (l ++ [a]) ++ [b].
Proof. now rewrite <- app_assoc. Qed.

Lemma snoc3 {A} (l : list A) a b c : l ++ [a; b; c] = (l ++ [a; b]) ++ [c].
Proof. now rewrite <- app_assoc. Qed.

End StateMonad.

(** ** Values on a riscv64 kernel

    The constants below come from headers outside the two translation
    units; the development is parametric in them and only the worked
    examples use these values. *)

Module Board.

Definition nr_cpu_ids : Z := 8.                  (* CONFIG_NR_CPUS *)
Definition THREAD_SIZE : Z := 0x4000.            (* asm/thread_info.h *)
Definition SIE_SSIE : Z := 0x2.                  (* asm/csr.h *)
Definition SIE_STIE : Z := 0x20.
Definition SIE_SEIE : Z := 0x200.
Definition INTERRUPT_CAUSE_SOFTWARE : Z := 1.    (* asm/irq.h *)
Definition EIO : Z := 5.                         (* errno-base.h, errno.h *)
Definition ENXIO : Z := 6.
Definition ENOMEM : Z := 12.
Definition EINVAL : Z := 22.
Definition EOPNOTSUPP : Z := 95.

End Board.

(** ** The platform-level interrupt controller driver

    [drivers/irqchip/irq-riscv-plic.c] *)

Module Plic.

Import CInt Cpumask StateMonad.

(** *** Register layout (the [#define]s of the driver) *)

Definition MAX_DEVICES : Z := 1024.
Definition MAX_CONTEXTS : Z := 15872.

Definition PRIORITY_BASE : Z := 0.
Definition PRIORITY_PER_ID : Z := 4.

Definition ENABLE_BASE : Z := 0x2000.
Definition ENABLE_PER_HART : Z := 0x80.

Definition CONTEXT_BASE : Z := 0x200000.
Definition CONTEXT_PER_HART : Z := 0x1000.
Definition CONTEXT_THRESHOLD : Z := 0x00.
Definition CONTEXT_CLAIM : Z := 0x04.

(** *** Observable events *)

(** The five [WARN_ON] call sites of [plic_init], in program order. *)
Inductive warn_site : Type :=
| WarnNoRegs          (* WARN_ON(!plic_regs) *)
| WarnNoIrqs          (* WARN_ON(!nr_irqs) *)
| WarnNoHandlers      (* WARN_ON(!nr_handlers) *)
| WarnFewHandlers     (* WARN_ON(nr_handlers < num_possible_cpus()) *)
| WarnNoDomain.       (* WARN_ON(!plic_irqdomain) *)

Inductive event : Type :=
| EvSpinLock                       (* spin_lock(&plic_toggle_lock) *)
| EvSpinUnlock                     (* spin_unlock(&plic_toggle_lock) *)
| EvReadl (addr val : Z)           (* val = readl(addr) *)
| EvWritel (val addr : Z)          (* writel(val, addr) *)
| EvWarnRatelimited (hwirq : Z)    (* pr_warn_ratelimited("can't find mapping ...") *)
| EvAckBadIrq (irq : Z)            (* ack_bad_irq(irq) *)
| EvGenericHandleIrq (irq : Z)     (* generic_handle_irq(irq) *)
| EvPrWarning                      (* pr_warning("PLIC already present.") *)
| EvOfIomap (addr : Z)             (* of_iomap(node, 0) returned addr *)
| EvWarnOn (site : warn_site)
| EvIounmap (addr : Z)             (* iounmap(addr) *)
| EvPrInfo (nr_irqs nr_mapped nr_handlers : Z)
| EvSetHandleIrq.                  (* set_handle_irq(plic_handle_irq) *)

#[export] Instance warn_site_eq_dec : EqDecision warn_site.
Proof. solve_decision. Defined.

#[export] Instance event_eq_dec : EqDecision event.
Proof. solve_decision. Defined.

(** *** Data *)

(** Modelled from the spec: [struct irq_domain] and its lookup live in
    [kernel/irq/irqdomain.c], outside the translation unit.  The spec
    describes the mapping domain as a table "sized sourceCount+1 with slot
    0 permanently unmapped" that translates hardware source ids to virtual
    irq ids; a source without an entry is unmapped. *)
Record irq_domain : Type := mkDomain {
  revmap_size : Z;
  revmap : gmap Z Z
}.

(** What [plic_init] extracts from its device-tree node, together with the
    outcome of the one allocation it requests. *)
Record device_node : Type := mkNode {
  of_iomap_result : Z;        (* of_iomap(node, 0); 0 is NULL *)
  riscv_ndev : Z;             (* the "riscv,ndev" property, a u32 *)
  of_irq_count : Z;           (* of_irq_count(node), an int *)
  domain_alloc_ok : bool      (* does irq_domain_add_linear succeed? *)
}.

Record irq_data : Type := mkIrqData { hwirq : Z }.

(** The driver's globals, the part of the machine it touches, and the
    trace.  Reads of a claim register are answered by the controller, not
    by memory: [claim_tape] lists the answers the running hart will get,
    [claim_reads] counts those consumed so far. *)
Record state : Type := mkState {
  plic_regs : Z;                          (* static void __iomem *plic_regs *)
  plic_irqdomain : option irq_domain;     (* static struct irq_domain * *)
  iomem : gmap Z Z;                       (* priority, enable, threshold words *)
  claim_tape : nat -> Z;
  claim_reads : nat;
  csr_sie : Z;                            (* this hart's sie *)
  cpu_possible_mask : cpumask;
  cpu_present_mask : cpumask;
  processor_id : Z;                       (* smp_processor_id() *)
  handle_arch_irq : bool;                 (* has plic_handle_irq been installed? *)
  trace : list event
}.

Definition set_plic_regs (v : Z) (st : state) : state :=
  mkState v (plic_irqdomain st) (iomem st) (claim_tape st) (claim_reads st)
          (csr_sie st) (cpu_possible_mask st) (cpu_present_mask st)
          (processor_id st) (handle_arch_irq st) (trace st).

Definition set_plic_irqdomain (v : option irq_domain) (st : state) : state :=
  mkState (plic_regs st) v (iomem st) (claim_tape st) (claim_reads st)
          (csr_sie st) (cpu_possible_mask st) (cpu_present_mask st)
          (processor_id st) (handle_arch_irq st) (trace st).

Definition set_iomem (v : gmap Z Z) (st : state) : state :=
  mkState (plic_regs st) (plic_irqdomain st) v (claim_tape st) (claim_reads st)
          (csr_sie st) (cpu_possible_mask st) (cpu_present_mask st)
          (processor_id st) (handle_arch_irq st) (trace st).

Definition set_claim_reads (v : nat) (st : state) : state :=
  mkState (plic_regs st) (plic_irqdomain st) (iomem st) (claim_tape st) v
          (csr_sie st) (cpu_possible_mask st) (cpu_present_mask st)
          (processor_id st) (handle_arch_irq st) (trace st).

Definition set_csr_sie (v : Z) (st : state) : state :=
  mkState (plic_regs st) (plic_irqdomain st) (iomem st) (claim_tape st)
          (claim_reads st) v (cpu_possible_mask st) (cpu_present_mask st)
          (processor_id st) (handle_arch_irq st) (trace st).

Definition set_handle_arch_irq (v : bool) (st : state) : state :=
  mkState (plic_regs st) (plic_irqdomain st) (iomem st) (claim_tape st)
          (claim_reads st) (csr_sie st) (cpu_possible_mask st)
          (cpu_present_mask st) (processor_id st) v (trace st).

Definition set_trace (v : list event) (st : state) : state :=
  mkState (plic_regs st) (plic_irqdomain st) (iomem st) (claim_tape st)
          (claim_reads st) (csr_sie st) (cpu_possible_mask st)
          (cpu_present_mask st) (processor_id st) (handle_arch_irq st) v.

(** *** The driver's code runs in the state monad over [state] *)

Local Abbreviation M := (StateMonad.M state).

Definition log (e : event) : M unit :=
  modify (fun st => set_trace (trace st ++ [e]) st).

(** *** The bus

    The window decodes as in the driver's layout comment: the words at
    [CONTEXT_BASE + ctx * CONTEXT_PER_HART + CONTEXT_CLAIM] are claim
    registers, everything else behaves as a 32-bit register that holds the
    last value written. *)

Definition is_claim_reg (off : Z) : bool :=
  (CONTEXT_BASE <=? off) &&
  ((off - CONTEXT_BASE) mod CONTEXT_PER_HART =? CONTEXT_CLAIM).

Definition readl (addr : Z) : M Z :=
  fun st =>
    if is_claim_reg (addr - plic_regs st) then
      let v := u32 (claim_tape st (claim_reads st)) in
      (v, set_trace (trace st ++ [EvReadl addr v])
            (set_claim_reads (S (claim_reads st)) st))
    else
      let v := u32 (default 0 (iomem st !! addr)) in
      (v, set_trace (trace st ++ [EvReadl addr v]) st).

Definition writel (val addr : Z) : M unit :=
  fun st =>
    let st' := set_trace (trace st ++ [EvWritel (u32 val) addr]) st in
    if is_claim_reg (addr - plic_regs st) then (tt, st')
    else (tt, set_iomem (<[addr := u32 val]> (iomem st)) st').

Definition spin_lock : M unit := log EvSpinLock.
Definition spin_unlock : M unit := log EvSpinUnlock.

(** [csr_set(sie, m)] and [csr_clear(sie, m)] of [asm/csr.h]. *)
Definition csr_set_sie (m : Z) : M unit :=
  modify (fun st => set_csr_sie (Z.lor (csr_sie st) m) st).
Definition csr_clear_sie (m : Z) : M unit :=
  modify (fun st => set_csr_sie (Z.land (csr_sie st) (Z.lnot m)) st).

(** Modelled from the spec: [irq_find_mapping] is outside the translation
    unit; it "translates the returned hardware source id through the
    mapping domain" and yields 0 for a source that has no virtual irq. *)
Definition irq_find_mapping (d : option irq_domain) (hw : Z) : Z :=
  match d with
  | Some dom => default 0 (revmap dom !! hw)
  | None => 0
  end.

(** Modelled from the spec: [irq_domain_add_linear] "allocates the
    virtual-irq mapping domain" of the requested size with nothing mapped
    yet, or returns NULL when the allocation fails. *)
Definition irq_domain_add_linear (node : device_node) (size : Z)
  : option irq_domain :=
  if domain_alloc_ok node then Some (mkDomain size ∅) else None.

Section Driver.

(** Constants of headers that are not part of the translation unit. *)
Variable nr_cpu_ids : Z.                         (* linux/cpumask.h *)
Variable SIE_STIE : Z.                           (* asm/csr.h *)
Variables ENXIO EIO EINVAL ENOMEM : Z.           (* uapi/asm-generic/errno-base.h *)

Definition num_possible_cpus (st : state) : Z :=
  cpumask_weight nr_cpu_ids (cpu_possible_mask st).

Definition present_cpus (st : state) : list Z :=
  for_each_cpu nr_cpu_ids (cpu_present_mask st).

(** [static inline void __iomem *plic_hart_offset(int ctxid)] *)
Definition plic_hart_offset (ctxid : Z) (st : state) : Z :=
  plic_regs st + CONTEXT_BASE + ctxid * CONTEXT_PER_HART.

(** [static inline void plic_toggle(int ctxid, int hwirq, int enable)] *)
Definition plic_toggle (ctxid hwirq enable : Z) : M unit :=
  do base <- get plic_regs;
  let reg := base + ENABLE_BASE + ctxid * ENABLE_PER_HART
             + (Z.quot hwirq 32) * 4 in
  let hwirq_mask := u32 (Z.shiftl 1 (Z.rem hwirq 32)) in
  spin_lock ;;
  (if enable =? 0 then
     do v <- readl reg; writel (Z.land v (not32 hwirq_mask)) reg
   else
     do v <- readl reg; writel (Z.lor v hwirq_mask) reg) ;;
  spin_unlock.

(** [static inline void plic_irq_toggle(struct irq_data *d, int enable)] *)
Definition plic_irq_toggle (d : irq_data) (enable : Z) : M unit :=
  do base <- get plic_regs;
  writel enable (base + PRIORITY_BASE + hwirq d * PRIORITY_PER_ID) ;;
  do cpus <- get present_cpus;
  for_each cpus (fun cpu => plic_toggle cpu (to_int (hwirq d)) enable).

Definition plic_irq_enable (d : irq_data) : M unit := plic_irq_toggle d 1.
Definition plic_irq_disable (d : irq_data) : M unit := plic_irq_toggle d 0.

(** The body of the [while] loop of [plic_handle_irq], after the claim
    register has returned the nonzero id [hw]. *)
Definition plic_handle_irq_body (claim hw : Z) : M unit :=
  do dom <- get plic_irqdomain;
  let irq := to_int (irq_find_mapping dom hw) in
  (if irq <=? 0 then
     log (EvWarnRatelimited hw) ;; log (EvAckBadIrq irq)
   else
     log (EvGenericHandleIrq irq)) ;;
  writel hw claim.

(** [while ((hwirq = readl(claim))) { ... }]: [None] when [fuel]
    iterations were not enough to drain the controller. *)
Fixpoint plic_handle_irq_loop (fuel : nat) (claim : Z) (st : state)
  : option state :=
  match fuel with
  | O => None
  | S fuel' =>
      let (hw, st1) := readl claim st in
      if hw =? 0 then Some st1
      else plic_handle_irq_loop fuel' claim
             (exec (plic_handle_irq_body claim hw) st1)
  end.

(** [static void plic_handle_irq(struct pt_regs *regs)] *)
Definition plic_handle_irq (fuel : nat) (st : state) : option state :=
  let claim := plic_hart_offset (processor_id st) st + CONTEXT_CLAIM in
  let st1 := exec (csr_clear_sie SIE_STIE) st in
  match plic_handle_irq_loop fuel claim st1 with
  | Some st2 => Some (exec (csr_set_sie SIE_STIE) st2)
  | None => None
  end.

(** The body of the [for_each_present_cpu] loop of [plic_init]; the
    loop variable [hwirq] is an [unsigned long], [plic_toggle] takes an
    [int]. *)
Definition plic_init_context (nr_irqs cpu : Z) : M unit :=
  do thr <- get (plic_hart_offset cpu);
  writel 0 (thr + CONTEXT_THRESHOLD) ;;
  for_each (seqZ 1 nr_irqs) (fun hw => plic_toggle cpu (to_int hw) 0).

(** The [out_iounmap:] label. *)
Definition out_iounmap (error : Z) : M Z :=
  do base <- get plic_regs;
  log (EvIounmap base) ;;
  ret error.

(** [static int __init plic_init(struct device_node *node, ...)]

    [nr_handlers] is an [int] and [num_possible_cpus()] an
    [unsigned int], so the comparison is done on [unsigned int]. *)
Definition plic_init (node : device_node) : M Z :=
  do regs <- get plic_regs;
  if negb (regs =? 0) then
    log EvPrWarning ;; ret (- ENXIO)
  else
    modify (set_plic_regs (of_iomap_result node)) ;;
    log (EvOfIomap (of_iomap_result node)) ;;
    if of_iomap_result node =? 0 then
      log (EvWarnOn WarnNoRegs) ;; ret (- EIO)
    else
      let nr_irqs := u32 (riscv_ndev node) in
      if nr_irqs =? 0 then
        log (EvWarnOn WarnNoIrqs) ;; out_iounmap (- EINVAL)
      else
        let nr_handlers := to_int (of_irq_count node) in
        if nr_handlers =? 0 then
          log (EvWarnOn WarnNoHandlers) ;; out_iounmap (- EINVAL)
        else
          do possible <- get num_possible_cpus;
          if u32 nr_handlers <? possible then
            log (EvWarnOn WarnFewHandlers) ;; out_iounmap (- EINVAL)
          else
            let dom := irq_domain_add_linear node (u32 (nr_irqs + 1)) in
            modify (set_plic_irqdomain dom) ;;
            match dom with
            | None => log (EvWarnOn WarnNoDomain) ;; out_iounmap (- ENOMEM)
            | Some _ =>
                do cpus <- get present_cpus;
                for_each cpus (plic_init_context nr_irqs) ;;
                log (EvPrInfo nr_irqs (to_int (Z.of_nat (length cpus)))
                              nr_handlers) ;;
                modify (set_handle_arch_irq true) ;;
                log EvSetHandleIrq ;;
                ret 0
            end.

(** *** Reading the model *)

(** The 32-bit word a non-claim register holds. *)
Definition reg_value (st : state) (addr : Z) : Z :=
  u32 (default 0 (iomem st !! addr)).

(** Address of the enable word of context [ctx] that holds source [s]. *)
Definition enable_reg (st : state) (ctx s : Z) : Z :=
  plic_regs st + ENABLE_BASE + ctx * ENABLE_PER_HART + 4 * (s / 32).

Definition enable_bit (st : state) (ctx s : Z) : bool :=
  Z.testbit (reg_value st (enable_reg st ctx s)) (s mod 32).

Definition threshold (st : state) (ctx : Z) : Z :=
  reg_value st (plic_regs st + CONTEXT_BASE + ctx * CONTEXT_PER_HART).

Definition priority_reg (st : state) (s : Z) : Z :=
  plic_regs st + 4 * s.

(** Values written to [addr], oldest first. *)
Definition writes_to (addr : Z) (tr : list event) : list Z :=
  flat_map (fun e => match e with
                     | EvWritel v a => if a =? addr then [v] else []
                     | _ => []
                     end) tr.

(** Virtual irqs handed to [generic_handle_irq], oldest first. *)
Definition dispatched (tr : list event) : list Z :=
  flat_map (fun e => match e with
                     | EvGenericHandleIrq irq => [irq]
                     | _ => []
                     end) tr.

(** Everything but the register contents and the trace. *)
Definition same_globals (st st' : state) : Prop :=
  plic_regs st' = plic_regs st /\
  plic_irqdomain st' = plic_irqdomain st /\
  claim_tape st' = claim_tape st /\
  claim_reads st' = claim_reads st /\
  csr_sie st' = csr_sie st /\
  cpu_possible_mask st' = cpu_possible_mask st /\
  cpu_present_mask st' = cpu_present_mask st /\
  processor_id st' = processor_id st /\
  handle_arch_irq st' = handle_arch_irq st.

(** The word [plic_toggle] writes back after having read [w]. *)
Definition toggle_word (w hwirq enable : Z) : Z :=
  let hwirq_mask := u32 (Z.shiftl 1 (Z.rem hwirq 32)) in
  if enable =? 0 then Z.land w (not32 hwirq_mask) else Z.lor w hwirq_mask.

(** The events of one [plic_toggle] that found [w] in the enable word. *)
Definition toggle_events (reg w hwirq enable : Z) : list event :=
  [EvSpinLock; EvReadl reg w;
   EvWritel (u32 (toggle_word w hwirq enable)) reg; EvSpinUnlock].

(** [setEnabled(s, e)]: [plic_irq_enable] or [plic_irq_disable] on the
    [irq_data] of source [s]. *)
Definition setEnabled (s : Z) (e : bool) : M unit :=
  if e then plic_irq_enable (mkIrqData s) else plic_irq_disable (mkIrqData s).

(** What the locked read-modify-write of context [c] puts on the bus. *)
Definition locked_rmw (reg old new : Z) : list event :=
  [EvSpinLock; EvReadl reg old; EvWritel new reg; EvSpinUnlock].

(** The state once the window has been mapped. *)
Definition mapped (node : device_node) (st : state) : state :=
  set_trace (trace st ++ [EvOfIomap (of_iomap_result node)])
    (set_plic_regs (of_iomap_result node) st).

(** The state after a [goto out_iounmap] taken at the call site [w]. *)
Definition unmapped_at (w : warn_site) (node : device_node) (st : state)
  : state :=
  set_trace (trace st ++ [EvOfIomap (of_iomap_result node); EvWarnOn w;
                          EvIounmap (of_iomap_result node)])
    (set_plic_regs (of_iomap_result node) st).

(** The state in which the per-context loop of [plic_init] starts. *)
Definition domain_added (node : device_node) (st : state) : state :=
  set_plic_irqdomain
    (Some (mkDomain (u32 (u32 (riscv_ndev node) + 1)) ∅))
    (mapped node st).

(** The state in which that loop ends. *)
Definition contexts_reset (node : device_node) (st : state) : state :=
  exec (for_each (present_cpus st)
          (plic_init_context (u32 (riscv_ndev node))))
       (domain_added node st).

(** The outcome the spec calls [InsufficientContexts]: [-EINVAL] out of
    one of the two checks on [nr_handlers], after the window was mapped
    and released again. *)
Definition insufficient_contexts (node : device_node) (st : state)
  (r : Z * state) : Prop :=
  r = (- EINVAL, unmapped_at WarnNoHandlers node st) \/
  r = (- EINVAL, unmapped_at WarnFewHandlers node st).

Definition num_present_cpus (st : state) : Z :=
  cpumask_weight nr_cpu_ids (cpu_present_mask st).

(** [st'] has the same window as [st] and no register bit that [st]
    has not. *)
Definition shrinks (st st' : state) : Prop :=
  plic_regs st' = plic_regs st /\
  forall a i, Z.testbit (reg_value st' a) i = true ->
              Z.testbit (reg_value st a) i = true.

(** What the loop body leaves behind for its own context. *)
Definition context_reset (nr_irqs cpu : Z) (st : state) : Prop :=
  threshold st cpu = 0 /\
  forall s, 1 <= s <= nr_irqs -> enable_bit st cpu s = false.

(** Error numbers are positive, so that only success returns 0. *)
Definition errno_positive : Prop :=
  0 < ENXIO /\ 0 < EIO /\ 0 < EINVAL /\ 0 < ENOMEM.

(** The events of [st'] that [st] does not have yet. *)
Definition events_since (st st' : state) : list event :=
  drop (length (trace st)) (trace st').

(** *** Address decoding *)

Lemma enable_reg_not_claim ctx s :
  0 <= ctx < MAX_CONTEXTS -> 0 <= s < MAX_DEVICES ->
  is_claim_reg (ENABLE_BASE + ctx * ENABLE_PER_HART + 4 * (s / 32)) = false.
Proof.
  unfold is_claim_reg, MAX_CONTEXTS, MAX_DEVICES, ENABLE_BASE,
    ENABLE_PER_HART, CONTEXT_BASE. intros Hc Hs.
  assert (0 <= s / 32 < 32) by (split; [apply Z.div_pos | apply Z.div_lt_upper_bound]; lia).
  apply andb_false_iff. left. apply Z.leb_gt. lia.
Qed.

Lemma priority_reg_not_claim s :
  0 <= s < MAX_DEVICES -> is_claim_reg (4 * s) = false.
Proof.
  unfold is_claim_reg, MAX_DEVICES, CONTEXT_BASE. intros Hs.
  apply andb_false_iff. left. apply Z.leb_gt. lia.
Qed.

Lemma threshold_reg_not_claim ctx :
  is_claim_reg (CONTEXT_BASE + ctx * CONTEXT_PER_HART) = false.
Proof.
  unfold is_claim_reg, CONTEXT_BASE, CONTEXT_PER_HART, CONTEXT_CLAIM.
  apply andb_false_iff. right. apply Z.eqb_neq.
  replace (2097152 + ctx * 4096 - 2097152) with (ctx * 4096) by lia.
  rewrite Z.mod_mul by lia. lia.
Qed.

Lemma claim_reg_is_claim ctx :
  0 <= ctx ->
  is_claim_reg (CONTEXT_BASE + ctx * CONTEXT_PER_HART + CONTEXT_CLAIM) = true.
Proof.
  unfold is_claim_reg, CONTEXT_BASE, CONTEXT_PER_HART, CONTEXT_CLAIM.
  intros Hc. apply andb_true_iff. split; [apply Z.leb_le; lia |].
  apply Z.eqb_eq.
  replace (2097152 + ctx * 4096 + 4 - 2097152) with (4 + ctx * 4096) by lia.
  rewrite Z.mod_add by lia. reflexivity.
Qed.

(** *** The bus primitives *)

Lemma readl_reg addr st :
  is_claim_reg (addr - plic_regs st) = false ->
  readl addr st =
    (reg_value st addr,
     set_trace (trace st ++ [EvReadl addr (reg_value st addr)]) st).
Proof. intros H. unfold readl. now rewrite H. Qed.

Lemma readl_claim addr st :
  is_claim_reg (addr - plic_regs st) = true ->
  readl addr st =
    (u32 (claim_tape st (claim_reads st)),
     set_trace (trace st ++ [EvReadl addr (u32 (claim_tape st (claim_reads st)))])
       (set_claim_reads (S (claim_reads st)) st)).
Proof. intros H. unfold readl. now rewrite H. Qed.

Lemma writel_reg val addr st :
  is_claim_reg (addr - plic_regs st) = false ->
  writel val addr st =
    (tt, set_iomem (<[addr := u32 val]> (iomem st))
           (set_trace (trace st ++ [EvWritel (u32 val) addr]) st)).
Proof. intros H. unfold writel. now rewrite H. Qed.

Lemma writel_claim val addr st :
  is_claim_reg (addr - plic_regs st) = true ->
  writel val addr st =
    (tt, set_trace (trace st ++ [EvWritel (u32 val) addr]) st).
Proof. intros H. unfold writel. now rewrite H. Qed.

Lemma reg_value_range st a : 0 <= reg_value st a < 2 ^ 32.
Proof. apply u32_range. Qed.

Lemma reg_value_insert st a v a' :
  reg_value (set_iomem (<[a := v]> (iomem st)) st) a' =
  if decide (a = a') then u32 v else reg_value st a'.
Proof.
  unfold reg_value. simpl. rewrite lookup_insert.
  destruct (decide (a = a')); reflexivity.
Qed.

(** *** Bit arithmetic of [plic_toggle] *)

Lemma hwirq_mask_eq s :
  0 <= s -> u32 (Z.shiftl 1 (Z.rem s 32)) = 2 ^ (s mod 32).
Proof.
  intros Hs. rewrite Z.rem_mod_nonneg by lia.
  assert (Hb : 0 <= s mod 32 < 32) by (apply Z.mod_pos_bound; lia).
  rewrite Z.shiftl_1_l. apply u32_small. split; [lia |].
  apply Z.pow_lt_mono_r; lia.
Qed.

Lemma toggle_word_testbit w s enable i :
  0 <= s -> 0 <= w < 2 ^ 32 ->
  Z.testbit (u32 (toggle_word w s enable)) i =
  if i =? s mod 32 then negb (enable =? 0) else Z.testbit w i.
Proof.
  intros Hs Hw. unfold toggle_word. rewrite hwirq_mask_eq by lia.
  assert (Hb : 0 <= s mod 32 < 32) by (apply Z.mod_pos_bound; lia).
  assert (Hhigh : forall j, 32 <= j -> Z.testbit w j = false).
  { intros j Hj. rewrite <- (u32_small w) by lia. now apply u32_testbit_high. }
  destruct (Z.ltb_spec i 0) as [Hneg | Hnn].
  { rewrite !Z.testbit_neg_r by lia.
    destruct (Z.eqb_spec i (s mod 32)); [lia | reflexivity]. }
  destruct (Z.ltb_spec i 32) as [Hlo | Hhi].
  - rewrite u32_testbit by lia.
    destruct (Z.eqb_spec enable 0) as [He | He]; simpl.
    + rewrite Z.land_spec, not32_testbit by lia.
      rewrite Z.pow2_bits_eqb by lia. rewrite (Z.eqb_sym (s mod 32) i).
      destruct (Z.eqb_spec i (s mod 32)); simpl;
        [apply andb_false_r | apply andb_true_r].
    + rewrite Z.lor_spec. rewrite Z.pow2_bits_eqb by lia.
      rewrite (Z.eqb_sym (s mod 32) i).
      destruct (Z.eqb_spec i (s mod 32)); simpl;
        [apply orb_true_r | apply orb_false_r].
  - rewrite u32_testbit_high by lia. rewrite Hhigh by lia.
    destruct (Z.eqb_spec i (s mod 32)); [lia | reflexivity].
Qed.

Lemma toggle_word_set w s :
  0 <= s -> 0 <= w < 2 ^ 32 ->
  u32 (toggle_word w s 1) = Z.setbit w (s mod 32).
Proof.
  intros Hs Hw. apply Z.bits_inj'. intros i Hi.
  rewrite toggle_word_testbit by lia.
  assert (0 <= s mod 32 < 32) by (apply Z.mod_pos_bound; lia).
  rewrite Z.setbit_eqb by lia. rewrite (Z.eqb_sym (s mod 32) i).
  destruct (Z.eqb_spec i (s mod 32)); reflexivity.
Qed.

Lemma toggle_word_clear w s :
  0 <= s -> 0 <= w < 2 ^ 32 ->
  u32 (toggle_word w s 0) = Z.clearbit w (s mod 32).
Proof.
  intros Hs Hw. apply Z.bits_inj'. intros i Hi.
  rewrite toggle_word_testbit by lia.
  assert (0 <= s mod 32 < 32) by (apply Z.mod_pos_bound; lia).
  rewrite Z.clearbit_eqb by lia. rewrite (Z.eqb_sym (s mod 32) i).
  destruct (Z.eqb_spec i (s mod 32)); simpl;
    [now rewrite andb_false_r | now rewrite andb_true_r].
Qed.

(** *** One toggle *)

Ltac run := unfold exec, bind, ret, get, modify, log; simpl.

Lemma same_globals_refl st : same_globals st st.
Proof. unfold same_globals. tauto. Qed.

Lemma same_globals_trans st1 st2 st3 :
  same_globals st1 st2 -> same_globals st2 st3 -> same_globals st1 st3.
Proof. unfold same_globals. intuition congruence. Qed.

Lemma plic_toggle_reg ctx s enable st :
  0 <= s ->
  is_claim_reg (enable_reg st ctx s - plic_regs st) = false ->
  let reg := enable_reg st ctx s in
  let w := reg_value st reg in
  exec (plic_toggle ctx s enable) st =
    set_iomem (<[reg := u32 (toggle_word w s enable)]> (iomem st))
      (set_trace (trace st ++ toggle_events reg w s enable) st).
Proof.
  intros Hs Hreg reg w. unfold plic_toggle, spin_lock, spin_unlock. run.
  rewrite Z.quot_div_nonneg by lia.
  replace (plic_regs st + ENABLE_BASE + ctx * ENABLE_PER_HART + s / 32 * 4)
    with reg by (unfold reg, enable_reg; lia).
  destruct (enable =? 0) eqn:He; run;
    rewrite readl_reg by exact Hreg; rewrite writel_reg by exact Hreg;
    simpl; unfold toggle_events, toggle_word, set_iomem, set_trace; simpl;
    rewrite He; fold w; rewrite <- !app_assoc; reflexivity.
Qed.

Lemma plic_toggle_claim ctx s enable st :
  0 <= s ->
  is_claim_reg (enable_reg st ctx s - plic_regs st) = true ->
  iomem (exec (plic_toggle ctx s enable) st) = iomem st /\
  plic_regs (exec (plic_toggle ctx s enable) st) = plic_regs st.
Proof.
  intros Hs Hreg. unfold plic_toggle, spin_lock, spin_unlock. run.
  rewrite Z.quot_div_nonneg by lia.
  replace (plic_regs st + ENABLE_BASE + ctx * ENABLE_PER_HART + s / 32 * 4)
    with (enable_reg st ctx s) by (unfold enable_reg; lia).
  destruct (enable =? 0); run;
    rewrite readl_claim by exact Hreg; rewrite writel_claim by exact Hreg;
    simpl; auto.
Qed.

Lemma enable_reg_inj st c s c' s' :
  0 <= s < MAX_DEVICES -> 0 <= s' < MAX_DEVICES ->
  enable_reg st c' s' = enable_reg st c s -> c' = c /\ s' / 32 = s / 32.
Proof.
  unfold enable_reg, MAX_DEVICES, ENABLE_BASE, ENABLE_PER_HART.
  intros Hs Hs' Heq.
  assert (0 <= s / 32 < 32)
    by (split; [apply Z.div_pos | apply Z.div_lt_upper_bound]; lia).
  assert (0 <= s' / 32 < 32)
    by (split; [apply Z.div_pos | apply Z.div_lt_upper_bound]; lia).
  lia.
Qed.

(** C10.  A single [plic_toggle(c, s, enable)] changes at most bit
    [s mod 32] of the enable word addressed by [(c, s / 32)]: the other
    bits of that word keep their value, every other register of the
    window keeps its content, hence the enable bit of every other
    (context, source) pair is the same before and after; the driver's
    globals are not touched either. *)
Theorem plic_toggle_frame st c s enable :
  0 <= s < MAX_DEVICES ->
  let st' := exec (plic_toggle c s enable) st in
  let reg := enable_reg st c s in
  (forall i, i <> s mod 32 ->
     Z.testbit (reg_value st' reg) i = Z.testbit (reg_value st reg) i) /\
  (forall a, a <> reg -> iomem st' !! a = iomem st !! a) /\
  (forall c' s', 0 <= s' < MAX_DEVICES -> (c', s') <> (c, s) ->
     enable_bit st' c' s' = enable_bit st c' s') /\
  plic_regs st' = plic_regs st.
Proof.
  intros Hs st' reg.
  assert (Hregs : plic_regs st' = plic_regs st).
  { unfold st'.
    destruct (is_claim_reg (enable_reg st c s - plic_regs st)) eqn:Hc.
    - apply plic_toggle_claim; [lia | exact Hc].
    - rewrite plic_toggle_reg by (lia || exact Hc). reflexivity. }
  assert (Hbits : forall i, i <> s mod 32 ->
     Z.testbit (reg_value st' reg) i = Z.testbit (reg_value st reg) i).
  { intros i Hi. unfold st'.
    destruct (is_claim_reg (enable_reg st c s - plic_regs st)) eqn:Hc.
    - unfold reg_value.
      destruct (plic_toggle_claim c s enable st) as [-> _];
        [lia | exact Hc | reflexivity].
    - rewrite plic_toggle_reg by (lia || exact Hc).
      unfold reg_value at 1. simpl. rewrite lookup_insert_eq. simpl.
      rewrite (u32_small (u32 _)) by apply u32_range.
      rewrite toggle_word_testbit by (lia || apply reg_value_range).
      destruct (Z.eqb_spec i (s mod 32)); [contradiction | reflexivity]. }
  assert (Hframe : forall a, a <> reg -> iomem st' !! a = iomem st !! a).
  { intros a Ha. unfold st'.
    destruct (is_claim_reg (enable_reg st c s - plic_regs st)) eqn:Hc.
    - destruct (plic_toggle_claim c s enable st) as [-> _];
        [lia | exact Hc | reflexivity].
    - rewrite plic_toggle_reg by (lia || exact Hc). simpl.
      apply lookup_insert_ne. intros Heq. apply Ha. now rewrite <- Heq. }
  repeat split; try assumption.
  intros c' s' Hs' Hne. unfold enable_bit.
  assert (Hreg' : enable_reg st' c' s' = enable_reg st c' s')
    by (unfold enable_reg; now rewrite Hregs).
  rewrite Hreg'.
  destruct (decide (enable_reg st c' s' = reg)) as [Heq | Hneq].
  - rewrite Heq. apply Hbits. intros Hmod.
    apply enable_reg_inj in Heq as [-> Hdiv]; [| lia | lia].
    apply Hne. f_equal.
    pose proof (Z.div_mod s' 32). pose proof (Z.div_mod s 32). lia.
  - unfold reg_value. now rewrite Hframe.
Qed.

(** *** Loops over cpus *)

Lemma present_cpus_NoDup st : NoDup (present_cpus st).
Proof. apply NoDup_filter, NoDup_seqZ. Qed.

Lemma present_cpus_range st c :
  c ∈ present_cpus st -> 0 <= c < nr_cpu_ids.
Proof. intros H. now apply elem_of_for_each_cpu in H. Qed.

Lemma enable_reg_offset st ctx s :
  0 <= ctx < MAX_CONTEXTS -> 0 <= s < MAX_DEVICES ->
  is_claim_reg (enable_reg st ctx s - plic_regs st) = false.
Proof.
  intros Hc Hs. rewrite <- (enable_reg_not_claim ctx s Hc Hs).
  f_equal. unfold enable_reg. lia.
Qed.

Lemma for_each_toggle cpus s enable :
  0 <= s < MAX_DEVICES ->
  forall st,
    NoDup cpus -> (forall c, c ∈ cpus -> 0 <= c < MAX_CONTEXTS) ->
    let st' := exec (for_each cpus (fun c => plic_toggle c s enable)) st in
    let word c := reg_value st (enable_reg st c s) in
    trace st' =
      trace st ++
      flat_map (fun c => toggle_events (enable_reg st c s) (word c) s enable) cpus /\
    same_globals st st' /\
    (forall c, c ∈ cpus ->
       reg_value st' (enable_reg st c s) = u32 (toggle_word (word c) s enable)) /\
    (forall a, (forall c, c ∈ cpus -> a <> enable_reg st c s) ->
       iomem st' !! a = iomem st !! a).
Proof.
  intros Hs. induction cpus as [| c l IH]; intros st Hnd Hrange; cbv zeta.
  - simpl. split; [| split; [| split]].
    + now rewrite app_nil_r.
    + apply same_globals_refl.
    + intros c Hc. inversion Hc.
    + reflexivity.
  - rewrite exec_for_each_cons.
    apply NoDup_cons in Hnd as [Hnotin Hnd].
    assert (Hc : 0 <= c < MAX_CONTEXTS) by (apply Hrange; left).
    pose proof (plic_toggle_reg c s enable st ltac:(lia)
                  (enable_reg_offset st c s Hc Hs)) as Hstep.
    simpl in Hstep.
    remember (exec (plic_toggle c s enable) st) as st1 eqn:Est1.
    clear Est1.
    assert (Hregs : plic_regs st1 = plic_regs st) by now rewrite Hstep.
    assert (Hereg : forall c', enable_reg st1 c' s = enable_reg st c' s)
      by (intros; unfold enable_reg; now rewrite Hregs).
    assert (Hother : forall a, a <> enable_reg st c s ->
              iomem st1 !! a = iomem st !! a).
    { intros a Ha. rewrite Hstep. simpl. now apply lookup_insert_ne. }
    assert (Hword : forall c', c' ∈ l ->
              reg_value st1 (enable_reg st1 c' s) = reg_value st (enable_reg st c' s)).
    { intros c' Hc'. rewrite Hereg. unfold reg_value. rewrite Hother; [reflexivity |].
      intros Heq. apply enable_reg_inj in Heq as [-> _]; [| lia | lia].
      contradiction. }
    destruct (IH st1 Hnd) as (Htr & Hglob & Hnew & Hframe).
    { intros c' Hc'. apply Hrange. now right. }
    split; [| split; [| split]].
    + assert (Htr1 : trace st1 = trace st ++
                toggle_events (enable_reg st c s)
                  (reg_value st (enable_reg st c s)) s enable)
        by now rewrite Hstep.
      rewrite Htr, Htr1, <- app_assoc. f_equal. cbn [flat_map]. f_equal.
      apply flat_map_ext_elem. intros c' Hc'.
      rewrite Hereg, <- Hword by assumption. now rewrite Hereg.
    + eapply same_globals_trans; [| exact Hglob].
      rewrite Hstep. unfold same_globals. simpl. tauto.
    + intros c' Hc'. apply elem_of_cons in Hc' as [-> | Hc'].
      * unfold reg_value at 1. rewrite Hframe.
        -- rewrite Hstep. simpl. rewrite lookup_insert_eq. simpl.
           apply u32_small, u32_range.
        -- intros c' Hc' Heq. rewrite Hereg in Heq.
           apply enable_reg_inj in Heq as [-> _]; [| lia | lia].
           contradiction.
      * rewrite <- (Hword c') by assumption.
        rewrite <- Hnew by assumption. now rewrite Hereg.
    + intros a Ha. rewrite Hframe.
      * apply Hother. apply Ha. left.
      * intros c' Hc'. rewrite Hereg. apply Ha. now right.
Qed.

(** *** Enabling and disabling a source *)

(** C6.  [setEnabled(s, e)] first writes 1 (enable) or 0 (disable) to
    the priority register at offset [4 * s]; then, for every present
    cpu [c] in increasing order, it takes the toggle lock, reads the
    enable word at offset [0x2000 + 0x80 * c + 4 * (s / 32)], writes it
    back with bit [s mod 32] set (enable) or cleared (disable), and
    releases the lock.  Nothing else reaches the bus, and afterwards the
    registers hold what was written. *)
Theorem setEnabled_spec st s (e : bool) :
  nr_cpu_ids <= MAX_CONTEXTS ->
  0 <= s < MAX_DEVICES ->
  let st' := exec (setEnabled s e) st in
  let reg c := plic_regs st + 0x2000 + 0x80 * c + 4 * (s / 32) in
  let old c := reg_value st (reg c) in
  let new c := if e then Z.setbit (old c) (s mod 32)
               else Z.clearbit (old c) (s mod 32) in
  trace st' =
    trace st ++
    EvWritel (Z.b2z e) (plic_regs st + 4 * s) ::
    flat_map (fun c => locked_rmw (reg c) (old c) (new c)) (present_cpus st) /\
  reg_value st' (plic_regs st + 4 * s) = Z.b2z e /\
  (forall c, c ∈ present_cpus st ->
     reg_value st' (reg c) = new c /\ enable_bit st' c s = e) /\
  same_globals st st'.
Proof.
  intros Hcpus Hs st' reg old new.
  assert (Hb : u32 (Z.b2z e) = Z.b2z e)
    by (apply u32_small; destruct e; simpl; lia).
  assert (Hst' : st' = exec (plic_irq_toggle (mkIrqData s) (Z.b2z e)) st)
    by (unfold st', setEnabled, plic_irq_enable, plic_irq_disable;
        now destruct e).
  assert (Hprio : is_claim_reg (plic_regs st + 4 * s - plic_regs st) = false).
  { rewrite <- (priority_reg_not_claim s Hs). f_equal. lia. }
  unfold plic_irq_toggle in Hst'. rewrite exec_bind in Hst'.
  unfold get at 1 2 in Hst'. unfold exec at 2 in Hst'. simpl in Hst'.
  rewrite exec_bind in Hst'.
  replace (plic_regs st + PRIORITY_BASE + s * PRIORITY_PER_ID)
    with (plic_regs st + 4 * s) in Hst'
    by (unfold PRIORITY_BASE, PRIORITY_PER_ID; lia).
  unfold exec at 2 in Hst'. rewrite writel_reg in Hst' by exact Hprio.
  simpl in Hst'. rewrite Hb in Hst'.
  remember (set_iomem (<[plic_regs st + 4 * s := Z.b2z e]> (iomem st))
              (set_trace (trace st ++ [EvWritel (Z.b2z e) (plic_regs st + 4 * s)]) st))
    as st0 eqn:Hst0.
  rewrite exec_bind in Hst'. unfold get in Hst'. unfold exec at 2 in Hst'.
  simpl in Hst'. rewrite to_int_small in Hst'
    by (unfold MAX_DEVICES in Hs; lia).
  assert (Hcp : present_cpus st0 = present_cpus st) by now rewrite Hst0.
  assert (Hregs0 : plic_regs st0 = plic_regs st) by now rewrite Hst0.
  assert (Hreg : forall c, enable_reg st0 c s = reg c).
  { intros c. unfold enable_reg, reg, ENABLE_BASE, ENABLE_PER_HART.
    rewrite Hregs0. lia. }
  assert (Hne : forall c, 0 <= c -> reg c <> plic_regs st + 4 * s).
  { intros c Hc. unfold reg, MAX_DEVICES in *.
    assert (0 <= s / 32) by (apply Z.div_pos; lia). lia. }
  assert (Hold : forall c, c ∈ present_cpus st ->
            reg_value st0 (reg c) = old c).
  { intros c Hc. apply present_cpus_range in Hc.
    unfold old, reg_value. rewrite Hst0. simpl.
    rewrite lookup_insert_ne; [reflexivity |].
    intros Heq. now apply (Hne c ltac:(lia)). }
  assert (Hnew : forall c,
            u32 (toggle_word (old c) s (Z.b2z e)) = new c).
  { intros c. unfold new. destruct e; simpl.
    - apply toggle_word_set; [lia | apply reg_value_range].
    - apply toggle_word_clear; [lia | apply reg_value_range]. }
  destruct (for_each_toggle (present_cpus st0) s (Z.b2z e) Hs st0)
    as (Htr & Hglob & Hval & Hframe).
  { apply present_cpus_NoDup. }
  { intros c Hc. apply present_cpus_range in Hc. lia. }
  rewrite <- Hst' in Htr, Hglob, Hval, Hframe. rewrite Hcp in *.
  split; [| split; [| split]].
  - rewrite Htr. rewrite Hst0 at 1. simpl. rewrite <- app_assoc. simpl.
    do 2 f_equal. apply flat_map_ext_elem. intros c Hc.
    rewrite Hreg, Hold by assumption. unfold toggle_events, locked_rmw.
    now rewrite Hnew.
  - unfold reg_value. rewrite Hframe.
    + rewrite Hst0. simpl. rewrite lookup_insert_eq. simpl. exact Hb.
    + intros c Hc. rewrite Hreg. apply present_cpus_range in Hc.
      intros Heq. now apply (Hne c ltac:(lia)).
  - intros c Hc.
    assert (Hv : reg_value st' (reg c) = new c).
    { rewrite <- Hreg, Hval by assumption.
      rewrite Hreg, Hold by assumption. apply Hnew. }
    split; [exact Hv |].
    unfold enable_bit.
    assert (Hst'regs : plic_regs st' = plic_regs st).
    { destruct Hglob as [-> _]. exact Hregs0. }
    replace (enable_reg st' c s) with (reg c)
      by (unfold enable_reg, reg, ENABLE_BASE, ENABLE_PER_HART;
          rewrite Hst'regs; lia).
    rewrite Hv. unfold new.
    assert (0 <= s mod 32 < 32) by (apply Z.mod_pos_bound; lia).
    destruct e.
    + rewrite Z.setbit_eqb by lia. now rewrite Z.eqb_refl.
    + rewrite Z.clearbit_eqb by lia. rewrite Z.eqb_refl. simpl.
      apply andb_false_r.
  - eapply same_globals_trans; [| exact Hglob].
    rewrite Hst0. unfold same_globals. simpl. tauto.
Qed.

(** *** Initialisation: the seven ways through [plic_init] *)

Ltac branch :=
  unfold plic_init, out_iounmap, mapped, unmapped_at;
  cbv [bind ret get modify log]; cbn [plic_regs set_plic_regs set_trace
    trace set_plic_irqdomain plic_irqdomain negb].

Lemma plic_init_already node st :
  plic_regs st <> 0 ->
  plic_init node st = (- ENXIO, set_trace (trace st ++ [EvPrWarning]) st).
Proof.
  intros H. apply Z.eqb_neq in H. branch. now rewrite H.
Qed.

Lemma plic_init_no_regs node st :
  plic_regs st = 0 -> of_iomap_result node = 0 ->
  plic_init node st =
    (- EIO, set_trace (trace (mapped node st) ++ [EvWarnOn WarnNoRegs])
              (mapped node st)).
Proof.
  intros H1 H2. branch. rewrite H1, H2. reflexivity.
Qed.

Lemma plic_init_no_irqs node st :
  plic_regs st = 0 -> of_iomap_result node <> 0 ->
  u32 (riscv_ndev node) = 0 ->
  plic_init node st = (- EINVAL, unmapped_at WarnNoIrqs node st).
Proof.
  intros H1 H2 H3. apply Z.eqb_neq in H2. branch.
  rewrite H1, H2, H3. simpl. unfold set_trace. simpl.
  now rewrite <- !app_assoc.
Qed.

Lemma plic_init_no_handlers node st :
  plic_regs st = 0 -> of_iomap_result node <> 0 ->
  u32 (riscv_ndev node) <> 0 ->
  to_int (of_irq_count node) = 0 ->
  plic_init node st = (- EINVAL, unmapped_at WarnNoHandlers node st).
Proof.
  intros H1 H2 H3 H4. apply Z.eqb_neq in H2, H3. branch.
  rewrite H1, H2, H3, H4. simpl. unfold set_trace. simpl.
  now rewrite <- !app_assoc.
Qed.

Lemma plic_init_few_handlers node st :
  plic_regs st = 0 -> of_iomap_result node <> 0 ->
  u32 (riscv_ndev node) <> 0 ->
  to_int (of_irq_count node) <> 0 ->
  u32 (to_int (of_irq_count node)) < num_possible_cpus st ->
  plic_init node st = (- EINVAL, unmapped_at WarnFewHandlers node st).
Proof.
  intros H1 H2 H3 H4 H5. apply Z.eqb_neq in H2, H3, H4.
  apply Z.ltb_lt in H5. branch.
  rewrite H1, H2, H3, H4. simpl.
  change (num_possible_cpus _) with (num_possible_cpus st).
  rewrite H5. simpl. unfold set_trace. simpl.
  now rewrite <- !app_assoc.
Qed.

Lemma plic_init_no_domain node st :
  plic_regs st = 0 -> of_iomap_result node <> 0 ->
  u32 (riscv_ndev node) <> 0 ->
  to_int (of_irq_count node) <> 0 ->
  num_possible_cpus st <= u32 (to_int (of_irq_count node)) ->
  domain_alloc_ok node = false ->
  plic_init node st =
    (- ENOMEM, set_plic_irqdomain None (unmapped_at WarnNoDomain node st)).
Proof.
  intros H1 H2 H3 H4 H5 H6. apply Z.eqb_neq in H2, H3, H4.
  apply Z.ltb_ge in H5. branch.
  rewrite H1, H2, H3, H4. simpl.
  change (num_possible_cpus _) with (num_possible_cpus st).
  rewrite H5. unfold irq_domain_add_linear. rewrite H6. simpl.
  unfold set_trace, set_plic_irqdomain. simpl.
  now rewrite <- !app_assoc.
Qed.

Lemma plic_init_ok node st :
  plic_regs st = 0 -> of_iomap_result node <> 0 ->
  u32 (riscv_ndev node) <> 0 ->
  to_int (of_irq_count node) <> 0 ->
  num_possible_cpus st <= u32 (to_int (of_irq_count node)) ->
  domain_alloc_ok node = true ->
  plic_init node st =
    (0, let st3 := contexts_reset node st in
        set_trace
          (trace st3 ++
           [EvPrInfo (u32 (riscv_ndev node))
                     (to_int (Z.of_nat (length (present_cpus st))))
                     (to_int (of_irq_count node));
            EvSetHandleIrq])
          (set_handle_arch_irq true st3)).
Proof.
  intros H1 H2 H3 H4 H5 H6. apply Z.eqb_neq in H2, H3, H4.
  apply Z.ltb_ge in H5. branch.
  rewrite H1, H2, H3, H4. simpl.
  change (num_possible_cpus _) with (num_possible_cpus st).
  rewrite H5. unfold irq_domain_add_linear. rewrite H6. simpl.
  change (present_cpus _) with (present_cpus st).
  unfold contexts_reset, domain_added, mapped, exec.
  match goal with
  | |- context [for_each ?l ?b ?s] => destruct (for_each l b s) as [[] st3]
  end.
  simpl. unfold set_trace, set_handle_arch_irq. simpl.
  now rewrite <- !app_assoc.
Qed.

(** *** Failing for want of contexts *)

Lemma unmapped_at_inj w w' node st :
  unmapped_at w node st = unmapped_at w' node st -> w = w'.
Proof.
  unfold unmapped_at. intros H. apply (f_equal trace) in H. simpl in H.
  apply app_inv_head in H. congruence.
Qed.

(** Past the two checks on [nr_handlers], no outcome of [plic_init] is
    the one of those checks failing. *)
Lemma plic_init_passes_context_checks node st :
  plic_regs st = 0 ->
  of_iomap_result node <> 0 ->
  u32 (riscv_ndev node) <> 0 ->
  to_int (of_irq_count node) <> 0 ->
  num_possible_cpus st <= u32 (to_int (of_irq_count node)) ->
  ~ insufficient_contexts node st (plic_init node st).
Proof.
  intros Hregs Hmap Hirqs Hnz Hge Hfail. unfold insufficient_contexts in Hfail.
  destruct (domain_alloc_ok node) eqn:Halloc.
  - rewrite plic_init_ok in Hfail by assumption.
    destruct Hfail as [Hfail | Hfail]; apply (f_equal snd) in Hfail;
      apply (f_equal trace) in Hfail; simpl in Hfail;
      unfold unmapped_at in Hfail; simpl in Hfail;
      rewrite snoc2, snoc3 in Hfail;
      apply app_inj_tail in Hfail as [_ Hfail]; discriminate.
  - rewrite plic_init_no_domain in Hfail by assumption.
    destruct Hfail as [Hfail | Hfail]; apply (f_equal snd) in Hfail;
      apply (f_equal trace) in Hfail; simpl in Hfail;
      apply app_inv_head in Hfail; discriminate.
Qed.

(** The two checks on [nr_handlers] as the code writes them, against
    [num_possible_cpus()]: with the window not yet mapped, the mapping
    successful and a nonzero source count, [plic_init] leaves through one
    of them exactly when the number of contexts is zero or less than the
    number of possible cpus. *)
Lemma plic_init_context_checks_possible node st :
  plic_regs st = 0 ->
  of_iomap_result node <> 0 ->
  u32 (riscv_ndev node) <> 0 ->
  0 <= of_irq_count node < 2 ^ 31 ->
  insufficient_contexts node st (plic_init node st) <->
  of_irq_count node = 0 \/ of_irq_count node < num_possible_cpus st.
Proof.
  intros Hregs Hmap Hirqs Hcount.
  assert (Hint : to_int (of_irq_count node) = of_irq_count node)
    by (apply to_int_small; lia).
  assert (Hu : u32 (of_irq_count node) = of_irq_count node)
    by (apply u32_small; lia).
  destruct (decide (of_irq_count node = 0)) as [Hz | Hnz].
  { unfold insufficient_contexts.
    rewrite plic_init_no_handlers by (assumption || congruence). tauto. }
  destruct (Z.lt_ge_cases (of_irq_count node) (num_possible_cpus st))
    as [Hlt | Hge].
  { unfold insufficient_contexts.
    rewrite plic_init_few_handlers by (assumption || congruence). tauto. }
  split; [| lia]. intros Hfail. exfalso.
  apply (plic_init_passes_context_checks node st); try assumption;
    rewrite ?Hint, ?Hu; (congruence || lia).
Qed.

(** C1.  On a machine whose possible cpus are the present ones, which is
    how [setup_smp] leaves the two masks, and with the boot cpu present:
    once the window is mapped and the source count is nonzero, [plic_init]
    fails at its context-count checks exactly when the node reports fewer
    contexts than there are present cpus.  That failure returns [-EINVAL],
    its last act is to unmap the window, and no register was written; with
    at least as many contexts as present cpus it does not occur. *)
Theorem plic_init_insufficient_contexts node st :
  cpu_possible_mask st = cpu_present_mask st ->
  0 < num_present_cpus st ->
  plic_regs st = 0 ->
  of_iomap_result node <> 0 ->
  u32 (riscv_ndev node) <> 0 ->
  0 <= of_irq_count node < 2 ^ 31 ->
  (insufficient_contexts node st (plic_init node st) <->
   of_irq_count node < num_present_cpus st) /\
  (of_irq_count node < num_present_cpus st ->
   fst (plic_init node st) = - EINVAL /\
   last (trace (snd (plic_init node st))) =
     Some (EvIounmap (of_iomap_result node)) /\
   iomem (snd (plic_init node st)) = iomem st) /\
  (num_present_cpus st <= of_irq_count node ->
   ~ insufficient_contexts node st (plic_init node st)).
Proof.
  intros Hmask Hboot Hregs Hmap Hirqs Hcount.
  assert (Hint : to_int (of_irq_count node) = of_irq_count node)
    by (apply to_int_small; lia).
  assert (Hu : u32 (of_irq_count node) = of_irq_count node)
    by (apply u32_small; lia).
  assert (Hnum : num_present_cpus st = num_possible_cpus st)
    by (unfold num_present_cpus, num_possible_cpus; now rewrite Hmask).
  rewrite Hnum in *.
  assert (Hlast : forall w,
            last (trace (unmapped_at w node st)) =
            Some (EvIounmap (of_iomap_result node))).
  { intros w. unfold unmapped_at. cbn [trace set_trace].
    rewrite snoc3. apply last_snoc. }
  assert (Hpass : num_possible_cpus st <= of_irq_count node ->
                  ~ insufficient_contexts node st (plic_init node st)).
  { intros Hge.
    apply (plic_init_passes_context_checks node st); try assumption;
      rewrite ?Hint, ?Hu; lia. }
  destruct (decide (of_irq_count node = 0)) as [Hz | Hnz].
  { rewrite plic_init_no_handlers by (assumption || congruence).
    cbn [fst snd]. unfold insufficient_contexts.
    split; [split; [lia | tauto] |].
    split; [| lia]. intros _. now rewrite Hlast. }
  destruct (Z.lt_ge_cases (of_irq_count node) (num_possible_cpus st))
    as [Hlt | Hge].
  - rewrite plic_init_few_handlers
      by (assumption || (rewrite ?Hint, ?Hu; lia)).
    cbn [fst snd]. unfold insufficient_contexts.
    split; [split; [lia | tauto] |].
    split; [| lia]. intros _. now rewrite Hlast.
  - split; [split; [| lia] |].
    + intros Hfail. now destruct (Hpass Hge).
    + split; [lia | exact Hpass].
Qed.

(** *** Initialisation only clears bits *)

Lemma shrinks_refl st : shrinks st st.
Proof. split; auto. Qed.

Lemma shrinks_trans st1 st2 st3 :
  shrinks st1 st2 -> shrinks st2 st3 -> shrinks st1 st3.
Proof. intros [H1 H2] [H3 H4]. split; [congruence | auto]. Qed.

Lemma shrinks_enable_bit st st' c s :
  shrinks st st' -> enable_bit st c s = false -> enable_bit st' c s = false.
Proof.
  intros [Hregs Hbits] H. unfold enable_bit, enable_reg in *.
  rewrite Hregs. apply not_true_is_false. intros Hb.
  apply Hbits in Hb. congruence.
Qed.

Lemma shrinks_threshold st st' c :
  shrinks st st' -> threshold st c = 0 -> threshold st' c = 0.
Proof.
  intros [Hregs Hbits] H. unfold threshold in *. rewrite Hregs.
  apply Z.bits_inj'. intros i _. rewrite Z.bits_0.
  apply not_true_is_false. intros Hb. apply Hbits in Hb.
  rewrite H, Z.bits_0 in Hb. discriminate.
Qed.

Lemma writel_zero_shrinks addr st : shrinks st (exec (writel 0 addr) st).
Proof.
  unfold exec, writel.
  destruct (is_claim_reg (addr - plic_regs st)); simpl.
  - split; [reflexivity |]. intros a i H. exact H.
  - split; [reflexivity |]. intros a i.
    rewrite (reg_value_insert
               (set_trace (trace st ++ [EvWritel (u32 0) addr]) st)).
    destruct (decide (addr = a)); [| auto].
    change (u32 (u32 0)) with 0. rewrite Z.bits_0. discriminate.
Qed.

Lemma plic_toggle_off_shrinks c s st :
  0 <= s -> shrinks st (exec (plic_toggle c s 0) st).
Proof.
  intros Hs.
  destruct (is_claim_reg (enable_reg st c s - plic_regs st)) eqn:Hc.
  - destruct (plic_toggle_claim c s 0 st Hs Hc) as [Hmem Hregs].
    split; [exact Hregs |]. intros a i. unfold reg_value.
    now rewrite Hmem.
  - rewrite plic_toggle_reg by assumption. split; [reflexivity |].
    intros a i.
    rewrite (reg_value_insert (set_trace _ st)).
    destruct (decide (enable_reg st c s = a)) as [<- | Hne]; [| auto].
    rewrite (u32_small (u32 _)) by apply u32_range.
    rewrite toggle_word_testbit by (lia || apply reg_value_range).
    destruct (i =? s mod 32); [discriminate | auto].
Qed.

Lemma for_each_shrinks {A} (body : A -> M unit) l :
  (forall x st, x ∈ l -> shrinks st (exec (body x) st)) ->
  forall st, shrinks st (exec (for_each l body) st).
Proof.
  intros Hbody st.
  apply (for_each_preserves (shrinks st)); [| apply shrinks_refl].
  intros x st0 Hx Hs. eapply shrinks_trans; [exact Hs | now apply Hbody].
Qed.

Lemma plic_toggle_bit c s enable st :
  0 <= c < MAX_CONTEXTS -> 0 <= s < MAX_DEVICES ->
  enable_bit (exec (plic_toggle c s enable) st) c s = negb (enable =? 0).
Proof.
  intros Hc Hs. rewrite plic_toggle_reg
    by (lia || now apply enable_reg_offset).
  unfold enable_bit.
  replace (enable_reg (set_iomem _ _) c s) with (enable_reg st c s)
    by reflexivity.
  rewrite (reg_value_insert (set_trace _ st)).
  destruct (decide (enable_reg st c s = enable_reg st c s)); [| congruence].
  rewrite (u32_small (u32 _)) by apply u32_range.
  rewrite toggle_word_testbit by (lia || apply reg_value_range).
  now rewrite Z.eqb_refl.
Qed.

Section ResetContexts.

Variable nr_irqs : Z.
Hypothesis nr_irqs_bound : nr_irqs < MAX_DEVICES.

Lemma sources_range hw :
  hw ∈ seqZ 1 nr_irqs -> 1 <= hw <= nr_irqs /\ to_int hw = hw.
Proof.
  rewrite elem_of_seqZ. intros H. split; [lia |].
  apply to_int_small. unfold MAX_DEVICES in *. lia.
Qed.

Lemma plic_init_context_shrinks cpu st :
  shrinks st (exec (plic_init_context nr_irqs cpu) st).
Proof.
  unfold plic_init_context. rewrite exec_bind.
  unfold get at 1 2. unfold exec at 2. simpl. rewrite exec_bind.
  eapply shrinks_trans; [apply writel_zero_shrinks |].
  apply for_each_shrinks. intros hw st0 Hhw.
  apply sources_range in Hhw as [Hr ->].
  apply plic_toggle_off_shrinks. lia.
Qed.

Lemma context_reset_stable cpu st st' :
  shrinks st st' ->
  context_reset nr_irqs cpu st -> context_reset nr_irqs cpu st'.
Proof.
  intros Hs [Hthr Hbits]. split.
  - eapply shrinks_threshold; eassumption.
  - intros s Hr. eapply shrinks_enable_bit; eauto.
Qed.

Lemma plic_init_context_resets cpu st :
  0 <= cpu < MAX_CONTEXTS ->
  context_reset nr_irqs cpu (exec (plic_init_context nr_irqs cpu) st).
Proof.
  intros Hcpu. unfold plic_init_context. rewrite exec_bind.
  unfold get at 1 2. unfold exec at 2. simpl. rewrite exec_bind.
  set (thr := plic_hart_offset cpu st + CONTEXT_THRESHOLD).
  set (st1 := exec (writel 0 thr) st).
  assert (Hthr : is_claim_reg (thr - plic_regs st) = false).
  { rewrite <- (threshold_reg_not_claim cpu). f_equal.
    unfold thr, plic_hart_offset, CONTEXT_THRESHOLD. lia. }
  assert (H1 : threshold st1 cpu = 0).
  { unfold st1, exec. rewrite writel_reg by exact Hthr. simpl.
    unfold threshold. simpl.
    rewrite (reg_value_insert (set_trace _ st)).
    replace (plic_regs st + CONTEXT_BASE + cpu * CONTEXT_PER_HART)
      with thr
      by (unfold thr, plic_hart_offset, CONTEXT_THRESHOLD; lia).
    destruct (decide (thr = thr)); [reflexivity | congruence]. }
  split.
  - eapply shrinks_threshold; [| exact H1].
    apply for_each_shrinks. intros hw st0 Hhw.
    apply sources_range in Hhw as [Hr ->].
    apply plic_toggle_off_shrinks. lia.
  - intros s Hr.
    apply (for_each_establishes
             (fun hw st0 => enable_bit st0 cpu hw = false)).
    + intros hw st0 Hhw. apply sources_range in Hhw as [Hr' ->].
      apply plic_toggle_bit; [exact Hcpu | lia].
    + intros hw hw' st0 Hhw' Hbit.
      apply sources_range in Hhw' as [Hr' ->].
      eapply shrinks_enable_bit; [| exact Hbit].
      apply plic_toggle_off_shrinks. lia.
    + apply elem_of_seqZ. lia.
Qed.

Lemma for_each_context_resets cpus st :
  (forall cpu, cpu ∈ cpus -> 0 <= cpu < MAX_CONTEXTS) ->
  forall cpu, cpu ∈ cpus ->
    context_reset nr_irqs cpu
      (exec (for_each cpus (plic_init_context nr_irqs)) st).
Proof.
  intros Hrange cpu Hcpu.
  apply (for_each_establishes (context_reset nr_irqs)); [| | exact Hcpu].
  - intros c st0 Hc. now apply plic_init_context_resets, Hrange.
  - intros c c' st0 Hc' Hreset.
    eapply context_reset_stable; [| exact Hreset].
    apply plic_init_context_shrinks.
Qed.

End ResetContexts.

(** *** Successful initialisation *)

Lemma plic_init_success node st st' :
  errno_positive ->
  plic_init node st = (0, st') ->
  plic_regs st = 0 /\ of_iomap_result node <> 0 /\
  u32 (riscv_ndev node) <> 0 /\
  num_possible_cpus st <= u32 (to_int (of_irq_count node)) /\
  domain_alloc_ok node = true /\
  st' = set_trace
          (trace (contexts_reset node st) ++
           [EvPrInfo (u32 (riscv_ndev node))
                     (to_int (Z.of_nat (length (present_cpus st))))
                     (to_int (of_irq_count node));
            EvSetHandleIrq])
          (set_handle_arch_irq true (contexts_reset node st)).
Proof.
  intros (H1 & H2 & H3 & H4) Hrun.
  destruct (decide (plic_regs st = 0)) as [Hregs | Hregs];
    [| rewrite plic_init_already in Hrun by assumption;
       injection Hrun as Hr _; lia].
  destruct (decide (of_iomap_result node = 0)) as [Hmap | Hmap];
    [rewrite plic_init_no_regs in Hrun by assumption;
     injection Hrun as Hr _; lia |].
  destruct (decide (u32 (riscv_ndev node) = 0)) as [Hirqs | Hirqs];
    [rewrite plic_init_no_irqs in Hrun by assumption;
     injection Hrun as Hr _; lia |].
  destruct (decide (to_int (of_irq_count node) = 0)) as [Hcnt | Hcnt];
    [rewrite plic_init_no_handlers in Hrun by assumption;
     injection Hrun as Hr _; lia |].
  destruct (Z.lt_ge_cases (u32 (to_int (of_irq_count node)))
              (num_possible_cpus st)) as [Hlt | Hge];
    [rewrite plic_init_few_handlers in Hrun by assumption;
     injection Hrun as Hr _; lia |].
  destruct (domain_alloc_ok node) eqn:Halloc;
    [| rewrite plic_init_no_domain in Hrun by assumption;
       injection Hrun as Hr _; lia].
  rewrite plic_init_ok in Hrun by assumption.
  injection Hrun as <-. auto 10.
Qed.

(** C4.  When [plic_init] returns 0, every present cpu's context has
    threshold 0 and, for every source id in [1, nr_irqs], a cleared
    enable bit.  The platform is within the limits the driver documents:
    fewer than [MAX_DEVICES] sources, at most [MAX_CONTEXTS] cpus. *)
Theorem plic_init_resets_contexts node st st' :
  errno_positive ->
  nr_cpu_ids <= MAX_CONTEXTS ->
  u32 (riscv_ndev node) < MAX_DEVICES ->
  plic_init node st = (0, st') ->
  forall cpu s,
    cpu ∈ present_cpus st' ->
    1 <= s <= u32 (riscv_ndev node) ->
    enable_bit st' cpu s = false /\ threshold st' cpu = 0.
Proof.
  intros Herrno Hcpus Hirqs Hrun cpu s Hcpu Hs.
  apply plic_init_success in Hrun as (_ & _ & _ & _ & _ & ->);
    [| exact Herrno].
  set (st3 := contexts_reset node st) in *.
  assert (Hglob : plic_regs st3 = of_iomap_result node /\
                  cpu_present_mask st3 = cpu_present_mask st).
  { unfold st3, contexts_reset.
    apply (for_each_preserves
             (fun s0 => plic_regs s0 = of_iomap_result node /\
                        cpu_present_mask s0 = cpu_present_mask st)).
    - intros c s0 _ [Hr Hp].
      destruct (plic_init_context_shrinks _ Hirqs c s0) as [Hr' _].
      split; [congruence |].
      rewrite <- Hp. clear. unfold plic_init_context.
      rewrite exec_bind. unfold get at 1 2. unfold exec at 2. simpl.
      rewrite exec_bind.
      apply (for_each_preserves
               (fun s1 => cpu_present_mask s1 = cpu_present_mask s0)).
      + intros hw s1 _ <-. unfold plic_toggle, spin_lock, spin_unlock,
          exec, bind, get, log, modify, readl, writel. simpl.
        repeat match goal with
               | |- context [if ?b then _ else _] => destruct b; simpl
               end; reflexivity.
      + unfold exec, writel. now destruct (is_claim_reg _).
    - split; reflexivity. }
  destruct Hglob as [_ Hpresent].
  assert (Hin : cpu ∈ present_cpus st).
  { unfold present_cpus in *. simpl in Hcpu. now rewrite <- Hpresent. }
  destruct (for_each_context_resets _ Hirqs (present_cpus st)
              (domain_added node st)) with (cpu := cpu) as [Hthr Hbits].
  - intros c Hc. apply present_cpus_range in Hc. lia.
  - exact Hin.
  - split; [apply Hbits, Hs | exact Hthr].
Qed.

(** *** The claim/complete loop *)

Lemma events_since_app st st' evs :
  trace st' = trace st ++ evs -> events_since st st' = evs.
Proof. intros H. unfold events_since. rewrite H. apply drop_app_length. Qed.

Lemma claim_reg_offset st :
  0 <= processor_id st ->
  is_claim_reg (plic_hart_offset (processor_id st) st + CONTEXT_CLAIM
                - plic_regs st) = true.
Proof.
  intros H. rewrite <- (claim_reg_is_claim (processor_id st) H).
  f_equal. unfold plic_hart_offset. lia.
Qed.

Lemma plic_handle_irq_body_exec claim hw st :
  is_claim_reg (claim - plic_regs st) = true ->
  let irq := to_int (irq_find_mapping (plic_irqdomain st) hw) in
  exec (plic_handle_irq_body claim hw) st =
    set_trace
      (trace st ++
       (if irq <=? 0 then [EvWarnRatelimited hw; EvAckBadIrq irq]
        else [EvGenericHandleIrq irq]) ++ [EvWritel (u32 hw) claim]) st.
Proof.
  intros Hclaim irq. unfold plic_handle_irq_body.
  rewrite exec_bind. unfold get at 1 2. unfold exec at 2. simpl.
  fold irq. rewrite exec_bind.
  destruct (irq <=? 0); unfold exec, bind, log, modify; simpl;
    rewrite writel_claim by exact Hclaim; simpl;
    unfold set_trace; simpl; now rewrite <- !app_assoc.
Qed.

(** The body of the drain loop, for a turn in which the claim register
    returned the nonzero id [hw]: what it logs in either branch, and that
    it leaves the registers and globals alone. *)
Lemma plic_handle_irq_body_turn fuel st hw st1 :
  let claim := plic_hart_offset (processor_id st) st + CONTEXT_CLAIM in
  0 <= processor_id st ->
  readl claim st = (hw, st1) ->
  hw <> 0 ->
  let irq := to_int (irq_find_mapping (plic_irqdomain st) hw) in
  let st2 := exec (plic_handle_irq_body claim hw) st1 in
  (irq <= 0 ->
     events_since st1 st2 =
       [EvWarnRatelimited hw; EvAckBadIrq irq; EvWritel hw claim] /\
     dispatched (events_since st1 st2) = []) /\
  (0 < irq ->
     events_since st1 st2 = [EvGenericHandleIrq irq; EvWritel hw claim] /\
     dispatched (events_since st1 st2) = [irq]) /\
  writes_to claim (events_since st1 st2) = [hw] /\
  iomem st2 = iomem st1 /\
  same_globals st1 st2 /\
  plic_handle_irq_loop (S fuel) claim st =
    plic_handle_irq_loop fuel claim st2.
Proof.
  intros claim Hcpu Hread Hhw irq st2.
  assert (Hloop : plic_handle_irq_loop (S fuel) claim st =
                  plic_handle_irq_loop fuel claim st2).
  { cbn [plic_handle_irq_loop]. rewrite Hread.
    apply Z.eqb_neq in Hhw. now rewrite Hhw. }
  pose proof (claim_reg_offset st Hcpu) as Hclaim. fold claim in Hclaim.
  rewrite readl_claim in Hread by exact Hclaim.
  injection Hread as Hhw' Hst1.
  assert (Hu : u32 hw = hw).
  { rewrite <- Hhw'. apply u32_small, u32_range. }
  assert (Hclaim1 : is_claim_reg (claim - plic_regs st1) = true)
    by now rewrite <- Hst1.
  assert (Hdom : plic_irqdomain st1 = plic_irqdomain st)
    by now rewrite <- Hst1.
  assert (Hst2 : st2 =
    set_trace
      (trace st1 ++
       (if irq <=? 0 then [EvWarnRatelimited hw; EvAckBadIrq irq]
        else [EvGenericHandleIrq irq]) ++ [EvWritel hw claim]) st1).
  { unfold st2. rewrite plic_handle_irq_body_exec by exact Hclaim1.
    rewrite Hdom. fold irq. now rewrite Hu. }
  assert (Hev : events_since st1 st2 =
    (if irq <=? 0 then [EvWarnRatelimited hw; EvAckBadIrq irq]
     else [EvGenericHandleIrq irq]) ++ [EvWritel hw claim]).
  { apply events_since_app. now rewrite Hst2. }
  rewrite Hev. split; [| split; [| split; [| split; [| split]]]].
  - intros Hle. apply Z.leb_le in Hle. rewrite Hle. now split.
  - intros Hlt. apply Z.leb_gt in Hlt. rewrite Hlt. now split.
  - destruct (irq <=? 0); simpl; now rewrite Z.eqb_refl.
  - now rewrite Hst2.
  - rewrite Hst2. unfold same_globals. simpl. tauto.
  - exact Hloop.
Qed.

(** *** The timer enable bit across the handler *)

Lemma readl_sie addr st : csr_sie (snd (readl addr st)) = csr_sie st.
Proof. unfold readl. now destruct (is_claim_reg _). Qed.

Lemma writel_sie val addr st :
  csr_sie (exec (writel val addr) st) = csr_sie st.
Proof. unfold exec, writel. now destruct (is_claim_reg _). Qed.

Lemma plic_handle_irq_body_sie claim hw st :
  csr_sie (exec (plic_handle_irq_body claim hw) st) = csr_sie st.
Proof.
  unfold plic_handle_irq_body. rewrite exec_bind.
  unfold get at 1 2. unfold exec at 2. simpl. rewrite exec_bind.
  rewrite writel_sie. now destruct (_ <=? 0).
Qed.

Lemma plic_handle_irq_loop_sie fuel claim :
  forall st st',
    plic_handle_irq_loop fuel claim st = Some st' ->
    csr_sie st' = csr_sie st.
Proof.
  induction fuel as [| fuel IH]; intros st st' Hrun; [discriminate |].
  cbn [plic_handle_irq_loop] in Hrun.
  pose proof (readl_sie claim st) as Hread.
  destruct (readl claim st) as [hw st1]. simpl in Hread.
  destruct (hw =? 0).
  - injection Hrun as <-. exact Hread.
  - apply IH in Hrun. rewrite Hrun, plic_handle_irq_body_sie. exact Hread.
Qed.

(** The loop ends as soon as the controller answers 0. *)
Lemma plic_handle_irq_loop_drains claim fuel :
  forall st k,
    is_claim_reg (claim - plic_regs st) = true ->
    (k < fuel)%nat ->
    u32 (claim_tape st (claim_reads st + k)%nat) = 0 ->
    is_Some (plic_handle_irq_loop fuel claim st).
Proof.
  induction fuel as [| fuel IH]; intros st k Hclaim Hk Hzero; [lia |].
  cbn [plic_handle_irq_loop]. rewrite readl_claim by exact Hclaim.
  destruct (u32 (claim_tape st (claim_reads st)) =? 0) eqn:Hhw; [eauto |].
  destruct k as [| k].
  { rewrite Nat.add_0_r in Hzero. apply Z.eqb_neq in Hhw. contradiction. }
  apply (IH _ k); [| lia |].
  - rewrite plic_handle_irq_body_exec by exact Hclaim. exact Hclaim.
  - rewrite plic_handle_irq_body_exec by exact Hclaim. simpl.
    now rewrite <- Nat.add_succ_r.
Qed.

Lemma lor_land_absorb x m : Z.land (Z.lor x m) m = m.
Proof.
  apply Z.bits_inj'. intros i _. rewrite Z.land_spec, Z.lor_spec.
  destruct (Z.testbit x i), (Z.testbit m i); reflexivity.
Qed.

Lemma clear_then_set x m : Z.lor (Z.land x (Z.lnot m)) m = Z.lor x m.
Proof.
  apply Z.bits_inj'. intros i Hi.
  rewrite !Z.lor_spec, Z.land_spec, Z.lnot_spec by exact Hi.
  destruct (Z.testbit x i), (Z.testbit m i); reflexivity.
Qed.

(** C9.  Whenever [plic_handle_irq] returns, [sie] is its value on
    entry with [SIE_STIE] or-ed in: the bit is set whether or not it
    was set before, nothing of its former value is kept.  The handler
    does return once the claim register has answered 0. *)
Theorem plic_handle_irq_sets_stie fuel st :
  (forall st', plic_handle_irq fuel st = Some st' ->
     csr_sie st' = Z.lor (csr_sie st) SIE_STIE /\
     Z.land (csr_sie st') SIE_STIE = SIE_STIE) /\
  (0 <= processor_id st ->
   (exists k, (k < fuel)%nat /\
              u32 (claim_tape st (claim_reads st + k)%nat) = 0) ->
   is_Some (plic_handle_irq fuel st)).
Proof.
  unfold plic_handle_irq. split.
  - intros st' Hrun.
    destruct (plic_handle_irq_loop fuel _ _) as [st2 |] eqn:Hloop;
      [| discriminate].
    injection Hrun as <-. apply plic_handle_irq_loop_sie in Hloop.
    assert (Hsie : csr_sie (exec (csr_set_sie SIE_STIE) st2) =
                   Z.lor (csr_sie st) SIE_STIE).
    { unfold exec, csr_set_sie, modify. simpl. rewrite Hloop.
      unfold exec, csr_clear_sie, modify. simpl. apply clear_then_set. }
    split; [exact Hsie |]. rewrite Hsie. apply lor_land_absorb.
  - intros Hcpu (k & Hk & Hzero).
    destruct (plic_handle_irq_loop_drains
                (plic_hart_offset (processor_id st) st + CONTEXT_CLAIM)
                fuel (exec (csr_clear_sie SIE_STIE) st) k)
      as [st2 Hst2];
      [exact (claim_reg_offset st Hcpu) | exact Hk | exact Hzero |].
    rewrite Hst2. eauto.
Qed.

(** *** More on enabling and disabling *)

(** The registers after [plic_irq_toggle(d, enable)]. *)
Lemma plic_irq_toggle_regs st s enable :
  nr_cpu_ids <= MAX_CONTEXTS ->
  0 <= s < MAX_DEVICES ->
  let st' := exec (plic_irq_toggle (mkIrqData s) enable) st in
  same_globals st st' /\
  reg_value st' (plic_regs st + 4 * s) = u32 enable /\
  (forall c, c ∈ present_cpus st ->
     reg_value st' (enable_reg st c s) =
     u32 (toggle_word (reg_value st (enable_reg st c s)) s enable)) /\
  (forall a, a <> plic_regs st + 4 * s ->
     (forall c, c ∈ present_cpus st -> a <> enable_reg st c s) ->
     iomem st' !! a = iomem st !! a).
Proof.
  intros Hcpus Hs st'.
  assert (Hprio : is_claim_reg (plic_regs st + 4 * s - plic_regs st) = false).
  { rewrite <- (priority_reg_not_claim s Hs). f_equal. lia. }
  assert (Hst' : st' = exec (plic_irq_toggle (mkIrqData s) enable) st)
    by reflexivity.
  clearbody st'.
  unfold plic_irq_toggle in Hst'. rewrite exec_bind in Hst'.
  unfold get at 1 2 in Hst'. unfold exec at 2 in Hst'. simpl in Hst'.
  rewrite exec_bind in Hst'.
  replace (plic_regs st + PRIORITY_BASE + s * PRIORITY_PER_ID)
    with (plic_regs st + 4 * s) in Hst'
    by (unfold PRIORITY_BASE, PRIORITY_PER_ID; lia).
  unfold exec at 2 in Hst'. rewrite writel_reg in Hst' by exact Hprio.
  simpl in Hst'.
  remember (set_iomem (<[plic_regs st + 4 * s := u32 enable]> (iomem st))
              (set_trace (trace st ++ [EvWritel (u32 enable) (plic_regs st + 4 * s)]) st))
    as st0 eqn:Hst0.
  rewrite exec_bind in Hst'. unfold get in Hst'. unfold exec at 2 in Hst'.
  simpl in Hst'. rewrite to_int_small in Hst'
    by (unfold MAX_DEVICES in Hs; lia).
  assert (Hcp : present_cpus st0 = present_cpus st) by now rewrite Hst0.
  assert (Hregs0 : plic_regs st0 = plic_regs st) by now rewrite Hst0.
  assert (Hreg : forall c, enable_reg st0 c s = enable_reg st c s).
  { intros c. unfold enable_reg. now rewrite Hregs0. }
  assert (Hne : forall c, 0 <= c -> enable_reg st c s <> plic_regs st + 4 * s).
  { intros c Hc. unfold enable_reg, ENABLE_BASE, ENABLE_PER_HART, MAX_DEVICES in *.
    assert (0 <= s / 32) by (apply Z.div_pos; lia). lia. }
  assert (Hold : forall c, c ∈ present_cpus st ->
            reg_value st0 (enable_reg st c s) = reg_value st (enable_reg st c s)).
  { intros c Hc. apply present_cpus_range in Hc.
    unfold reg_value. rewrite Hst0. simpl.
    rewrite lookup_insert_ne; [reflexivity |].
    intros Heq. now apply (Hne c ltac:(lia)). }
  destruct (for_each_toggle (present_cpus st0) s enable Hs st0)
    as (_ & Hglob & Hval & Hframe).
  { apply present_cpus_NoDup. }
  { intros c Hc. apply present_cpus_range in Hc. lia. }
  rewrite <- Hst' in Hglob, Hval, Hframe. rewrite Hcp in *.
  split; [| split; [| split]].
  - eapply same_globals_trans; [| exact Hglob].
    rewrite Hst0. unfold same_globals. simpl. tauto.
  - unfold reg_value. rewrite Hframe.
    + rewrite Hst0. simpl. rewrite lookup_insert_eq. simpl.
      apply u32_small, u32_range.
    + intros c Hc. rewrite Hreg. apply present_cpus_range in Hc.
      intros Heq. now apply (Hne c ltac:(lia)).
  - intros c Hc. rewrite <- Hreg, Hval by assumption.
    now rewrite Hreg, Hold.
  - intros a Hprio' Hother. rewrite Hframe.
    + rewrite Hst0. simpl. now apply lookup_insert_ne.
    + intros c Hc. rewrite Hreg. now apply Hother.
Qed.

Lemma setEnabled_toggle s (e : bool) :
  setEnabled s e = plic_irq_toggle (mkIrqData s) (Z.b2z e).
Proof. now destruct e. Qed.

Lemma toggle_word_again w s e1 e2 :
  0 <= s -> 0 <= w < 2 ^ 32 ->
  u32 (toggle_word (u32 (toggle_word w s e1)) s e2) = u32 (toggle_word w s e2).
Proof.
  intros Hs Hw. apply Z.bits_inj'. intros i _.
  rewrite !toggle_word_testbit by (lia || apply u32_range).
  now destruct (i =? s mod 32).
Qed.

(** The last call wins.  After [setEnabled(s, e1)] and then
    [setEnabled(s, e2)], every register of the window reads as after
    [setEnabled(s, e2)] alone: enabling twice is enabling once, and what
    an enable set a following disable clears (and conversely). *)
Theorem setEnabled_last_wins st s (e1 e2 : bool) :
  nr_cpu_ids <= MAX_CONTEXTS ->
  0 <= s < MAX_DEVICES ->
  forall a,
    reg_value (exec (setEnabled s e2) (exec (setEnabled s e1) st)) a =
    reg_value (exec (setEnabled s e2) st) a.
Proof.
  intros Hcpus Hs a. rewrite !setEnabled_toggle.
  destruct (plic_irq_toggle_regs st s (Z.b2z e1) Hcpus Hs)
    as (Hg1 & Hp1 & Hv1 & Hf1).
  destruct (plic_irq_toggle_regs st s (Z.b2z e2) Hcpus Hs)
    as (Hg2 & Hp2 & Hv2 & Hf2).
  set (st1 := exec (plic_irq_toggle (mkIrqData s) (Z.b2z e1)) st) in *.
  destruct (plic_irq_toggle_regs st1 s (Z.b2z e2) Hcpus Hs)
    as (Hg12 & Hp12 & Hv12 & Hf12).
  assert (Hregs : plic_regs st1 = plic_regs st) by apply Hg1.
  assert (Hpres : present_cpus st1 = present_cpus st).
  { unfold present_cpus. destruct Hg1 as (_ & _ & _ & _ & _ & _ & -> & _).
    reflexivity. }
  assert (Hereg : forall c, enable_reg st1 c s = enable_reg st c s)
    by (intros; unfold enable_reg; now rewrite Hregs).
  rewrite Hregs, Hpres in *.
  destruct (decide (a = plic_regs st + 4 * s)) as [-> | Hprio].
  { now rewrite Hp12, Hp2. }
  destruct (decide (Exists (fun c => a = enable_reg st c s) (present_cpus st)))
    as [Hex | Hnex].
  - apply Exists_exists in Hex as (c & Hc & ->).
    rewrite <- (Hereg c) at 1. rewrite Hv12 by assumption.
    rewrite Hereg, Hv1, Hv2 by assumption.
    apply toggle_word_again; [lia | apply reg_value_range].
  - assert (Hother : forall c, c ∈ present_cpus st -> a <> enable_reg st c s).
    { intros c Hc Heq. apply Hnex, Exists_exists. eauto. }
    unfold reg_value. rewrite Hf12, Hf1, Hf2; try assumption; [reflexivity |].
    intros c Hc. rewrite Hereg. now apply Hother.
Qed.

(** [setEnabled(s, e)] is about source [s] on the present cpus only: the
    enable bit of any other source, and of [s] itself in the context of a
    cpu that is not present, keeps its value, and so do every threshold and
    the priority of every other source. *)
Theorem setEnabled_frame st s (e : bool) :
  nr_cpu_ids <= MAX_CONTEXTS ->
  0 <= s < MAX_DEVICES ->
  let st' := exec (setEnabled s e) st in
  (forall c' s', 0 <= c' -> 0 <= s' < MAX_DEVICES ->
     s' <> s \/ c' ∉ present_cpus st ->
     enable_bit st' c' s' = enable_bit st c' s') /\
  (forall c', 0 <= c' -> threshold st' c' = threshold st c') /\
  (forall s', 0 <= s' < MAX_DEVICES -> s' <> s ->
     reg_value st' (plic_regs st + 4 * s') = reg_value st (plic_regs st + 4 * s')).
Proof.
  intros Hcpus Hs st'. unfold st'. rewrite setEnabled_toggle.
  destruct (plic_irq_toggle_regs st s (Z.b2z e) Hcpus Hs)
    as (Hg & Hp & Hv & Hf).
  set (st1 := exec (plic_irq_toggle (mkIrqData s) (Z.b2z e)) st) in *.
  assert (Hregs : plic_regs st1 = plic_regs st) by apply Hg.
  assert (Hdiv : 0 <= s / 32 < 32)
    by (unfold MAX_DEVICES in Hs; split;
        [apply Z.div_pos | apply Z.div_lt_upper_bound]; lia).
  split; [| split].
  - intros c' s' Hc' Hs' Hwhich. unfold enable_bit.
    replace (enable_reg st1 c' s') with (enable_reg st c' s')
      by (unfold enable_reg; now rewrite Hregs).
    assert (Hdiv' : 0 <= s' / 32 < 32)
      by (unfold MAX_DEVICES in Hs'; split;
          [apply Z.div_pos | apply Z.div_lt_upper_bound]; lia).
    assert (Hprio : enable_reg st c' s' <> plic_regs st + 4 * s).
    { unfold enable_reg, ENABLE_BASE, ENABLE_PER_HART, MAX_DEVICES in *. lia. }
    destruct (decide (c' ∈ present_cpus st /\ s' / 32 = s / 32))
      as [[Hin Hword] | Hout].
    + replace (enable_reg st c' s') with (enable_reg st c' s)
        by (unfold enable_reg; now rewrite Hword).
      rewrite Hv by assumption.
      rewrite toggle_word_testbit by (lia || apply reg_value_range).
      destruct (Z.eqb_spec (s' mod 32) (s mod 32)) as [Hmod | _];
        [| reflexivity].
      destruct Hwhich as [Hne | Hnin]; [| contradiction].
      exfalso. apply Hne.
      pose proof (Z.div_mod s' 32). pose proof (Z.div_mod s 32). lia.
    + unfold reg_value. rewrite Hf; [reflexivity | exact Hprio |].
      intros c Hc Heq. apply enable_reg_inj in Heq as [-> Hword];
        [| lia | lia].
      apply Hout. now split.
  - intros c' Hc'. unfold threshold. rewrite Hregs. unfold reg_value.
    rewrite Hf; [reflexivity | |].
    + unfold CONTEXT_BASE, CONTEXT_PER_HART, MAX_DEVICES in *. lia.
    + intros c Hc. apply present_cpus_range in Hc.
      unfold enable_reg, ENABLE_BASE, ENABLE_PER_HART, CONTEXT_BASE,
        CONTEXT_PER_HART, MAX_CONTEXTS in *. lia.
  - intros s' Hs' Hne. unfold reg_value. rewrite Hf; [reflexivity | lia |].
    intros c Hc. apply present_cpus_range in Hc.
    unfold enable_reg, ENABLE_BASE, ENABLE_PER_HART, MAX_DEVICES in *. lia.
Qed.

(** *** More on initialisation *)

Lemma plic_toggle_keeps_globals ctx s enable st :
  plic_regs (exec (plic_toggle ctx s enable) st) = plic_regs st /\
  cpu_present_mask (exec (plic_toggle ctx s enable) st) = cpu_present_mask st /\
  cpu_possible_mask (exec (plic_toggle ctx s enable) st) = cpu_possible_mask st.
Proof.
  unfold plic_toggle, spin_lock, spin_unlock, exec, bind, get, log, modify,
    readl, writel. simpl.
  repeat match goal with
         | |- context [if ?b then _ else _] => destruct b; simpl
         end; auto.
Qed.

Lemma plic_init_context_unfold nr_irqs cpu st :
  exec (plic_init_context nr_irqs cpu) st =
  exec (for_each (seqZ 1 nr_irqs) (fun hw => plic_toggle cpu (to_int hw) 0))
    (exec (writel 0 (plic_hart_offset cpu st + CONTEXT_THRESHOLD)) st).
Proof.
  unfold plic_init_context. rewrite exec_bind.
  unfold get at 1 2. unfold exec at 2. cbn [fst snd]. now rewrite exec_bind.
Qed.

Lemma plic_init_context_keeps_globals nr_irqs cpu st :
  plic_regs (exec (plic_init_context nr_irqs cpu) st) = plic_regs st /\
  cpu_present_mask (exec (plic_init_context nr_irqs cpu) st) = cpu_present_mask st /\
  cpu_possible_mask (exec (plic_init_context nr_irqs cpu) st) = cpu_possible_mask st.
Proof.
  rewrite plic_init_context_unfold.
  apply (for_each_preserves
           (fun s1 => plic_regs s1 = plic_regs st /\
                      cpu_present_mask s1 = cpu_present_mask st /\
                      cpu_possible_mask s1 = cpu_possible_mask st)).
  - intros hw s1 _ (H1 & H2 & H3).
    destruct (plic_toggle_keeps_globals cpu (to_int hw) 0 s1) as (-> & -> & ->).
    auto.
  - unfold exec, writel. now destruct (is_claim_reg _).
Qed.

Lemma contexts_reset_keeps_globals node st :
  plic_regs (contexts_reset node st) = of_iomap_result node /\
  cpu_present_mask (contexts_reset node st) = cpu_present_mask st /\
  cpu_possible_mask (contexts_reset node st) = cpu_possible_mask st.
Proof.
  unfold contexts_reset.
  apply (for_each_preserves
           (fun s1 => plic_regs s1 = of_iomap_result node /\
                      cpu_present_mask s1 = cpu_present_mask st /\
                      cpu_possible_mask s1 = cpu_possible_mask st)).
  - intros cpu s1 _ (H1 & H2 & H3).
    destruct (plic_init_context_keeps_globals (u32 (riscv_ndev node)) cpu s1)
      as (-> & -> & ->). auto.
  - repeat split.
Qed.

(** Once [of_iomap] has succeeded, [plic_regs] stays set whatever became of
    the call: the window pointer is not cleared on the [out_iounmap] path. *)
Lemma plic_init_leaves_regs node st :
  plic_regs st = 0 ->
  of_iomap_result node <> 0 ->
  plic_regs (snd (plic_init node st)) = of_iomap_result node.
Proof.
  intros Hregs Hmap.
  destruct (decide (u32 (riscv_ndev node) = 0)) as [Hirqs | Hirqs];
    [now rewrite plic_init_no_irqs |].
  destruct (decide (to_int (of_irq_count node) = 0)) as [Hcnt | Hcnt];
    [now rewrite plic_init_no_handlers |].
  destruct (Z.lt_ge_cases (u32 (to_int (of_irq_count node)))
              (num_possible_cpus st)) as [Hlt | Hge];
    [now rewrite plic_init_few_handlers |].
  destruct (domain_alloc_ok node) eqn:Halloc;
    [| now rewrite plic_init_no_domain].
  rewrite plic_init_ok by assumption. cbn [snd].
  apply contexts_reset_keeps_globals.
Qed.

(** The driver initialises at most once.  After a call in which [of_iomap]
    succeeded, whether that call went on to succeed or failed and unmapped
    the window again, every later [plic_init] returns [-ENXIO] and does
    nothing but print its warning. *)
Theorem plic_init_only_once node node' st :
  plic_regs st = 0 ->
  of_iomap_result node <> 0 ->
  let st1 := snd (plic_init node st) in
  plic_init node' st1 = (- ENXIO, set_trace (trace st1 ++ [EvPrWarning]) st1).
Proof.
  intros Hregs Hmap st1. apply plic_init_already.
  unfold st1. now rewrite plic_init_leaves_regs.
Qed.







(** Every enable bit and threshold after [plic_irq_toggle(d, enable)]. *)
Lemma plic_irq_toggle_bits st s enable :
  nr_cpu_ids <= MAX_CONTEXTS ->
  0 <= s < MAX_DEVICES ->
  let st' := exec (plic_irq_toggle (mkIrqData s) enable) st in
  plic_regs st' = plic_regs st /\
  (forall c' s', 0 <= c' -> 0 <= s' < MAX_DEVICES ->
     enable_bit st' c' s' =
     if decide (c' ∈ present_cpus st /\ s' = s) then negb (enable =? 0)
     else enable_bit st c' s') /\
  (forall c', 0 <= c' -> threshold st' c' = threshold st c').
Proof.
  intros Hcpus Hs st'.
  destruct (plic_irq_toggle_regs st s enable Hcpus Hs) as (Hg & Hp & Hv & Hf).
  fold st' in Hg, Hp, Hv, Hf.
  assert (Hregs : plic_regs st' = plic_regs st) by apply Hg.
  assert (Hdiv : 0 <= s / 32 < 32)
    by (unfold MAX_DEVICES in Hs; split;
        [apply Z.div_pos | apply Z.div_lt_upper_bound]; lia).
  split; [exact Hregs |]. split.
  - intros c' s' Hc' Hs'. unfold enable_bit.
    replace (enable_reg st' c' s') with (enable_reg st c' s')
      by (unfold enable_reg; now rewrite Hregs).
    assert (Hdiv' : 0 <= s' / 32 < 32)
      by (unfold MAX_DEVICES in Hs'; split;
          [apply Z.div_pos | apply Z.div_lt_upper_bound]; lia).
    assert (Hprio : enable_reg st c' s' <> plic_regs st + 4 * s).
    { unfold enable_reg, ENABLE_BASE, ENABLE_PER_HART, MAX_DEVICES in *. lia. }
    destruct (decide (c' ∈ present_cpus st /\ s' / 32 = s / 32))
      as [[Hin Hword] | Hout].
    + replace (enable_reg st c' s') with (enable_reg st c' s)
        by (unfold enable_reg; now rewrite Hword).
      rewrite Hv by assumption.
      rewrite toggle_word_testbit by (lia || apply reg_value_range).
      destruct (Z.eqb_spec (s' mod 32) (s mod 32)) as [Hmod | Hmod].
      * assert (s' = s)
          by (pose proof (Z.div_mod s' 32); pose proof (Z.div_mod s 32); lia).
        destruct (decide _) as [_ | Hno]; [reflexivity |].
        exfalso. apply Hno. now split.
      * destruct (decide _) as [[_ ->] | _]; [contradiction | reflexivity].
    + destruct (decide _) as [[Hin ->] | _];
        [exfalso; apply Hout; now split |].
      unfold reg_value. rewrite Hf; [reflexivity | exact Hprio |].
      intros c Hc Heq. apply enable_reg_inj in Heq as [-> Hword];
        [| lia | lia].
      apply Hout. now split.
  - intros c' Hc'. unfold threshold. rewrite Hregs. unfold reg_value.
    rewrite Hf; [reflexivity | |].
    + unfold CONTEXT_BASE, CONTEXT_PER_HART, MAX_DEVICES in *. lia.
    + intros c Hc. apply present_cpus_range in Hc.
      unfold enable_reg, ENABLE_BASE, ENABLE_PER_HART, CONTEXT_BASE,
        CONTEXT_PER_HART, MAX_CONTEXTS in *. lia.
Qed.

(** Bringing a source up.  After a successful [plic_init], a single
    [plic_irq_enable] of a source [s] in [1, nr_irqs] leaves the controller
    with exactly that source deliverable: its priority is 1, and in every
    present cpu's context the threshold is 0 and, among the sources 1 to
    [nr_irqs], the enable bit of [s] and no other is set. *)
Theorem plic_init_then_enable node st st' s :
  errno_positive ->
  nr_cpu_ids <= MAX_CONTEXTS ->
  u32 (riscv_ndev node) < MAX_DEVICES ->
  plic_init node st = (0, st') ->
  1 <= s <= u32 (riscv_ndev node) ->
  let st2 := exec (plic_irq_enable (mkIrqData s)) st' in
  reg_value st2 (priority_reg st2 s) = 1 /\
  forall cpu, cpu ∈ present_cpus st2 ->
    threshold st2 cpu = 0 /\
    forall s', 1 <= s' <= u32 (riscv_ndev node) ->
      enable_bit st2 cpu s' = bool_decide (s' = s).
Proof.
  intros Herrno Hcpus Hirqs Hrun Hs st2.
  apply plic_init_success in Hrun as (_ & _ & _ & _ & _ & Hst');
    [| exact Herrno].
  set (st3 := contexts_reset node st) in *.
  destruct (contexts_reset_keeps_globals node st) as (_ & Hpresent & _).
  fold st3 in Hpresent.
  assert (Hcp : present_cpus st' = present_cpus st).
  { unfold present_cpus. rewrite Hst'. simpl. now rewrite Hpresent. }
  assert (Hs0 : 0 <= s < MAX_DEVICES) by lia.
  destruct (plic_irq_toggle_regs st' s 1 Hcpus Hs0) as (Hg & Hp & _).
  destruct (plic_irq_toggle_bits st' s 1 Hcpus Hs0) as (Hregs & Hbits & Hthr).
  change (exec (plic_irq_toggle (mkIrqData s) 1) st') with st2 in *.
  split.
  { unfold priority_reg. rewrite Hregs, Hp. reflexivity. }
  intros cpu Hcpu.
  assert (Hin : cpu ∈ present_cpus st).
  { rewrite <- Hcp. unfold present_cpus in *.
    destruct Hg as (_ & _ & _ & _ & _ & _ & <- & _). exact Hcpu. }
  pose proof (present_cpus_range _ _ Hin) as Hrange.
  destruct (for_each_context_resets _ Hirqs (present_cpus st)
              (domain_added node st)) with (cpu := cpu) as [Hthr0 Hbits0].
  { intros c Hc. apply present_cpus_range in Hc. lia. }
  { exact Hin. }
  fold (contexts_reset node st) in Hthr0, Hbits0. fold st3 in Hthr0, Hbits0.
  split.
  - rewrite Hthr by lia. rewrite Hst'. exact Hthr0.
  - intros s' Hs'. rewrite Hbits by lia.
    destruct (decide (cpu ∈ present_cpus st' /\ s' = s)) as [[_ ->] | Hno].
    + now rewrite bool_decide_eq_true_2.
    + rewrite bool_decide_eq_false_2
        by (intros ->; apply Hno; split; [now rewrite Hcp | reflexivity]).
      rewrite Hst'. apply Hbits0. exact Hs'.
Qed.

(** *** Draining the controller *)

(** The first [n] answers the claim register will give from [st] on. *)
Definition claimed (st : state) (n : nat) : list Z :=
  map (fun k => u32 (claim_tape st (claim_reads st + k)%nat)) (seq 0 n).

(** The events of the turn in which [hw] was claimed. *)
Definition turn_events (dom : option irq_domain) (claim hw : Z)
  : list event :=
  let irq := to_int (irq_find_mapping dom hw) in
  EvReadl claim hw ::
  (if irq <=? 0 then [EvWarnRatelimited hw; EvAckBadIrq irq]
   else [EvGenericHandleIrq irq]) ++ [EvWritel hw claim].

(** The virtual irqs of the sources in [ids] that have one. *)
Definition virqs (dom : option irq_domain) (ids : list Z) : list Z :=
  flat_map (fun hw => let irq := to_int (irq_find_mapping dom hw) in
                      if irq <=? 0 then [] else [irq]) ids.

Lemma claimed_S st n :
  claimed st (S n) =
  u32 (claim_tape st (claim_reads st)) ::
  map (fun k => u32 (claim_tape st (S (claim_reads st) + k)%nat)) (seq 0 n).
Proof.
  unfold claimed. cbn [seq map]. rewrite Nat.add_0_r. f_equal.
  rewrite <- seq_shift, map_map. apply map_ext. intros k.
  now rewrite Nat.add_succ_r.
Qed.

Lemma plic_handle_irq_loop_run claim n :
  forall fuel st,
    is_claim_reg (claim - plic_regs st) = true ->
    (n < fuel)%nat ->
    (forall k, (k < n)%nat ->
       u32 (claim_tape st (claim_reads st + k)%nat) <> 0) ->
    u32 (claim_tape st (claim_reads st + n)%nat) = 0 ->
    plic_handle_irq_loop fuel claim st =
    Some (set_trace
            (trace st ++
             flat_map (turn_events (plic_irqdomain st) claim) (claimed st n) ++
             [EvReadl claim 0])
            (set_claim_reads (S (claim_reads st + n)) st)).
Proof.
  induction n as [| n IH]; intros fuel st Hclaim Hfuel Hnz Hzero;
    (destruct fuel as [| fuel]; [lia |]);
    cbn [plic_handle_irq_loop]; rewrite readl_claim by exact Hclaim.
  - rewrite Nat.add_0_r in Hzero. rewrite Hzero. cbn [Z.eqb].
    now rewrite Nat.add_0_r.
  - pose proof (Hnz 0%nat ltac:(lia)) as Hhw. rewrite Nat.add_0_r in Hhw.
    set (hw := u32 (claim_tape st (claim_reads st))) in *.
    apply Z.eqb_neq in Hhw. rewrite Hhw.
    rewrite plic_handle_irq_body_exec by exact Hclaim. cbn zeta.
    assert (Hu : u32 hw = hw) by (apply u32_small, u32_range).
    rewrite Hu.
    match goal with
    | |- plic_handle_irq_loop fuel claim ?s = _ => set (st2 := s)
    end.
    rewrite (IH fuel st2); [| exact Hclaim | lia | |].
    + rewrite claimed_S. fold hw. unfold st2, claimed. simpl.
      unfold set_trace, set_claim_reads. simpl.
      do 2 f_equal; [now rewrite Nat.add_succ_r |].
      unfold turn_events at 2. cbn zeta.
      rewrite <- ?app_assoc. simpl. now rewrite <- ?app_assoc.
    + intros k Hk. unfold st2. simpl.
      specialize (Hnz (S k) ltac:(lia)). now rewrite Nat.add_succ_r in Hnz.
    + unfold st2. simpl. now rewrite Nat.add_succ_r in Hzero.
Qed.

Lemma writes_to_turn dom claim hw :
  writes_to claim (turn_events dom claim hw) = [hw].
Proof.
  unfold turn_events, writes_to. cbn zeta.
  destruct (_ <=? 0); simpl; now rewrite Z.eqb_refl.
Qed.

Lemma writes_to_turns dom claim ids :
  writes_to claim (flat_map (turn_events dom claim) ids) = ids.
Proof.
  induction ids as [| hw ids IH]; [reflexivity |].
  cbn [flat_map]. unfold writes_to in *.
  rewrite flat_map_app, IH.
  change (flat_map _ (turn_events dom claim hw))
    with (writes_to claim (turn_events dom claim hw)).
  now rewrite writes_to_turn.
Qed.

Lemma dispatched_turns dom claim ids :
  dispatched (flat_map (turn_events dom claim) ids) = virqs dom ids.
Proof.
  induction ids as [| hw ids IH]; [reflexivity |].
  cbn [flat_map]. unfold dispatched, virqs in *.
  rewrite flat_map_app, IH. cbn [flat_map]. f_equal.
  unfold turn_events. cbn zeta. destruct (_ <=? 0); reflexivity.
Qed.

(** The whole handler, when the claim register answers [n] nonzero ids
    and then 0. *)
Lemma plic_handle_irq_run fuel st n :
  0 <= processor_id st ->
  (n < fuel)%nat ->
  (forall k, (k < n)%nat ->
     u32 (claim_tape st (claim_reads st + k)%nat) <> 0) ->
  u32 (claim_tape st (claim_reads st + n)%nat) = 0 ->
  let claim := plic_hart_offset (processor_id st) st + CONTEXT_CLAIM in
  exists st',
    plic_handle_irq fuel st = Some st' /\
    events_since st st' =
      flat_map (turn_events (plic_irqdomain st) claim) (claimed st n) ++
      [EvReadl claim 0] /\
    claim_reads st' = S (claim_reads st + n) /\
    iomem st' = iomem st.
Proof.
  intros Hcpu Hfuel Hnz Hzero claim.
  unfold plic_handle_irq. fold claim.
  set (st1 := exec (csr_clear_sie SIE_STIE) st).
  pose proof (plic_handle_irq_loop_run claim n fuel st1) as Hrun.
  rewrite Hrun; [| exact (claim_reg_offset st Hcpu) | exact Hfuel
                 | exact Hnz | exact Hzero].
  eexists. split; [reflexivity |].
  split; [apply events_since_app; reflexivity |].
  split; reflexivity.
Qed.

Lemma turn_events_writes dom claim ids v a :
  In (EvWritel v a) (flat_map (turn_events dom claim) ids ++ [EvReadl claim 0]) ->
  a = claim /\ In v ids.
Proof.
  intros Hin. apply in_app_or in Hin as [Hin | [Hin | []]]; [| discriminate].
  apply in_flat_map in Hin as (hw & Hhw & Hin).
  unfold turn_events in Hin. cbv zeta in Hin.
  destruct (_ <=? 0); cbn in Hin;
    repeat (destruct Hin as [Hin | Hin]; [try discriminate |]);
    try contradiction; injection Hin as <- <-; auto.
Qed.

(** C5.  [plic_handle_irq], called when the claim register is going to
    answer [n] nonzero ids and then 0, returns, and what it did in between
    is one turn per claimed id, in claim order, followed by the read that
    returned 0.  The turn of an id without a virtual irq is: the read that
    claimed it, a rate-limited warning, [ack_bad_irq], and the write of the
    id back to the claim register, with no call of [generic_handle_irq];
    the turn of a mapped id is: the read, one call of [generic_handle_irq]
    with its virtual irq, then the write of the id back.  Either way the
    turn has exactly one completion write, of that id, and the handler goes
    on with the next claim: an unmapped id does not stop it. *)
Theorem plic_handle_irq_turns fuel st n :
  0 <= processor_id st ->
  (n < fuel)%nat ->
  (forall k, (k < n)%nat ->
     u32 (claim_tape st (claim_reads st + k)%nat) <> 0) ->
  u32 (claim_tape st (claim_reads st + n)%nat) = 0 ->
  let claim := plic_hart_offset (processor_id st) st + CONTEXT_CLAIM in
  let dom := plic_irqdomain st in
  (exists st',
     plic_handle_irq fuel st = Some st' /\
     events_since st st' =
       flat_map (turn_events dom claim) (claimed st n) ++ [EvReadl claim 0]) /\
  forall hw,
    let irq := to_int (irq_find_mapping dom hw) in
    (irq <= 0 ->
       turn_events dom claim hw =
         [EvReadl claim hw; EvWarnRatelimited hw; EvAckBadIrq irq;
          EvWritel hw claim]) /\
    (0 < irq ->
       turn_events dom claim hw =
         [EvReadl claim hw; EvGenericHandleIrq irq; EvWritel hw claim]) /\
    dispatched (turn_events dom claim hw) = (if irq <=? 0 then [] else [irq]) /\
    writes_to claim (turn_events dom claim hw) = [hw].
Proof.
  intros Hcpu Hfuel Hnz Hzero claim dom. split.
  - destruct (plic_handle_irq_run fuel st n Hcpu Hfuel Hnz Hzero)
      as (st' & Hrun & Hev & _).
    exists st'. split; [exact Hrun | exact Hev].
  - intros hw irq. unfold turn_events. cbv zeta. fold irq.
    split; [| split; [| split]].
    + intros Hle. apply Z.leb_le in Hle. now rewrite Hle.
    + intros Hlt. apply Z.leb_gt in Hlt. now rewrite Hlt.
    + destruct (irq <=? 0); reflexivity.
    + destruct (irq <=? 0); cbn; now rewrite Z.eqb_refl.
Qed.

(** One call of [plic_handle_irq] drains the controller.  When the claim
    register is going to answer with [n] nonzero ids and then 0, the handler
    returns after [n + 1] reads of it; it has written every claimed id back
    to the claim register, once and in the order they were claimed, and has
    passed on to [generic_handle_irq] the virtual irqs of those that have
    one, in the same order.  No other register is written: every write of
    the call is a write of a claimed id to the claim register of the
    running hart, and the register contents are as before. *)
Theorem plic_handle_irq_drains fuel st n :
  0 <= processor_id st ->
  (n < fuel)%nat ->
  (forall k, (k < n)%nat ->
     u32 (claim_tape st (claim_reads st + k)%nat) <> 0) ->
  u32 (claim_tape st (claim_reads st + n)%nat) = 0 ->
  let claim := plic_hart_offset (processor_id st) st + CONTEXT_CLAIM in
  exists st',
    plic_handle_irq fuel st = Some st' /\
    writes_to claim (events_since st st') = claimed st n /\
    dispatched (events_since st st') = virqs (plic_irqdomain st) (claimed st n) /\
    claim_reads st' = S (claim_reads st + n) /\
    iomem st' = iomem st /\
    (forall v a, EvWritel v a ∈ events_since st st' ->
       a = claim /\ v ∈ claimed st n).
Proof.
  intros Hcpu Hfuel Hnz Hzero claim.
  destruct (plic_handle_irq_run fuel st n Hcpu Hfuel Hnz Hzero)
    as (st' & Hrun & Hev & Hreads & Hmem).
  fold claim in Hev. exists st'. split; [exact Hrun |].
  rewrite Hev.
  split.
  { unfold writes_to. rewrite flat_map_app. cbn [flat_map].
    rewrite !app_nil_r. apply writes_to_turns. }
  split.
  { unfold dispatched. rewrite flat_map_app. cbn [flat_map].
    rewrite !app_nil_r. apply dispatched_turns. }
  split; [exact Hreads |]. split; [exact Hmem |].
  intros v a Hin. apply list_elem_of_In in Hin.
  apply turn_events_writes in Hin as [-> Hin].
  split; [reflexivity | now apply list_elem_of_In].
Qed.

(** *** The outcomes of [plic_init] *)

(** When [plic_init] succeeds: no window was mapped before, [of_iomap]
    gave one, the node reports sources and contexts, the contexts are at
    least as many as the possible cpus, and the domain could be allocated.
    Any of these failing, the call returns an error. *)
Theorem plic_init_succeeds_iff node st :
  errno_positive ->
  fst (plic_init node st) = 0 <->
  plic_regs st = 0 /\ of_iomap_result node <> 0 /\
  u32 (riscv_ndev node) <> 0 /\
  to_int (of_irq_count node) <> 0 /\
  num_possible_cpus st <= u32 (to_int (of_irq_count node)) /\
  domain_alloc_ok node = true.
Proof.
  intros (H1 & H2 & H3 & H4).
  destruct (decide (plic_regs st = 0)) as [Hregs | Hregs];
    [| rewrite plic_init_already by assumption; cbn [fst]; split;
       [lia | tauto]].
  destruct (decide (of_iomap_result node = 0)) as [Hmap | Hmap];
    [rewrite plic_init_no_regs by assumption; cbn [fst]; split;
     [lia | tauto] |].
  destruct (decide (u32 (riscv_ndev node) = 0)) as [Hirqs | Hirqs];
    [rewrite plic_init_no_irqs by assumption; cbn [fst]; split;
     [lia | tauto] |].
  destruct (decide (to_int (of_irq_count node) = 0)) as [Hcnt | Hcnt];
    [rewrite plic_init_no_handlers by assumption; cbn [fst]; split;
     [lia | tauto] |].
  destruct (Z.lt_ge_cases (u32 (to_int (of_irq_count node)))
              (num_possible_cpus st)) as [Hlt | Hge];
    [rewrite plic_init_few_handlers by assumption; cbn [fst]; split;
     [lia | intros (_ & _ & _ & _ & Hle & _); lia] |].
  destruct (domain_alloc_ok node) eqn:Halloc.
  - rewrite plic_init_ok by assumption. cbn [fst]. tauto.
  - rewrite plic_init_no_domain by assumption. cbn [fst]. split;
      [lia | intros (_ & _ & _ & _ & _ & Hno); discriminate].
Qed.

(** A failing [plic_init] has not touched the controller: no register is
    written, the claim register is not read, [sie] is as before and no
    interrupt handler is installed. *)
Theorem plic_init_failure_writes_nothing node st :
  fst (plic_init node st) <> 0 ->
  let st' := snd (plic_init node st) in
  iomem st' = iomem st /\
  (forall a, writes_to a (events_since st st') = []) /\
  claim_reads st' = claim_reads st /\
  csr_sie st' = csr_sie st /\
  handle_arch_irq st' = handle_arch_irq st.
Proof.
  intros Hfail.
  assert (Hquiet : forall evs st1,
            (forall a, writes_to a evs = []) ->
            trace st1 = trace st ++ evs ->
            forall a, writes_to a (events_since st st1) = []).
  { intros evs st1 Hevs Htr a. now rewrite (events_since_app _ _ _ Htr). }
  destruct (decide (plic_regs st = 0)) as [Hregs | Hregs];
    [| rewrite plic_init_already in * by assumption; cbn [snd];
       repeat split; now apply (Hquiet [EvPrWarning])].
  destruct (decide (of_iomap_result node = 0)) as [Hmap | Hmap].
  { rewrite plic_init_no_regs in * by assumption. cbn [snd].
    repeat split.
    apply (Hquiet [EvOfIomap (of_iomap_result node); EvWarnOn WarnNoRegs]);
      [reflexivity |].
    cbn. now rewrite <- app_assoc. }
  assert (Hunmapped : forall w (st1 := unmapped_at w node st),
            iomem st1 = iomem st /\
            (forall a, writes_to a (events_since st st1) = []) /\
            claim_reads st1 = claim_reads st /\
            csr_sie st1 = csr_sie st /\
            handle_arch_irq st1 = handle_arch_irq st).
  { intros w st1. repeat split.
    now apply (Hquiet [EvOfIomap (of_iomap_result node); EvWarnOn w;
                       EvIounmap (of_iomap_result node)]). }
  destruct (decide (u32 (riscv_ndev node) = 0)) as [Hirqs | Hirqs];
    [rewrite plic_init_no_irqs by assumption; apply Hunmapped |].
  destruct (decide (to_int (of_irq_count node) = 0)) as [Hcnt | Hcnt];
    [rewrite plic_init_no_handlers by assumption; apply Hunmapped |].
  destruct (Z.lt_ge_cases (u32 (to_int (of_irq_count node)))
              (num_possible_cpus st)) as [Hlt | Hge];
    [rewrite plic_init_few_handlers by assumption; apply Hunmapped |].
  destruct (domain_alloc_ok node) eqn:Halloc.
  - rewrite plic_init_ok in Hfail by assumption. now contradiction Hfail.
  - rewrite plic_init_no_domain by assumption. cbn [snd].
    apply (Hunmapped WarnNoDomain).
Qed.

End Driver.

(** *** The driver on a two-hart board *)

(** A controller with 8 sources and 2 contexts at [0x0c000000]. *)
Definition demo_node : device_node := mkNode 0x0c000000 8 2 true.

(** Before [plic_init]: harts 0 and 1 possible and present, hart 0 running,
    and registers that firmware left in some state. *)
Definition demo_boot : state :=
  mkState 0 None
    (<[0x0c002000 := 0xffffffff]>
       (<[0x0c002080 := 0x1fe]> (<[0x0c201000 := 7]> ∅)))
    (fun _ => 0) 0 Board.SIE_SEIE 3 3 0 false [].

Definition demo_init : Z * state :=
  plic_init Board.nr_cpu_ids Board.ENXIO Board.EIO Board.EINVAL Board.ENOMEM
    demo_node demo_boot.

(** After [plic_init]. *)
Definition demo_ready : state := snd demo_init.

(** Later on: sources 3 and 5 have virtual irqs 11 and 12, and the
    controller will answer the next claims of hart 0 with 5, 7, 3, 0. *)
Definition demo_running : state :=
  mkState 0x0c000000
    (Some (mkDomain 9 (<[3 := 11]> (<[5 := 12]> ∅))))
    (iomem demo_ready)
    (fun n => nth n [5; 7; 3] 0) 0 Board.SIE_SEIE 3 3 0 true [].

Example demo_init_succeeds : fst demo_init = 0.
Proof. reflexivity. Qed.

Example demo_handle_irq_trace :
  Plic.trace <$> plic_handle_irq Board.SIE_STIE 10 demo_running =
  Some [EvReadl 0x0c200004 5; EvGenericHandleIrq 12; EvWritel 5 0x0c200004;
        EvReadl 0x0c200004 7; EvWarnRatelimited 7; EvAckBadIrq 0;
        EvWritel 7 0x0c200004;
        EvReadl 0x0c200004 3; EvGenericHandleIrq 11; EvWritel 3 0x0c200004;
        EvReadl 0x0c200004 0].
Proof. reflexivity. Qed.

(** Hart 1 is possible but not present; the controller has one context. *)
Definition lone_hart_boot : state :=
  mkState 0 None ∅ (fun _ => 0) 0 0 3 1 0 false [].

Definition lone_hart_node : device_node := mkNode 0x0c000000 8 1 true.

Lemma plic_init_insufficient_contexts_witness :
  cpu_possible_mask demo_boot = cpu_present_mask demo_boot /\
  0 < num_present_cpus Board.nr_cpu_ids demo_boot /\
  plic_regs demo_boot = 0 /\
  of_iomap_result lone_hart_node <> 0 /\
  u32 (riscv_ndev lone_hart_node) <> 0 /\
  0 <= of_irq_count lone_hart_node < 2 ^ 31 /\
  of_irq_count lone_hart_node < num_present_cpus Board.nr_cpu_ids demo_boot /\
  insufficient_contexts Board.EINVAL lone_hart_node demo_boot
    (plic_init Board.nr_cpu_ids Board.ENXIO Board.EIO Board.EINVAL
       Board.ENOMEM lone_hart_node demo_boot).
Proof.
  assert (H1 : cpu_possible_mask demo_boot = cpu_present_mask demo_boot)
    by reflexivity.
  assert (H2 : 0 < num_present_cpus Board.nr_cpu_ids demo_boot)
    by (vm_compute; reflexivity).
  assert (H3 : plic_regs demo_boot = 0) by reflexivity.
  assert (H4 : of_iomap_result lone_hart_node <> 0) by (vm_compute; congruence).
  assert (H5 : u32 (riscv_ndev lone_hart_node) <> 0) by (vm_compute; congruence).
  assert (H6 : 0 <= of_irq_count lone_hart_node < 2 ^ 31) by (simpl; lia).
  assert (H7 : of_irq_count lone_hart_node
               < num_present_cpus Board.nr_cpu_ids demo_boot)
    by (vm_compute; reflexivity).
  split; [exact H1 | split; [exact H2 | split; [exact H3 |]]].
  split; [exact H4 | split; [exact H5 | split; [exact H6 |]]].
  split; [exact H7 |].
  exact (proj2 (proj1 (plic_init_insufficient_contexts Board.nr_cpu_ids
                         Board.ENXIO Board.EIO Board.EINVAL Board.ENOMEM
                         lone_hart_node demo_boot H1 H2 H3 H4 H5 H6)) H7).
Defined.

Lemma plic_toggle_frame_witness :
  0 <= 5 < MAX_DEVICES /\
  (forall c' s', 0 <= s' < MAX_DEVICES -> (c', s') <> (1, 5) ->
     enable_bit (exec (plic_toggle 1 5 1) demo_ready) c' s' =
     enable_bit demo_ready c' s').
Proof.
  assert (H : 0 <= 5 < MAX_DEVICES) by (unfold MAX_DEVICES; lia).
  split; [exact H |].
  exact (proj1 (proj2 (proj2 (plic_toggle_frame demo_ready 1 5 1 H)))).
Defined.

Lemma setEnabled_spec_witness :
  Board.nr_cpu_ids <= MAX_CONTEXTS /\
  0 <= 5 < MAX_DEVICES /\
  trace (exec (setEnabled Board.nr_cpu_ids 5 true) demo_ready) =
    trace demo_ready ++
    [EvWritel 1 0x0c000014;
     EvSpinLock; EvReadl 0x0c002000 0xfffffe01; EvWritel 0xfffffe21 0x0c002000;
     EvSpinUnlock;
     EvSpinLock; EvReadl 0x0c002080 0; EvWritel 0x20 0x0c002080; EvSpinUnlock].
Proof.
  assert (H1 : Board.nr_cpu_ids <= MAX_CONTEXTS) by (vm_compute; congruence).
  assert (H2 : 0 <= 5 < MAX_DEVICES) by (unfold MAX_DEVICES; lia).
  split; [exact H1 | split; [exact H2 |]].
  rewrite (proj1 (setEnabled_spec Board.nr_cpu_ids demo_ready 5 true H1 H2)).
  vm_compute. reflexivity.
Defined.

Lemma plic_init_resets_contexts_witness :
  errno_positive Board.ENXIO Board.EIO Board.EINVAL Board.ENOMEM /\
  Board.nr_cpu_ids <= MAX_CONTEXTS /\
  u32 (riscv_ndev demo_node) < MAX_DEVICES /\
  plic_init Board.nr_cpu_ids Board.ENXIO Board.EIO Board.EINVAL Board.ENOMEM
    demo_node demo_boot = (0, demo_ready) /\
  1 ∈ present_cpus Board.nr_cpu_ids demo_ready /\
  1 <= 8 <= u32 (riscv_ndev demo_node) /\
  enable_bit demo_ready 1 8 = false /\ threshold demo_ready 1 = 0.
Proof.
  assert (H1 : errno_positive Board.ENXIO Board.EIO Board.EINVAL Board.ENOMEM)
    by (vm_compute; repeat split).
  assert (H2 : Board.nr_cpu_ids <= MAX_CONTEXTS) by (vm_compute; congruence).
  assert (H3 : u32 (riscv_ndev demo_node) < MAX_DEVICES) by reflexivity.
  assert (H4 : plic_init Board.nr_cpu_ids Board.ENXIO Board.EIO Board.EINVAL
                 Board.ENOMEM demo_node demo_boot = (0, demo_ready))
    by (vm_compute; reflexivity).
  assert (H5 : 1 ∈ present_cpus Board.nr_cpu_ids demo_ready)
    by (apply elem_of_for_each_cpu; vm_compute; repeat split; congruence).
  assert (H6 : 1 <= 8 <= u32 (riscv_ndev demo_node))
    by (vm_compute; split; congruence).
  exact (conj H1 (conj H2 (conj H3 (conj H4 (conj H5 (conj H6
    (plic_init_resets_contexts Board.nr_cpu_ids Board.ENXIO Board.EIO
       Board.EINVAL Board.ENOMEM demo_node demo_boot demo_ready
       H1 H2 H3 H4 1 8 H5 H6))))))).
Defined.

Lemma plic_handle_irq_turns_witness :
  0 <= processor_id demo_running /\
  (3 < 10)%nat /\
  (forall k, (k < 3)%nat ->
     u32 (claim_tape demo_running (claim_reads demo_running + k)%nat) <> 0) /\
  u32 (claim_tape demo_running (claim_reads demo_running + 3)%nat) = 0 /\
  exists st',
    plic_handle_irq Board.SIE_STIE 10 demo_running = Some st' /\
    events_since demo_running st' =
      [EvReadl 0x0c200004 5; EvGenericHandleIrq 12; EvWritel 5 0x0c200004;
       EvReadl 0x0c200004 7; EvWarnRatelimited 7; EvAckBadIrq 0;
       EvWritel 7 0x0c200004;
       EvReadl 0x0c200004 3; EvGenericHandleIrq 11; EvWritel 3 0x0c200004;
       EvReadl 0x0c200004 0].
Proof.
  assert (H1 : 0 <= processor_id demo_running) by (simpl; lia).
  assert (H2 : (3 < 10)%nat) by lia.
  assert (H3 : forall k, (k < 3)%nat ->
            u32 (claim_tape demo_running (claim_reads demo_running + k)%nat)
            <> 0).
  { intros k Hk. unfold demo_running. cbn [claim_tape claim_reads Nat.add].
    destruct k as [| [| [| k]]]; cbn [nth]; [discriminate .. | lia]. }
  assert (H4 : u32 (claim_tape demo_running
                      (claim_reads demo_running + 3)%nat) = 0)
    by reflexivity.
  destruct (proj1 (plic_handle_irq_turns Board.SIE_STIE 10 demo_running 3
                     H1 H2 H3 H4)) as (st' & Hrun & Hev).
  split; [exact H1 | split; [exact H2 | split; [exact H3 |]]].
  split; [exact H4 |]. exists st'.
  split; [exact Hrun |]. rewrite Hev. vm_compute. reflexivity.
Defined.

Lemma plic_handle_irq_sets_stie_witness :
  0 <= processor_id demo_running /\
  (exists k, (k < 10)%nat /\
     u32 (claim_tape demo_running (claim_reads demo_running + k)%nat) = 0) /\
  Z.land (csr_sie demo_running) Board.SIE_STIE = 0 /\
  exists st', plic_handle_irq Board.SIE_STIE 10 demo_running = Some st' /\
              Z.land (csr_sie st') Board.SIE_STIE = Board.SIE_STIE.
Proof.
  assert (H1 : 0 <= processor_id demo_running) by (simpl; lia).
  assert (H2 : exists k, (k < 10)%nat /\
     u32 (claim_tape demo_running (claim_reads demo_running + k)%nat) = 0)
    by (exists 3%nat; split; [lia | reflexivity]).
  destruct (plic_handle_irq_sets_stie Board.SIE_STIE 10 demo_running)
    as [Hexit Hreturns].
  destruct (Hreturns H1 H2) as [st' Hst'].
  split; [exact H1 | split; [exact H2 | split; [reflexivity |]]].
  exists st'. split; [exact Hst' | exact (proj2 (Hexit st' Hst'))].
Defined.

Lemma setEnabled_last_wins_witness :
  Board.nr_cpu_ids <= MAX_CONTEXTS /\
  0 <= 5 < MAX_DEVICES /\
  reg_value
    (exec (setEnabled Board.nr_cpu_ids 5 false)
       (exec (setEnabled Board.nr_cpu_ids 5 true) demo_ready)) 0x0c002080 =
  reg_value (exec (setEnabled Board.nr_cpu_ids 5 false) demo_ready) 0x0c002080.
Proof.
  assert (H1 : Board.nr_cpu_ids <= MAX_CONTEXTS) by (vm_compute; congruence).
  assert (H2 : 0 <= 5 < MAX_DEVICES) by (unfold MAX_DEVICES; lia).
  split; [exact H1 | split; [exact H2 |]].
  exact (setEnabled_last_wins Board.nr_cpu_ids demo_ready 5 true false H1 H2
           0x0c002080).
Defined.

Lemma setEnabled_frame_witness :
  Board.nr_cpu_ids <= MAX_CONTEXTS /\
  0 <= 5 < MAX_DEVICES /\
  (forall c', 0 <= c' ->
     threshold (exec (setEnabled Board.nr_cpu_ids 5 true) demo_ready) c' =
     threshold demo_ready c').
Proof.
  assert (H1 : Board.nr_cpu_ids <= MAX_CONTEXTS) by (vm_compute; congruence).
  assert (H2 : 0 <= 5 < MAX_DEVICES) by (unfold MAX_DEVICES; lia).
  split; [exact H1 | split; [exact H2 |]].
  exact (proj1 (proj2 (setEnabled_frame Board.nr_cpu_ids demo_ready 5 true
                         H1 H2))).
Defined.

Lemma plic_init_only_once_witness :
  plic_regs lone_hart_boot = 0 /\
  of_iomap_result lone_hart_node <> 0 /\
  fst (plic_init Board.nr_cpu_ids Board.ENXIO Board.EIO Board.EINVAL
         Board.ENOMEM lone_hart_node lone_hart_boot) = - Board.EINVAL /\
  fst (plic_init Board.nr_cpu_ids Board.ENXIO Board.EIO Board.EINVAL
         Board.ENOMEM demo_node
         (snd (plic_init Board.nr_cpu_ids Board.ENXIO Board.EIO Board.EINVAL
                 Board.ENOMEM lone_hart_node lone_hart_boot))) =
  - Board.ENXIO.
Proof.
  assert (H1 : plic_regs lone_hart_boot = 0) by reflexivity.
  assert (H2 : of_iomap_result lone_hart_node <> 0) by (vm_compute; congruence).
  split; [exact H1 | split; [exact H2 | split; [reflexivity |]]].
  exact (f_equal fst
           (plic_init_only_once Board.nr_cpu_ids Board.ENXIO Board.EIO
              Board.EINVAL Board.ENOMEM lone_hart_node demo_node
              lone_hart_boot H1 H2)).
Defined.


Lemma plic_init_then_enable_witness :
  errno_positive Board.ENXIO Board.EIO Board.EINVAL Board.ENOMEM /\
  Board.nr_cpu_ids <= MAX_CONTEXTS /\
  u32 (riscv_ndev demo_node) < MAX_DEVICES /\
  plic_init Board.nr_cpu_ids Board.ENXIO Board.EIO Board.EINVAL Board.ENOMEM
    demo_node demo_boot = (0, demo_ready) /\
  1 <= 5 <= u32 (riscv_ndev demo_node) /\
  let st2 := exec (plic_irq_enable Board.nr_cpu_ids (mkIrqData 5)) demo_ready in
  reg_value st2 (priority_reg st2 5) = 1.
Proof.
  assert (H1 : errno_positive Board.ENXIO Board.EIO Board.EINVAL Board.ENOMEM)
    by (vm_compute; repeat split).
  assert (H2 : Board.nr_cpu_ids <= MAX_CONTEXTS) by (vm_compute; congruence).
  assert (H3 : u32 (riscv_ndev demo_node) < MAX_DEVICES) by reflexivity.
  assert (H4 : plic_init Board.nr_cpu_ids Board.ENXIO Board.EIO Board.EINVAL
                 Board.ENOMEM demo_node demo_boot = (0, demo_ready))
    by (vm_compute; reflexivity).
  assert (H5 : 1 <= 5 <= u32 (riscv_ndev demo_node))
    by (vm_compute; split; congruence).
  split; [exact H1 | split; [exact H2 | split; [exact H3 |]]].
  split; [exact H4 | split; [exact H5 |]].
  exact (proj1 (plic_init_then_enable Board.nr_cpu_ids Board.ENXIO Board.EIO
                  Board.EINVAL Board.ENOMEM demo_node demo_boot demo_ready 5
                  H1 H2 H3 H4 H5)).
Defined.

Lemma plic_handle_irq_drains_witness :
  0 <= processor_id demo_running /\
  (3 < 10)%nat /\
  (forall k, (k < 3)%nat ->
     u32 (claim_tape demo_running (claim_reads demo_running + k)%nat) <> 0) /\
  u32 (claim_tape demo_running (claim_reads demo_running + 3)%nat) = 0 /\
  exists st',
    plic_handle_irq Board.SIE_STIE 10 demo_running = Some st' /\
    writes_to
      (plic_hart_offset (processor_id demo_running) demo_running + CONTEXT_CLAIM)
      (events_since demo_running st') = [5; 7; 3] /\
    dispatched (events_since demo_running st') = [12; 11].
Proof.
  assert (H1 : 0 <= processor_id demo_running) by (simpl; lia).
  assert (H2 : (3 < 10)%nat) by lia.
  assert (H3 : forall k, (k < 3)%nat ->
            u32 (claim_tape demo_running (claim_reads demo_running + k)%nat)
            <> 0).
  { intros k Hk. unfold demo_running. cbn [claim_tape claim_reads Nat.add].
    destruct k as [| [| [| k]]]; cbn [nth]; [discriminate .. | lia]. }
  assert (H4 : u32 (claim_tape demo_running
                      (claim_reads demo_running + 3)%nat) = 0)
    by reflexivity.
  destruct (plic_handle_irq_drains Board.SIE_STIE 10 demo_running 3
              H1 H2 H3 H4) as (st' & Hrun & Hwr & Hdisp & _).
  split; [exact H1 | split; [exact H2 | split; [exact H3 |]]].
  split; [exact H4 |]. exists st'.
  split; [exact Hrun | split].
  - rewrite Hwr. vm_compute. reflexivity.
  - rewrite Hdisp. vm_compute. reflexivity.
Defined.

Lemma plic_init_succeeds_iff_witness :
  errno_positive Board.ENXIO Board.EIO Board.EINVAL Board.ENOMEM /\
  (fst (plic_init Board.nr_cpu_ids Board.ENXIO Board.EIO Board.EINVAL
          Board.ENOMEM demo_node demo_boot) = 0 <->
   plic_regs demo_boot = 0 /\ of_iomap_result demo_node <> 0 /\
   u32 (riscv_ndev demo_node) <> 0 /\
   to_int (of_irq_count demo_node) <> 0 /\
   num_possible_cpus Board.nr_cpu_ids demo_boot
     <= u32 (to_int (of_irq_count demo_node)) /\
   domain_alloc_ok demo_node = true).
Proof.
  assert (H1 : errno_positive Board.ENXIO Board.EIO Board.EINVAL Board.ENOMEM)
    by (vm_compute; repeat split).
  split; [exact H1 |].
  exact (plic_init_succeeds_iff Board.nr_cpu_ids Board.ENXIO Board.EIO
           Board.EINVAL Board.ENOMEM demo_node demo_boot H1).
Defined.

Lemma plic_init_failure_writes_nothing_witness :
  fst (plic_init Board.nr_cpu_ids Board.ENXIO Board.EIO Board.EINVAL
         Board.ENOMEM lone_hart_node lone_hart_boot) <> 0 /\
  iomem (snd (plic_init Board.nr_cpu_ids Board.ENXIO Board.EIO Board.EINVAL
                Board.ENOMEM lone_hart_node lone_hart_boot)) =
  iomem lone_hart_boot.
Proof.
  assert (H1 : fst (plic_init Board.nr_cpu_ids Board.ENXIO Board.EIO
                      Board.EINVAL Board.ENOMEM lone_hart_node lone_hart_boot)
               <> 0)
    by (vm_compute; congruence).
  split; [exact H1 |].
  exact (proj1 (plic_init_failure_writes_nothing Board.nr_cpu_ids Board.ENXIO
                  Board.EIO Board.EINVAL Board.ENOMEM lone_hart_node
                  lone_hart_boot H1)).
Defined.

End Plic.

(** ** Secondary-hart bring-up and hotplug

    [arch/riscv/kernel/smpboot.c] *)

Module Smpboot.

Import CInt Cpumask StateMonad.

(** *** Function pointers

    [struct cpu_operations] holds three optional hooks.  The file defines
    one function for each ([default_cpu_boot], [default_cpu_disable],
    [default_cpu_die]); a platform may install its own, which are then
    known only by what they do to the state. *)

Inductive boot_hook : Type :=
| BootDefault                 (* default_cpu_boot *)
| BootPlatform (id : nat).

Inductive disable_hook : Type :=
| DisableDefault              (* default_cpu_disable *)
| DisablePlatform (id : nat).

Inductive die_hook : Type :=
| DieDefault                  (* default_cpu_die *)
| DiePlatform (id : nat).

Record cpu_operations : Type := mkOps {
  cpu_boot : option boot_hook;
  cpu_disable : option disable_hook;
  cpu_die : option die_hook
}.

(** *** Observable events *)

Inductive event : Type :=
| EvSmpMb                                (* smp_mb() *)
| EvCpuBoot (hartid tidle : Z)           (* cpu_ops.cpu_boot(hartid, tidle) *)
| EvSendIpi (cpu : Z)                    (* arch_send_call_function_single_ipi(cpu) *)
| EvCpuRelax                             (* cpu_relax() *)
| EvPrNoticeOnline (cpu : Z)             (* pr_notice("CPU%u: online") *)
| EvPrErrBoot (cpu hartid : Z)           (* pr_err("CPU %d [hartid %d]failed to boot") *)
| EvCpuDisable (cpu : Z)                 (* cpu_ops.cpu_disable(cpu) *)
| EvIrqMigrateAllOffThisCpu              (* irq_migrate_all_off_this_cpu() *)
| EvIdleTaskExit                         (* idle_task_exit() *)
| EvCpuReportDeath                       (* cpu_report_death() *)
| EvCpuDie (cpu : Z)                     (* cpu_ops.cpu_die(cpu) *)
| EvWaitForInterrupt                     (* wait_for_interrupt() *)
| EvBootSecCpu                           (* boot_sec_cpu() *)
| EvTrapInit                             (* trap_init() *)
| EvNotifyCpuStarting (cpu : Z)          (* notify_cpu_starting(cpu) *)
| EvLocalFlushTlbAll                     (* local_flush_tlb_all() *)
| EvLocalIrqEnable                       (* local_irq_enable() *)
| EvPreemptDisable                       (* preempt_disable() *)
| EvCpuStartupEntry.                     (* cpu_startup_entry(CPUHP_AP_ONLINE_IDLE) *)

#[export] Instance smp_event_eq_dec : EqDecision event.
Proof. solve_decision. Defined.

(** *** State

    The file's globals, the kernel globals and control registers it uses,
    what the rest of the machine does while this hart waits, and the trace.

    - While [__cpu_up] spins in [cpu_relax], a secondary hart may reach
      [smp_callin]: [callin_tape k] names the hart that does so during the
      [k]-th [cpu_relax], if any.
    - While a parked hart sits in [wait_for_interrupt], the hardware
      updates [sip] and [scause]: [wfi_tape k] gives their values when the
      [k]-th wait returns. *)
Record state : Type := mkState {
  cpu_ops : cpu_operations;
  cpu_possible_mask : cpumask;
  cpu_present_mask : cpumask;
  cpu_online_mask : cpumask;
  cpu_logical_map : list Z;               (* __cpu_logical_map[NR_CPUS] *)
  cpu_up_stack_pointer : list Z;          (* __cpu_up_stack_pointer[NR_CPUS] *)
  cpu_up_task_pointer : list Z;           (* __cpu_up_task_pointer[NR_CPUS] *)
  task_stack_page : Z -> Z;               (* task_stack_page(task) *)
  thread_info_cpu : gmap Z Z;             (* task->thread_info.cpu *)
  init_mm_count : Z;                      (* init_mm.mm_count *)
  processor_id : Z;                       (* smp_processor_id() *)
  csr_sie : Z;
  csr_sip : Z;
  csr_scause : Z;
  callin_tape : nat -> option Z;
  relax_count : nat;
  wfi_tape : nat -> Z * Z;
  wfi_count : nat;
  trace : list event
}.

Definition set_cpu_masks (possible present online : cpumask) (st : state)
  : state :=
  mkState (cpu_ops st) possible present online (cpu_logical_map st)
    (cpu_up_stack_pointer st) (cpu_up_task_pointer st) (task_stack_page st)
    (thread_info_cpu st) (init_mm_count st) (processor_id st) (csr_sie st)
    (csr_sip st) (csr_scause st) (callin_tape st) (relax_count st)
    (wfi_tape st) (wfi_count st) (trace st).

Definition set_cpu_online_mask (v : cpumask) (st : state) : state :=
  set_cpu_masks (cpu_possible_mask st) (cpu_present_mask st) v st.

Definition set_cpu_ops (v : cpu_operations) (st : state) : state :=
  mkState v (cpu_possible_mask st) (cpu_present_mask st)
    (cpu_online_mask st) (cpu_logical_map st)
    (cpu_up_stack_pointer st) (cpu_up_task_pointer st) (task_stack_page st)
    (thread_info_cpu st) (init_mm_count st) (processor_id st) (csr_sie st)
    (csr_sip st) (csr_scause st) (callin_tape st) (relax_count st)
    (wfi_tape st) (wfi_count st) (trace st).

Definition set_cpu_logical_map (v : list Z) (st : state) : state :=
  mkState (cpu_ops st) (cpu_possible_mask st) (cpu_present_mask st)
    (cpu_online_mask st) v
    (cpu_up_stack_pointer st) (cpu_up_task_pointer st) (task_stack_page st)
    (thread_info_cpu st) (init_mm_count st) (processor_id st) (csr_sie st)
    (csr_sip st) (csr_scause st) (callin_tape st) (relax_count st)
    (wfi_tape st) (wfi_count st) (trace st).

Definition set_cpu_up_pointers (stack task : list Z) (st : state) : state :=
  mkState (cpu_ops st) (cpu_possible_mask st) (cpu_present_mask st)
    (cpu_online_mask st) (cpu_logical_map st) stack task (task_stack_page st)
    (thread_info_cpu st) (init_mm_count st) (processor_id st) (csr_sie st)
    (csr_sip st) (csr_scause st) (callin_tape st) (relax_count st)
    (wfi_tape st) (wfi_count st) (trace st).

Definition set_thread_info_cpu (v : gmap Z Z) (st : state) : state :=
  mkState (cpu_ops st) (cpu_possible_mask st) (cpu_present_mask st)
    (cpu_online_mask st) (cpu_logical_map st) (cpu_up_stack_pointer st)
    (cpu_up_task_pointer st) (task_stack_page st) v (init_mm_count st)
    (processor_id st) (csr_sie st) (csr_sip st) (csr_scause st)
    (callin_tape st) (relax_count st) (wfi_tape st) (wfi_count st) (trace st).

Definition set_init_mm_count (v : Z) (st : state) : state :=
  mkState (cpu_ops st) (cpu_possible_mask st) (cpu_present_mask st)
    (cpu_online_mask st) (cpu_logical_map st) (cpu_up_stack_pointer st)
    (cpu_up_task_pointer st) (task_stack_page st) (thread_info_cpu st) v
    (processor_id st) (csr_sie st) (csr_sip st) (csr_scause st)
    (callin_tape st) (relax_count st) (wfi_tape st) (wfi_count st) (trace st).

Definition set_processor_id (v : Z) (st : state) : state :=
  mkState (cpu_ops st) (cpu_possible_mask st) (cpu_present_mask st)
    (cpu_online_mask st) (cpu_logical_map st) (cpu_up_stack_pointer st)
    (cpu_up_task_pointer st) (task_stack_page st) (thread_info_cpu st)
    (init_mm_count st) v (csr_sie st) (csr_sip st) (csr_scause st)
    (callin_tape st) (relax_count st) (wfi_tape st) (wfi_count st) (trace st).

Definition set_csrs (sie sip scause : Z) (st : state) : state :=
  mkState (cpu_ops st) (cpu_possible_mask st) (cpu_present_mask st)
    (cpu_online_mask st) (cpu_logical_map st) (cpu_up_stack_pointer st)
    (cpu_up_task_pointer st) (task_stack_page st) (thread_info_cpu st)
    (init_mm_count st) (processor_id st) sie sip scause
    (callin_tape st) (relax_count st) (wfi_tape st) (wfi_count st) (trace st).

Definition set_relax_count (v : nat) (st : state) : state :=
  mkState (cpu_ops st) (cpu_possible_mask st) (cpu_present_mask st)
    (cpu_online_mask st) (cpu_logical_map st) (cpu_up_stack_pointer st)
    (cpu_up_task_pointer st) (task_stack_page st) (thread_info_cpu st)
    (init_mm_count st) (processor_id st) (csr_sie st) (csr_sip st)
    (csr_scause st) (callin_tape st) v (wfi_tape st) (wfi_count st) (trace st).

Definition set_wfi_count (v : nat) (st : state) : state :=
  mkState (cpu_ops st) (cpu_possible_mask st) (cpu_present_mask st)
    (cpu_online_mask st) (cpu_logical_map st) (cpu_up_stack_pointer st)
    (cpu_up_task_pointer st) (task_stack_page st) (thread_info_cpu st)
    (init_mm_count st) (processor_id st) (csr_sie st) (csr_sip st)
    (csr_scause st) (callin_tape st) (relax_count st) (wfi_tape st) v (trace st).

Definition set_trace (v : list event) (st : state) : state :=
  mkState (cpu_ops st) (cpu_possible_mask st) (cpu_present_mask st)
    (cpu_online_mask st) (cpu_logical_map st) (cpu_up_stack_pointer st)
    (cpu_up_task_pointer st) (task_stack_page st) (thread_info_cpu st)
    (init_mm_count st) (processor_id st) (csr_sie st) (csr_sip st)
    (csr_scause st) (callin_tape st) (relax_count st) (wfi_tape st)
    (wfi_count st) v.

Local Abbreviation M := (StateMonad.M state).

Definition log (e : event) : M unit :=
  modify (fun st => set_trace (trace st ++ [e]) st).

(** *** Kernel primitives the file calls *)

(** [cpu_online(cpu)] *)
Definition cpu_online (cpu : Z) (st : state) : bool :=
  cpumask_test_cpu cpu (cpu_online_mask st).

(** [set_cpu_online(cpu, online)] *)
Definition set_cpu_online (cpu : Z) (online : bool) : M unit :=
  modify (fun st =>
    set_cpu_online_mask
      (if online then cpumask_set_cpu cpu (cpu_online_mask st)
       else cpumask_clear_cpu cpu (cpu_online_mask st)) st).

(** [cpu_logical_map(cpu)], an rvalue *)
Definition logical_map (cpu : Z) (st : state) : Z :=
  default 0 (cpu_logical_map st !! Z.to_nat cpu).

(** [csr_clear(sie, m)] *)
Definition csr_clear_sie (m : Z) : M unit :=
  modify (fun st =>
    set_csrs (Z.land (csr_sie st) (Z.lnot m)) (csr_sip st) (csr_scause st) st).

(** [csr_write(sip, v)] and [csr_write(scause, v)] *)
Definition csr_write_sip (v : Z) : M unit :=
  modify (fun st => set_csrs (csr_sie st) v (csr_scause st) st).
Definition csr_write_scause (v : Z) : M unit :=
  modify (fun st => set_csrs (csr_sie st) (csr_sip st) v st).

(** [wait_for_interrupt()]: the hart sleeps; when it wakes, [sip] and
    [scause] are what the hardware made of them meanwhile. *)
Definition wait_for_interrupt : M unit :=
  log EvWaitForInterrupt ;;
  modify (fun st =>
    let (sip, scause) := wfi_tape st (wfi_count st) in
    set_wfi_count (S (wfi_count st)) (set_csrs (csr_sie st) sip scause st)).

Section Kernel.

(** Constants and configuration from outside the translation unit. *)
Variable THREAD_SIZE : Z.                          (* asm/thread_info.h *)
Variables SIE_SSIE SIE_STIE SIE_SEIE : Z.          (* asm/csr.h *)
Variable INTERRUPT_CAUSE_SOFTWARE : Z.             (* asm/irq.h *)
Variable EOPNOTSUPP : Z.                           (* uapi/asm-generic/errno.h *)
Variable CONFIG_HOTPLUG_CPU : bool.

(** Hooks a platform may have installed in [cpu_ops]. *)
Variable platform_cpu_boot : nat -> Z -> Z -> M Z.
Variable platform_cpu_disable : nat -> Z -> M Z.
Variable platform_cpu_die : nat -> Z -> state -> option state.

(** *** The secondary hart's entry *)

(** [asmlinkage void smp_callin(void)]; it does not return, the last event
    is the entry into the idle loop. *)
Definition smp_callin : M unit :=
  modify (fun st => set_init_mm_count (init_mm_count st + 1) st) ;;
  log EvTrapInit ;;
  do cpu <- get processor_id;
  log (EvNotifyCpuStarting cpu) ;;
  set_cpu_online cpu true ;;
  log EvLocalFlushTlbAll ;;
  log EvLocalIrqEnable ;;
  log EvPreemptDisable ;;
  log EvCpuStartupEntry.

(** [cpu_relax()]: one turn of the spin loop, during which the hart that
    [callin_tape] names (if any) runs [smp_callin]. *)
Definition cpu_relax : M unit :=
  log EvCpuRelax ;;
  modify (fun st =>
    let st1 := set_relax_count (S (relax_count st)) st in
    match callin_tape st (relax_count st) with
    | Some hart =>
        set_processor_id (processor_id st)
          (exec smp_callin (set_processor_id hart st1))
    | None => st1
    end).

(** *** Boot *)

(** [int default_cpu_boot(unsigned int hartid, struct task_struct *tidle)].
    The two stores index arrays of [NR_CPUS] entries without a bounds
    check; a store past the end is undefined in C and leaves the arrays as
    they are here. *)
Definition default_cpu_boot (hartid tidle : Z) : M Z :=
  let hartid := u32 hartid in
  modify (fun st =>
    set_cpu_up_pointers
      (<[Z.to_nat hartid := task_stack_page st tidle + THREAD_SIZE]>
         (cpu_up_stack_pointer st))
      (<[Z.to_nat hartid := tidle]> (cpu_up_task_pointer st)) st) ;;
  ret 0.

(** The indirect call [cpu_ops.cpu_boot(hartid, tidle)]. *)
Definition call_cpu_boot (h : boot_hook) (hartid tidle : Z) : M Z :=
  log (EvCpuBoot hartid tidle) ;;
  match h with
  | BootDefault => default_cpu_boot hartid tidle
  | BootPlatform id => platform_cpu_boot id hartid tidle
  end.

(** [while (!cpu_online(cpu)) cpu_relax();]: [None] when the hart is still
    offline after [fuel] checks. *)
Fixpoint wait_online (fuel : nat) (cpu : Z) (st : state) : option state :=
  match fuel with
  | O => None
  | S fuel' =>
      if cpu_online cpu st then Some st
      else wait_online fuel' cpu (exec cpu_relax st)
  end.

(** [int __cpu_up(unsigned int cpu, struct task_struct *tidle)] *)
Definition __cpu_up (fuel : nat) (cpu tidle : Z) (st : state)
  : option (Z * state) :=
  let err := -1 in
  let hartid := to_int (logical_map cpu st) in
  let st := exec (modify (fun st =>
                    set_thread_info_cpu (<[tidle := cpu]> (thread_info_cpu st)) st) ;;
                  log EvSmpMb) st in
  let (err, st) :=
    match cpu_boot (cpu_ops st) with
    | Some h => call_cpu_boot h hartid tidle st
    | None => (err, st)
    end in
  if err =? 0 then
    let st := if CONFIG_HOTPLUG_CPU then exec (log (EvSendIpi cpu)) st else st in
    match wait_online fuel cpu st with
    | Some st => Some (0, exec (log (EvPrNoticeOnline cpu)) st)
    | None => None
    end
  else
    Some (0, exec (log (EvPrErrBoot cpu hartid)) st).

(** *** Hotplug ([#ifdef CONFIG_HOTPLUG_CPU]) *)

(** [int can_hotplug_cpu(void)] *)
Definition can_hotplug_cpu (st : state) : Z :=
  match cpu_die (cpu_ops st) with Some _ => 1 | None => 0 end.

(** [int default_cpu_disable(unsigned int cpu)] *)
Definition default_cpu_disable (cpu : Z) : M Z :=
  do ops <- get cpu_ops;
  match cpu_die ops with
  | None => ret (- EOPNOTSUPP)
  | Some _ => ret 0
  end.

(** The indirect call [cpu_ops.cpu_disable(cpu)]. *)
Definition call_cpu_disable (h : disable_hook) (cpu : Z) : M Z :=
  log (EvCpuDisable cpu) ;;
  match h with
  | DisableDefault => default_cpu_disable cpu
  | DisablePlatform id => platform_cpu_disable id cpu
  end.

(** [int __cpu_disable(void)] *)
Definition __cpu_disable : M Z :=
  let ret0 := 0 in
  do cpu <- get processor_id;
  do ops <- get cpu_ops;
  do ret1 <- match cpu_disable ops with
             | Some h => call_cpu_disable h cpu
             | None => ret ret0
             end;
  if negb (ret1 =? 0) then ret ret1
  else
    set_cpu_online cpu false ;;
    log EvIrqMigrateAllOffThisCpu ;;
    ret ret1.

(** The test of the [do ... while] loop of [default_cpu_die] on the three
    [int]s it has just read: [true] to wait again. *)
Definition keep_waiting (sipval sieval scauseval : Z) : bool :=
  (Z.land sipval sieval =? 0) &&
  negb (scauseval =? INTERRUPT_CAUSE_SOFTWARE).

(** The [do ... while] loop of [default_cpu_die]: [None] when the hart is
    still parked after [fuel] waits. *)
Fixpoint park (fuel : nat) (st : state) : option state :=
  match fuel with
  | O => None
  | S fuel' =>
      let st := exec wait_for_interrupt st in
      let sipval := to_int (csr_sip st) in
      let sieval := to_int (csr_sie st) in
      let scauseval := to_int (csr_scause st) in
      if keep_waiting sipval sieval scauseval then park fuel' st
      else Some st
  end.

(** [void default_cpu_die(unsigned int cpu)]; [boot_sec_cpu()] jumps into
    the secondary boot path and does not come back. *)
Definition default_cpu_die (fuel : nat) (cpu : Z) (st : state)
  : option state :=
  let st := exec (csr_write_sip 0 ;; csr_write_scause 0) st in
  match park fuel st with
  | Some st => Some (exec (log EvBootSecCpu) st)
  | None => None
  end.

(** The indirect call [cpu_ops.cpu_die(cpu)]. *)
Definition call_cpu_die (h : die_hook) (fuel : nat) (cpu : Z) (st : state)
  : option state :=
  let st := exec (log (EvCpuDie cpu)) st in
  match h with
  | DieDefault => default_cpu_die fuel cpu st
  | DiePlatform id => platform_cpu_die id cpu st
  end.

(** [void cpu_play_dead(void)] *)
Definition cpu_play_dead (fuel : nat) (st : state) : option state :=
  let cpu := processor_id st in
  let st := exec (log EvIdleTaskExit ;;
                  log EvCpuReportDeath ;;
                  csr_clear_sie (Z.lor SIE_STIE SIE_SEIE)) st in
  match cpu_die (cpu_ops st) with
  | Some h => call_cpu_die h fuel cpu st
  | None => Some st
  end.

(** [struct cpu_operations default_ops] *)
Definition default_ops : cpu_operations :=
  mkOps (Some BootDefault)
        (if CONFIG_HOTPLUG_CPU then Some DisableDefault else None)
        (if CONFIG_HOTPLUG_CPU then Some DieDefault else None).

(** *** Discovery *)

(** The [while] loop of [setup_smp].  [harts] lists what
    [riscv_of_processor_hart] returns for the successive "cpu" nodes of the
    device tree; the result is [None] when [BUG_ON(found_boot_cpu)] fires.
    The store into [__cpu_logical_map] has no bounds check; past the end
    it is undefined in C and leaves the array as it is here. *)
Fixpoint setup_smp_nodes (harts : list Z) (cpuid : Z) (found_boot_cpu : bool)
         (st : state) : option (bool * state) :=
  match harts with
  | [] => Some (found_boot_cpu, st)
  | hart :: rest =>
      let hart := to_int hart in
      if hart <? 0 then setup_smp_nodes rest cpuid found_boot_cpu st
      else if hart =? logical_map 0 st then
        if found_boot_cpu then None
        else setup_smp_nodes rest cpuid true st
      else
        setup_smp_nodes rest (cpuid + 1) found_boot_cpu
          (set_cpu_masks
             (cpumask_set_cpu cpuid (cpu_possible_mask st))
             (cpumask_set_cpu cpuid (cpu_present_mask st))
             (cpu_online_mask st)
             (set_cpu_logical_map
                (<[Z.to_nat cpuid := hart]> (cpu_logical_map st)) st))
  end.

(** [void __init setup_smp(void)]; [None] when a [BUG_ON] fires. *)
Definition setup_smp (harts : list Z) (st : state) : option state :=
  match setup_smp_nodes harts 1 false (set_cpu_ops default_ops st) with
  | Some (true, st') => Some st'
  | Some (false, _) => None          (* BUG_ON(!found_boot_cpu) *)
  | None => None
  end.

(** The state in which [__cpu_up] reaches its test of [cpu_ops.cpu_boot]. *)
Definition published (cpu tidle : Z) (st : state) : state :=
  set_trace (trace st ++ [EvSmpMb])
    (set_thread_info_cpu (<[tidle := cpu]> (thread_info_cpu st)) st).

(** The state [__cpu_disable] leaves when it goes through: the running cpu
    is offline and its interrupts are to be moved away. *)
Definition taken_offline (st : state) : state :=
  set_trace (trace st ++ [EvIrqMigrateAllOffThisCpu])
    (set_cpu_online_mask
       (cpumask_clear_cpu (processor_id st) (cpu_online_mask st)) st).

(** After the wait numbered [k], some interrupt is both pending and
    enabled, or [scause] holds the software-interrupt cause. *)
Definition wakes (st : state) (k : nat) : Prop :=
  Z.land (to_int (fst (wfi_tape st k))) (to_int (csr_sie st)) <> 0 \/
  to_int (snd (wfi_tape st k)) = INTERRUPT_CAUSE_SOFTWARE.

(** The state in which [cpu_play_dead] calls the die hook: the hart has
    left its task, reported its death, and masked the timer and external
    interrupt enables. *)
Definition dying (st : state) : state :=
  set_csrs (Z.land (csr_sie st) (Z.lnot (Z.lor SIE_STIE SIE_SEIE)))
    (csr_sip st) (csr_scause st)
    (set_trace (trace st ++ [EvIdleTaskExit; EvCpuReportDeath]) st).

(** *** Discovering the harts *)

Lemma setup_smp_nodes_masks harts :
  forall cpuid found st found' st',
    setup_smp_nodes harts cpuid found st = Some (found', st') ->
    cpu_possible_mask st = cpu_present_mask st ->
    cpu_possible_mask st' = cpu_present_mask st'.
Proof.
  induction harts as [| hart rest IH]; intros cpuid found st found' st' Hrun Heq;
    cbn [setup_smp_nodes] in Hrun.
  - injection Hrun as _ <-. exact Heq.
  - cbv zeta in Hrun. destruct (to_int hart <? 0); [eauto |].
    destruct (to_int hart =? logical_map 0 st).
    + destruct found; [discriminate | eauto].
    + apply IH in Hrun; [exact Hrun |]. simpl. now rewrite Heq.
Qed.

(** [setup_smp] marks the same cpus possible and present: if the two masks
    agree before (the boot cpu alone in both), they agree afterwards. *)
Lemma setup_smp_masks harts st st' :
  setup_smp harts st = Some st' ->
  cpu_possible_mask st = cpu_present_mask st ->
  cpu_possible_mask st' = cpu_present_mask st'.
Proof.
  unfold setup_smp. intros Hrun Heq.
  destruct (setup_smp_nodes _ _ _ _) as [[[] st1] |] eqn:Hnodes;
    try discriminate.
  injection Hrun as <-.
  eapply setup_smp_nodes_masks; [exact Hnodes | exact Heq].
Qed.

Lemma setup_smp_nodes_not_found harts :
  forall cpuid found st found' st',
    1 <= cpuid ->
    (forall hart, hart ∈ harts -> to_int hart <> logical_map 0 st) ->
    setup_smp_nodes harts cpuid found st = Some (found', st') ->
    found' = found.
Proof.
  induction harts as [| hart rest IH];
    intros cpuid found st found' st' Hcpuid Hnone Hrun;
    cbn [setup_smp_nodes] in Hrun.
  - now injection Hrun as <- _.
  - cbv zeta in Hrun.
    assert (Hrest : forall h, h ∈ rest -> to_int h <> logical_map 0 st)
      by (intros h Hh; apply Hnone; now right).
    destruct (to_int hart <? 0); [eauto |].
    destruct (Z.eqb_spec (to_int hart) (logical_map 0 st)) as [Heq | _].
    + now destruct (Hnone hart ltac:(left)).
    + apply IH in Hrun; [exact Hrun | lia |].
      intros h Hh. unfold logical_map. cbn [cpu_logical_map set_cpu_masks
        set_cpu_logical_map].
      rewrite list_lookup_insert_ne by lia. now apply Hrest.
Qed.

(** Without a node for the running hart, [BUG_ON(!found_boot_cpu)] fires. *)
Lemma setup_smp_no_boot_cpu harts st :
  (forall hart, hart ∈ harts -> to_int hart <> logical_map 0 st) ->
  setup_smp harts st = None.
Proof.
  intros Hnone. unfold setup_smp.
  destruct (setup_smp_nodes _ _ _ _) as [[found st1] |] eqn:Hnodes;
    [| reflexivity].
  apply setup_smp_nodes_not_found in Hnodes as ->; [reflexivity | lia |].
  exact Hnone.
Qed.

(** *** Booting a hart *)

Lemma cpu_up_unfold fuel cpu tidle st :
  __cpu_up fuel cpu tidle st =
  let hartid := to_int (logical_map cpu st) in
  let (err, st1) :=
    match cpu_boot (cpu_ops st) with
    | Some h => call_cpu_boot h hartid tidle (published cpu tidle st)
    | None => (-1, published cpu tidle st)
    end in
  if err =? 0 then
    match wait_online fuel cpu
            (if CONFIG_HOTPLUG_CPU then exec (log (EvSendIpi cpu)) st1 else st1)
    with
    | Some st2 => Some (0, exec (log (EvPrNoticeOnline cpu)) st2)
    | None => None
    end
  else Some (0, exec (log (EvPrErrBoot cpu hartid)) st1).
Proof. reflexivity. Qed.

(** Whatever happens, a call that returns returns 0. *)
Lemma cpu_up_returns_zero fuel cpu tidle st r st' :
  __cpu_up fuel cpu tidle st = Some (r, st') -> r = 0.
Proof.
  rewrite cpu_up_unfold. cbv zeta.
  destruct (match cpu_boot (cpu_ops st) with
            | Some h => _ | None => _ end) as [err st1].
  destruct (err =? 0).
  - destruct (wait_online _ _ _); [| discriminate]. congruence.
  - congruence.
Qed.

(** A start primitive that reports an error: [__cpu_up] logs the failure,
    does not wait for the hart, and returns 0 all the same. *)
Lemma cpu_up_boot_error fuel cpu tidle st id err st1 :
  cpu_boot (cpu_ops st) = Some (BootPlatform id) ->
  platform_cpu_boot id (to_int (logical_map cpu st)) tidle
    (exec (log (EvCpuBoot (to_int (logical_map cpu st)) tidle))
       (published cpu tidle st)) = (err, st1) ->
  err <> 0 ->
  __cpu_up fuel cpu tidle st =
    Some (0, set_trace
               (trace st1 ++ [EvPrErrBoot cpu (to_int (logical_map cpu st))])
               st1).
Proof.
  intros Hhook Hboot Herr. rewrite cpu_up_unfold. cbv zeta.
  rewrite Hhook.
  cbv [exec log modify bind snd call_cpu_boot] in Hboot |- *.
  rewrite Hboot. apply Z.eqb_neq in Herr. now rewrite Herr.
Qed.

Lemma default_cpu_boot_run hartid tidle st :
  default_cpu_boot hartid tidle st =
    (0, set_cpu_up_pointers
          (<[Z.to_nat (u32 hartid) := task_stack_page st tidle + THREAD_SIZE]>
             (cpu_up_stack_pointer st))
          (<[Z.to_nat (u32 hartid) := tidle]> (cpu_up_task_pointer st)) st).
Proof. reflexivity. Qed.

(** C3, as the code has it.  [__cpu_up] on a hart that is already online,
    with the default start primitive: the call returns 0 and spends no turn
    waiting, but it does call the start primitive again, which stores the
    stack pointer and task handle of the idle task passed in over the ones
    published before. *)
Theorem cpu_up_online_hart fuel cpu tidle st :
  let hartid := to_int (logical_map cpu st) in
  cpu_online cpu st = true ->
  cpu_boot (cpu_ops st) = Some BootDefault ->
  0 <= hartid ->
  (Z.to_nat hartid < length (cpu_up_stack_pointer st))%nat ->
  (Z.to_nat hartid < length (cpu_up_task_pointer st))%nat ->
  (0 < fuel)%nat ->
  exists st',
    __cpu_up fuel cpu tidle st = Some (0, st') /\
    trace st' =
      trace st ++ [EvSmpMb; EvCpuBoot hartid tidle] ++
      (if CONFIG_HOTPLUG_CPU then [EvSendIpi cpu] else []) ++
      [EvPrNoticeOnline cpu] /\
    cpu_up_stack_pointer st' !! Z.to_nat hartid =
      Some (task_stack_page st tidle + THREAD_SIZE) /\
    cpu_up_task_pointer st' !! Z.to_nat hartid = Some tidle /\
    cpu_online_mask st' = cpu_online_mask st /\
    relax_count st' = relax_count st.
Proof.
  intros hartid Honline Hhook Hpos Hlen1 Hlen2 Hfuel.
  assert (Hrange : - 2 ^ 31 <= hartid < 2 ^ 31).
  { unfold hartid, to_int.
    pose proof (Z.mod_pos_bound (logical_map cpu st + 2 ^ 31) (2 ^ 32)). lia. }
  assert (Hu : u32 hartid = hartid) by (apply u32_small; lia).
  rewrite cpu_up_unfold. cbv zeta. fold hartid. rewrite Hhook.
  unfold call_cpu_boot, bind at 1, log at 1, modify at 1.
  rewrite default_cpu_boot_run, Hu. simpl (0 =? 0).
  cbv iota beta.
  destruct fuel as [| fuel]; [lia |].
  destruct CONFIG_HOTPLUG_CPU; cbn [wait_online];
    unfold cpu_online in *; simpl; rewrite Honline;
    (eexists; split; [reflexivity |]); simpl;
    rewrite <- !app_assoc; simpl;
    rewrite !list_lookup_insert_eq by assumption; auto.
Qed.

(** *** Taking a hart offline *)

Lemma cpu_online_clear cpu mask :
  cpumask_test_cpu cpu (cpumask_clear_cpu cpu mask) = false.
Proof.
  unfold cpumask_test_cpu, cpumask_clear_cpu.
  destruct (Z.neg_nonneg_cases cpu) as [Hneg | Hnn].
  - now apply Z.testbit_neg_r.
  - now apply Z.clearbit_eq.
Qed.

(** No disable hook at all: [__cpu_disable] goes through. *)
Lemma cpu_disable_no_hook st :
  cpu_disable (cpu_ops st) = None ->
  __cpu_disable st = (0, taken_offline st).
Proof.
  intros Hhook. unfold __cpu_disable.
  cbv [bind get ret]. rewrite Hhook. reflexivity.
Qed.

(** The default disable hook, with no die hook to rely on. *)
Lemma cpu_disable_no_die st :
  EOPNOTSUPP <> 0 ->
  cpu_disable (cpu_ops st) = Some DisableDefault ->
  cpu_die (cpu_ops st) = None ->
  __cpu_disable st =
    (- EOPNOTSUPP,
     set_trace (trace st ++ [EvCpuDisable (processor_id st)]) st).
Proof.
  intros Herr Hhook Hdie. unfold __cpu_disable.
  cbv [bind get ret]. rewrite Hhook.
  cbv [call_cpu_disable default_cpu_disable bind get ret log modify].
  cbn [cpu_ops set_trace]. rewrite Hdie.
  assert (H : (- EOPNOTSUPP =? 0) = false) by (apply Z.eqb_neq; lia).
  now rewrite H.
Qed.

(** The default disable hook, with a die hook installed. *)
Lemma cpu_disable_with_die st h :
  cpu_disable (cpu_ops st) = Some DisableDefault ->
  cpu_die (cpu_ops st) = Some h ->
  __cpu_disable st =
    (0, taken_offline
          (set_trace (trace st ++ [EvCpuDisable (processor_id st)]) st)).
Proof.
  intros Hhook Hdie. unfold __cpu_disable.
  cbv [bind get ret]. rewrite Hhook.
  cbv [call_cpu_disable default_cpu_disable bind get ret log modify].
  cbn [cpu_ops set_trace]. rewrite Hdie. reflexivity.
Qed.

(** C8, as the code has it.  With the hooks this file provides:
    - when the disable hook finds no die hook, [__cpu_disable] returns
      [-EOPNOTSUPP], the hart stays online and no interrupt is moved: but
      for the record of the hook's call, the state is as before;
    - when no disable hook is installed, [__cpu_disable] returns 0, marks
      the hart offline and asks for its interrupts to be moved;
    - a call that does not return 0 leaves the online mask as it was. *)
Theorem cpu_disable_outcomes st :
  EOPNOTSUPP <> 0 ->
  cpu_disable (cpu_ops st) = None \/
  cpu_disable (cpu_ops st) = Some DisableDefault ->
  let cpu := processor_id st in
  let r := fst (__cpu_disable st) in
  let st' := snd (__cpu_disable st) in
  (cpu_disable (cpu_ops st) = Some DisableDefault ->
   cpu_die (cpu_ops st) = None ->
   r = - EOPNOTSUPP /\
   st' = set_trace (trace st ++ [EvCpuDisable cpu]) st /\
   cpu_online cpu st' = cpu_online cpu st) /\
  (cpu_disable (cpu_ops st) = None ->
   r = 0 /\ cpu_online cpu st' = false /\
   trace st' = trace st ++ [EvIrqMigrateAllOffThisCpu]) /\
  (r <> 0 ->
   cpu_online_mask st' = cpu_online_mask st /\
   EvIrqMigrateAllOffThisCpu ∉ drop (length (trace st)) (trace st')) /\
  (r = 0 -> cpu_online cpu st' = false).
Proof.
  intros Herr Hhooks cpu r st'. subst r st'.
  destruct Hhooks as [Hnone | Hdefault].
  - rewrite (cpu_disable_no_hook st Hnone). cbn [fst snd].
    split; [| split; [| split]].
    + intros Hd. congruence.
    + intros _. split; [reflexivity |].
      split; [apply cpu_online_clear | reflexivity].
    + intros Hr. now contradiction Hr.
    + intros _. apply cpu_online_clear.
  - destruct (cpu_die (cpu_ops st)) as [h |] eqn:Hdie.
    + rewrite (cpu_disable_with_die st h Hdefault Hdie). cbn [fst snd].
      split; [| split; [| split]].
      * intros _ Hd. discriminate.
      * intros Hd. congruence.
      * intros Hr. now contradiction Hr.
      * intros _. apply cpu_online_clear.
    + rewrite (cpu_disable_no_die st Herr Hdefault Hdie). cbn [fst snd].
      split; [| split; [| split]].
      * intros _ _. repeat split.
      * intros Hd. congruence.
      * intros _. split; [reflexivity |].
        simpl. rewrite drop_app_length. intros Hin.
        apply list_elem_of_singleton in Hin. discriminate.
      * intros Hr. lia.
Qed.

(** *** Parking a dead hart *)

Lemma keep_waiting_false sipval sieval scauseval :
  keep_waiting sipval sieval scauseval = false <->
  Z.land sipval sieval <> 0 \/ scauseval = INTERRUPT_CAUSE_SOFTWARE.
Proof.
  unfold keep_waiting. rewrite andb_false_iff, negb_false_iff.
  rewrite Z.eqb_neq, Z.eqb_eq. reflexivity.
Qed.

Lemma keep_waiting_true sipval sieval scauseval :
  keep_waiting sipval sieval scauseval = true <->
  ~ (Z.land sipval sieval <> 0 \/ scauseval = INTERRUPT_CAUSE_SOFTWARE).
Proof.
  rewrite <- keep_waiting_false. now destruct (keep_waiting _ _ _).
Qed.

Lemma wait_for_interrupt_run st :
  exec wait_for_interrupt st =
    set_wfi_count (S (wfi_count st))
      (set_csrs (csr_sie st) (fst (wfi_tape st (wfi_count st)))
         (snd (wfi_tape st (wfi_count st)))
         (set_trace (trace st ++ [EvWaitForInterrupt]) st)).
Proof.
  unfold wait_for_interrupt, exec, bind, log, modify. simpl.
  now destruct (wfi_tape st (wfi_count st)).
Qed.

(** The parked hart's view of the loop: which wait ends it, and what the
    hart was through by then. *)
Lemma park_spec fuel :
  forall st,
    match park fuel st with
    | Some st' =>
        exists k, (k < fuel)%nat /\
          wakes st (wfi_count st + k) /\
          (forall j, (j < k)%nat -> ~ wakes st (wfi_count st + j)) /\
          trace st' = trace st ++ repeat EvWaitForInterrupt (S k) /\
          csr_sie st' = csr_sie st /\
          (csr_sip st', csr_scause st') = wfi_tape st (wfi_count st + k) /\
          cpu_online_mask st' = cpu_online_mask st
    | None => forall k, (k < fuel)%nat -> ~ wakes st (wfi_count st + k)
    end.
Proof.
  induction fuel as [| fuel IH]; intros st; cbn [park]; [intros k Hk; lia |].
  rewrite wait_for_interrupt_run.
  set (st1 := set_wfi_count _ _).
  assert (Hw : forall k, wakes st1 k <-> wakes st k) by reflexivity.
  destruct (keep_waiting _ _ _) eqn:Hkeep.
  - apply keep_waiting_true in Hkeep.
    assert (Hfirst : ~ wakes st (wfi_count st + 0)).
    { rewrite Nat.add_0_r. exact Hkeep. }
    specialize (IH st1). destruct (park fuel st1) as [st' |].
    + destruct IH as (k & Hk & Hwake & Hbefore & Htr & Hsie & Hcsr & Hon).
      exists (S k). rewrite Nat.add_succ_r.
      split; [lia |]. split; [now apply Hw |]. split.
      { intros [| j] Hj; [exact Hfirst |].
        rewrite Nat.add_succ_r. intros Hwj. apply (Hbefore j); [lia |].
        now apply Hw. }
      split.
      { rewrite Htr. simpl. now rewrite <- app_assoc. }
      repeat split; assumption.
    + intros [| k] Hk; [exact Hfirst |].
      rewrite Nat.add_succ_r. intros Hwk. apply (IH k); [lia |].
      now apply Hw.
  - apply keep_waiting_false in Hkeep.
    exists 0%nat. rewrite Nat.add_0_r.
    split; [lia |]. split; [exact Hkeep |]. split; [intros j Hj; lia |].
    split; [reflexivity |]. split; [reflexivity |]. split; [| reflexivity].
    simpl. now destruct (wfi_tape st (wfi_count st)).
Qed.

(** What [default_cpu_die] does before it parks touches neither [sie] nor
    what the hardware will report. *)
Lemma default_cpu_die_unfold fuel cpu st :
  default_cpu_die fuel cpu st =
    match park fuel (set_csrs (csr_sie st) 0 0 st) with
    | Some st' => Some (set_trace (trace st' ++ [EvBootSecCpu]) st')
    | None => None
    end.
Proof. reflexivity. Qed.

(** The park loop and its way out. *)
Lemma default_cpu_die_spec fuel cpu st :
  match default_cpu_die fuel cpu st with
  | Some st' =>
      exists k, (k < fuel)%nat /\
        wakes st (wfi_count st + k) /\
        (forall j, (j < k)%nat -> ~ wakes st (wfi_count st + j)) /\
        trace st' =
          trace st ++ repeat EvWaitForInterrupt (S k) ++ [EvBootSecCpu]
  | None => forall k, (k < fuel)%nat -> ~ wakes st (wfi_count st + k)
  end.
Proof.
  rewrite default_cpu_die_unfold.
  pose proof (park_spec fuel (set_csrs (csr_sie st) 0 0 st)) as H.
  destruct (park fuel _) as [st' |]; [| exact H].
  destruct H as (k & Hk & Hwake & Hbefore & Htr & _).
  exists k. repeat split; try assumption.
  cbn [trace set_trace]. rewrite Htr. now rewrite <- app_assoc.
Qed.

(** The loop of [default_cpu_die] on its own, whatever [sie] holds: the
    hart leaves, for [boot_sec_cpu], at the first wait after which some
    interrupt is both pending and enabled or [scause] holds the
    software-interrupt cause; it does leave if such a wait comes, and
    stays parked as long as none does. *)
Lemma default_cpu_die_leaves_park fuel cpu st :
  (forall st', default_cpu_die fuel cpu st = Some st' ->
     exists k, (k < fuel)%nat /\
       wakes st (wfi_count st + k) /\
       (forall j, (j < k)%nat -> ~ wakes st (wfi_count st + j)) /\
       trace st' =
         trace st ++ repeat EvWaitForInterrupt (S k) ++ [EvBootSecCpu]) /\
  (forall k, (k < fuel)%nat -> wakes st (wfi_count st + k) ->
     is_Some (default_cpu_die fuel cpu st)) /\
  ((forall k, (k < fuel)%nat -> ~ wakes st (wfi_count st + k)) ->
   default_cpu_die fuel cpu st = None).
Proof.
  pose proof (default_cpu_die_spec fuel cpu st) as H.
  destruct (default_cpu_die fuel cpu st) as [st1 |].
  - split; [| split].
    + intros st' Heq. injection Heq as <-. exact H.
    + intros. eauto.
    + intros Hnever. destruct H as (k & Hk & Hwake & _).
      now destruct (Hnever k Hk).
  - split; [| split].
    + intros st' Heq. discriminate.
    + intros k Hk Hwake. now destruct (H k Hk).
    + reflexivity.
Qed.

Lemma dying_masks st :
  Z.land (csr_sie (dying st)) SIE_STIE = 0 /\
  Z.land (csr_sie (dying st)) SIE_SEIE = 0.
Proof.
  cbn [dying csr_sie set_csrs]. split; apply Z.bits_inj'; intros i Hi;
    rewrite !Z.land_spec, Z.lnot_spec, Z.lor_spec, Z.bits_0 by exact Hi;
    destruct (Z.testbit (csr_sie st) i), (Z.testbit SIE_STIE i),
      (Z.testbit SIE_SEIE i); reflexivity.
Qed.

Lemma cpu_play_dead_unfold fuel st :
  cpu_play_dead fuel st =
    match cpu_die (cpu_ops st) with
    | Some h => call_cpu_die h fuel (processor_id st) (dying st)
    | None => Some (dying st)
    end.
Proof.
  unfold cpu_play_dead, dying, exec, bind, log, modify, csr_clear_sie.
  cbn [snd cpu_ops set_trace set_csrs trace csr_sie csr_sip csr_scause].
  rewrite <- app_assoc. reflexivity.
Qed.

(** Through [cpu_play_dead] with the default die hook: what ends the park
    is an interrupt pending and still enabled after the masking, or the
    software-interrupt cause. *)
Lemma cpu_play_dead_spec fuel st st' :
  cpu_die (cpu_ops st) = Some DieDefault ->
  cpu_play_dead fuel st = Some st' ->
  exists k, (k < fuel)%nat /\ wakes (dying st) (wfi_count st + k).
Proof.
  intros Hhook Hrun. rewrite cpu_play_dead_unfold, Hhook in Hrun.
  unfold call_cpu_die in Hrun.
  match type of Hrun with
  | (default_cpu_die _ _ ?s = Some _) =>
      pose proof (default_cpu_die_spec fuel (processor_id st) s) as H;
      rewrite Hrun in H
  end.
  destruct H as (k & Hk & Hwake & _). exists k. split; [exact Hk |].
  exact Hwake.
Qed.

(** *** More on discovery *)

Lemma test_set_cpu c h mask :
  0 <= c ->
  cpumask_test_cpu c (cpumask_set_cpu h mask) =
  bool_decide (h = c) || cpumask_test_cpu c mask.
Proof.
  intros Hc. unfold cpumask_test_cpu, cpumask_set_cpu.
  destruct (Z.neg_nonneg_cases h) as [Hneg | Hnn].
  - rewrite bool_decide_eq_false_2 by lia.
    unfold Z.setbit. rewrite Z.lor_spec, Z.shiftl_spec by exact Hc.
    change 1 with (2 ^ 0). rewrite Z.pow2_bits_eqb by lia.
    destruct (Z.eqb_spec 0 (c - h)); [lia |]. now rewrite orb_false_r.
  - rewrite Z.setbit_eqb by exact Hnn. f_equal.
    destruct (Z.eqb_spec h c);
      [now rewrite bool_decide_eq_true_2 | now rewrite bool_decide_eq_false_2].
Qed.

(** The harts [setup_smp] gives a logical id to: those of the cpu nodes
    with a valid hart id other than the boot hart's, in device-tree order. *)
Definition secondary_harts (boot : Z) (harts : list Z) : list Z :=
  filter (fun h => 0 <= h /\ h <> boot) (to_int <$> harts).

(** The number of cpu nodes that name the boot hart. *)
Definition boot_nodes (boot : Z) (harts : list Z) : nat :=
  length (filter (fun h => 0 <= h /\ h = boot) (to_int <$> harts)).

(** The stores of the loop of [setup_smp] for the harts [secs], the first
    of which gets the logical id [cpuid]. *)
Fixpoint assign (cpuid : Z) (secs : list Z) (st : state) : state :=
  match secs with
  | [] => st
  | hart :: rest =>
      assign (cpuid + 1) rest
        (set_cpu_masks
           (cpumask_set_cpu cpuid (cpu_possible_mask st))
           (cpumask_set_cpu cpuid (cpu_present_mask st))
           (cpu_online_mask st)
           (set_cpu_logical_map
              (<[Z.to_nat cpuid := hart]> (cpu_logical_map st)) st))
  end.

Lemma setup_smp_nodes_run harts :
  forall cpuid found st,
    1 <= cpuid ->
    setup_smp_nodes harts cpuid found st =
    if decide ((if found then 1 else 0) +
               boot_nodes (logical_map 0 st) harts <= 1)%nat
    then Some (found ||
               bool_decide (boot_nodes (logical_map 0 st) harts = 1%nat),
               assign cpuid (secondary_harts (logical_map 0 st) harts) st)
    else None.
Proof.
  induction harts as [| hart rest IH]; intros cpuid found st Hcpuid.
  - cbn. destruct found; reflexivity.
  - cbn [setup_smp_nodes]. cbv zeta.
    set (boot := logical_map 0 st).
    unfold boot_nodes, secondary_harts. rewrite !fmap_cons.
    destruct (Z.ltb_spec (to_int hart) 0) as [Hneg | Hnn].
    { rewrite !filter_cons_False by lia. now apply IH. }
    destruct (Z.eqb_spec (to_int hart) boot) as [Heq | Hne].
    + rewrite (filter_cons_True (fun h => 0 <= h /\ h = boot)) by lia.
      rewrite (filter_cons_False (fun h => 0 <= h /\ h <> boot)) by lia.
      cbn [length].
      fold (boot_nodes boot rest). fold (secondary_harts boot rest).
      destruct found.
      * destruct (decide _) as [Hle | _]; [lia | reflexivity].
      * rewrite IH by exact Hcpuid. fold boot.
        destruct (decide (1 + boot_nodes boot rest <= 1)%nat) as [Hle | Hgt];
          destruct (decide (0 + S (boot_nodes boot rest) <= 1)%nat)
            as [Hle' | Hgt']; try lia; [| reflexivity].
        cbn [orb]. now rewrite bool_decide_eq_true_2 by lia.
    + rewrite (filter_cons_False (fun h => 0 <= h /\ h = boot)) by lia.
      rewrite (filter_cons_True (fun h => 0 <= h /\ h <> boot)) by lia.
      fold (boot_nodes boot rest). fold (secondary_harts boot rest).
      rewrite IH by lia.
      unfold logical_map in *.
      cbn [cpu_logical_map set_cpu_masks set_cpu_logical_map] in *.
      rewrite list_lookup_insert_ne by lia. reflexivity.
Qed.

Lemma assign_spec secs :
  forall cpuid st,
    1 <= cpuid ->
    let st' := assign cpuid secs st in
    length (cpu_logical_map st') = length (cpu_logical_map st) /\
    (forall j, (j < Z.to_nat cpuid)%nat ->
       cpu_logical_map st' !! j = cpu_logical_map st !! j) /\
    (forall i h, secs !! i = Some h ->
       (Z.to_nat cpuid + i < length (cpu_logical_map st))%nat ->
       cpu_logical_map st' !! (Z.to_nat cpuid + i)%nat = Some h) /\
    (forall c, 0 <= c ->
       cpumask_test_cpu c (cpu_possible_mask st') =
       cpumask_test_cpu c (cpu_possible_mask st) ||
       bool_decide (cpuid <= c < cpuid + Z.of_nat (length secs))) /\
    (forall c, 0 <= c ->
       cpumask_test_cpu c (cpu_present_mask st') =
       cpumask_test_cpu c (cpu_present_mask st) ||
       bool_decide (cpuid <= c < cpuid + Z.of_nat (length secs))) /\
    cpu_online_mask st' = cpu_online_mask st /\
    cpu_ops st' = cpu_ops st /\
    trace st' = trace st.
Proof.
  induction secs as [| hart rest IH]; intros cpuid st Hcpuid; cbn [assign].
  - cbv zeta. cbn [length].
    repeat split; try reflexivity.
    + intros i h Hi. discriminate.
    + intros c _. rewrite bool_decide_eq_false_2 by lia.
      now rewrite orb_false_r.
    + intros c _. rewrite bool_decide_eq_false_2 by lia.
      now rewrite orb_false_r.
  - cbv zeta.
    match goal with
    | |- context [assign (cpuid + 1) rest ?s] => set (st1 := s)
    end.
    destruct (IH (cpuid + 1) st1 ltac:(lia))
      as (Hlen & Hlow & Hids & Hposs & Hpres & Hon & Hops & Htr).
    assert (Hlen1 : length (cpu_logical_map st1) = length (cpu_logical_map st))
      by apply length_insert.
    split; [now rewrite Hlen |].
    split.
    { intros j Hj. rewrite Hlow by lia. unfold st1.
      cbn [cpu_logical_map set_cpu_masks set_cpu_logical_map].
      now rewrite list_lookup_insert_ne by lia. }
    split.
    { intros [| i] h Hi Hbound.
      - injection Hi as ->. rewrite Nat.add_0_r in *.
        rewrite Hlow by lia. unfold st1.
        cbn [cpu_logical_map set_cpu_masks set_cpu_logical_map].
        now apply list_lookup_insert_eq.
      - replace (Z.to_nat cpuid + S i)%nat
          with (Z.to_nat (cpuid + 1) + i)%nat by lia.
        apply Hids; [exact Hi | lia]. }
    assert (Hbit : forall c m, 0 <= c ->
              cpumask_test_cpu c (cpumask_set_cpu cpuid m) ||
              bool_decide (cpuid + 1 <= c <
                           cpuid + 1 + Z.of_nat (length rest)) =
              cpumask_test_cpu c m ||
              bool_decide (cpuid <= c <
                           cpuid + Z.of_nat (length (hart :: rest)))).
    { intros c m Hc. rewrite test_set_cpu by exact Hc. cbn [length].
      destruct (cpumask_test_cpu c m); [now rewrite orb_true_r |].
      rewrite orb_false_r. cbn [orb].
      repeat case_bool_decide; try reflexivity; lia. }
    split; [intros c Hc; rewrite Hposs by exact Hc; now apply Hbit |].
    split; [intros c Hc; rewrite Hpres by exact Hc; now apply Hbit |].
    repeat split; assumption.
Qed.

(** [setup_smp] returns exactly when one cpu node, no more and no fewer,
    names the hart the kernel is running on: with none
    [BUG_ON(!found_boot_cpu)] fires after the loop, with a second one
    [BUG_ON(found_boot_cpu)] fires inside it. *)
Theorem setup_smp_needs_one_boot_node harts st :
  is_Some (setup_smp harts st) <->
  boot_nodes (logical_map 0 st) harts = 1%nat.
Proof.
  unfold setup_smp. rewrite setup_smp_nodes_run by lia.
  change (logical_map 0 (set_cpu_ops default_ops st)) with (logical_map 0 st).
  destruct (decide _) as [Hle | Hgt]; cbn [orb].
  - case_bool_decide as Hone; split; intros H; try (eauto || lia).
    now destruct H.
  - split; intros H; [now destruct H | lia].
Qed.

(** [setup_smp] hands out the logical ids 1, 2, ... without gaps, in
    device-tree order, to the valid harts other than the boot hart; nodes
    without a valid hart id take no id.  The new ids, and no others,
    become possible and present; entry 0 of the logical map, the online
    mask and the trace are untouched, and [cpu_ops] is [default_ops].  The
    logical map has room for the harts found. *)
Theorem setup_smp_assigns_ids harts st st' :
  let secs := secondary_harts (logical_map 0 st) harts in
  setup_smp harts st = Some st' ->
  (length secs < length (cpu_logical_map st))%nat ->
  (forall i h, secs !! i = Some h -> cpu_logical_map st' !! S i = Some h) /\
  cpu_logical_map st' !! 0%nat = cpu_logical_map st !! 0%nat /\
  (forall c, 0 <= c ->
     cpumask_test_cpu c (cpu_possible_mask st') =
     cpumask_test_cpu c (cpu_possible_mask st) ||
     bool_decide (1 <= c <= Z.of_nat (length secs))) /\
  (forall c, 0 <= c ->
     cpumask_test_cpu c (cpu_present_mask st') =
     cpumask_test_cpu c (cpu_present_mask st) ||
     bool_decide (1 <= c <= Z.of_nat (length secs))) /\
  cpu_online_mask st' = cpu_online_mask st /\
  cpu_ops st' = default_ops /\
  trace st' = trace st.
Proof.
  intros secs Hrun Hroom. unfold setup_smp in Hrun.
  rewrite setup_smp_nodes_run in Hrun by lia.
  change (logical_map 0 (set_cpu_ops default_ops st))
    with (logical_map 0 st) in Hrun.
  fold secs in Hrun.
  destruct (decide _) as [_ |] in Hrun; [| discriminate].
  destruct (_ || _) in Hrun; [| discriminate].
  injection Hrun as <-.
  destruct (assign_spec secs 1 (set_cpu_ops default_ops st) ltac:(lia))
    as (_ & Hlow & Hids & Hposs & Hpres & Hon & Hops & Htr).
  split; [| split; [| split; [| split; [| split; [| split]]]]].
  - intros i h Hi. apply (Hids i h Hi).
    apply lookup_lt_Some in Hi. cbn [cpu_logical_map set_cpu_ops].
    change (Z.to_nat 1) with 1%nat. fold secs in Hi. lia.
  - apply (Hlow 0%nat). change (Z.to_nat 1) with 1%nat. lia.
  - intros c Hc. rewrite Hposs by exact Hc. cbn [cpu_possible_mask set_cpu_ops].
    f_equal. apply bool_decide_ext. lia.
  - intros c Hc. rewrite Hpres by exact Hc. cbn [cpu_present_mask set_cpu_ops].
    f_equal. apply bool_decide_ext. lia.
  - exact Hon.
  - exact Hops.
  - exact Htr.
Qed.

(** *** More on booting *)

Lemma smp_callin_run st :
  exec smp_callin st =
    set_trace
      (trace st ++
       [EvTrapInit; EvNotifyCpuStarting (processor_id st); EvLocalFlushTlbAll;
        EvLocalIrqEnable; EvPreemptDisable; EvCpuStartupEntry])
      (set_cpu_online_mask
         (cpumask_set_cpu (processor_id st) (cpu_online_mask st))
         (set_init_mm_count (init_mm_count st + 1) st)).
Proof.
  destruct st.
  cbv [smp_callin exec bind log modify get set_cpu_online snd fst
       set_trace set_cpu_online_mask set_cpu_masks set_init_mm_count
       trace processor_id cpu_online_mask init_mm_count cpu_ops
       cpu_possible_mask cpu_present_mask cpu_logical_map cpu_up_stack_pointer
       cpu_up_task_pointer task_stack_page thread_info_cpu csr_sie csr_sip
       csr_scause callin_tape relax_count wfi_tape wfi_count].
  rewrite <- !app_assoc. reflexivity.
Qed.

(** What a hart spinning in [__cpu_up] does not see change. *)
Definition waiting_frame (st st' : state) : Prop :=
  cpu_ops st' = cpu_ops st /\
  cpu_logical_map st' = cpu_logical_map st /\
  cpu_up_stack_pointer st' = cpu_up_stack_pointer st /\
  cpu_up_task_pointer st' = cpu_up_task_pointer st /\
  thread_info_cpu st' = thread_info_cpu st /\
  processor_id st' = processor_id st /\
  callin_tape st' = callin_tape st.

Lemma waiting_frame_trans st0 st1 st2 :
  waiting_frame st0 st1 -> waiting_frame st1 st2 -> waiting_frame st0 st2.
Proof. unfold waiting_frame. intuition congruence. Qed.

Lemma cpu_relax_spec cpu st :
  0 <= cpu ->
  let st' := exec cpu_relax st in
  relax_count st' = S (relax_count st) /\
  waiting_frame st st' /\
  cpu_online cpu st' =
    cpu_online cpu st ||
    bool_decide (callin_tape st (relax_count st) = Some cpu).
Proof.
  intros Hcpu. unfold cpu_relax, exec, bind, log, modify. cbn [snd].
  cbn [callin_tape relax_count set_trace].
  destruct (callin_tape st (relax_count st)) as [hart |].
  - fold (exec smp_callin
            (set_processor_id hart
               (set_relax_count (S (relax_count st))
                  (set_trace (trace st ++ [EvCpuRelax]) st)))).
    rewrite smp_callin_run. unfold cpu_online, waiting_frame. cbn.
    split; [reflexivity |]. split; [repeat split |].
    rewrite test_set_cpu by exact Hcpu. rewrite orb_comm. f_equal.
    apply bool_decide_ext. split; congruence.
  - unfold cpu_online, waiting_frame. cbn.
    split; [reflexivity |]. split; [repeat split |].
    rewrite bool_decide_eq_false_2 by discriminate. now rewrite orb_false_r.
Qed.

(** No hart calling in, no way out of the loop. *)
Lemma wait_online_none cpu fuel :
  forall st,
    0 <= cpu ->
    cpu_online cpu st = false ->
    (forall k, callin_tape st (relax_count st + k)%nat <> Some cpu) ->
    wait_online fuel cpu st = None.
Proof.
  induction fuel as [| fuel IH]; intros st Hcpu Hoff Hnever; [reflexivity |].
  cbn [wait_online]. rewrite Hoff.
  destruct (cpu_relax_spec cpu st Hcpu) as (Hcount & Hframe & Hon).
  apply IH; [exact Hcpu | |].
  - rewrite Hon, Hoff. cbn [orb]. apply bool_decide_eq_false_2.
    specialize (Hnever 0%nat). now rewrite Nat.add_0_r in Hnever.
  - intros k. rewrite Hcount. destruct Hframe as (_ & _ & _ & _ & _ & _ & ->).
    specialize (Hnever (S k)). now rewrite Nat.add_succ_r in Hnever.
Qed.

(** The loop ends with the turn in which the hart calls in. *)
Lemma wait_online_some cpu k :
  forall fuel st,
    0 <= cpu ->
    cpu_online cpu st = false ->
    (forall j, (j < k)%nat ->
       callin_tape st (relax_count st + j)%nat <> Some cpu) ->
    callin_tape st (relax_count st + k)%nat = Some cpu ->
    (S k < fuel)%nat ->
    exists st',
      wait_online fuel cpu st = Some st' /\
      cpu_online cpu st' = true /\
      relax_count st' = (relax_count st + S k)%nat /\
      waiting_frame st st'.
Proof.
  induction k as [| k IH]; intros fuel st Hcpu Hoff Hbefore Hcall Hfuel;
    (destruct fuel as [| fuel]; [lia |]);
    cbn [wait_online]; rewrite Hoff;
    destruct (cpu_relax_spec cpu st Hcpu) as (Hcount & Hframe & Hon).
  - destruct fuel as [| fuel]; [lia |]. cbn [wait_online].
    rewrite Nat.add_0_r in Hcall.
    rewrite Hon, Hoff, Hcall, bool_decide_eq_true_2 by reflexivity.
    cbn [orb]. eexists. split; [reflexivity |].
    split; [| split; [| exact Hframe]].
    + rewrite Hon, Hoff, Hcall. now rewrite bool_decide_eq_true_2.
    + rewrite Hcount. lia.
  - destruct (IH fuel (exec cpu_relax st)) as (st' & Hrun & Hon' & Hc' & Hf');
      [exact Hcpu | | | | lia |].
    + rewrite Hon, Hoff. cbn [orb]. apply bool_decide_eq_false_2.
      specialize (Hbefore 0%nat ltac:(lia)).
      now rewrite Nat.add_0_r in Hbefore.
    + intros j Hj. rewrite Hcount.
      destruct Hframe as (_ & _ & _ & _ & _ & _ & ->).
      specialize (Hbefore (S j) ltac:(lia)).
      now rewrite Nat.add_succ_r in Hbefore.
    + rewrite Hcount. destruct Hframe as (_ & _ & _ & _ & _ & _ & ->).
      now rewrite Nat.add_succ_r in Hcall.
    + exists st'. split; [exact Hrun |]. split; [exact Hon' |].
      split; [rewrite Hc', Hcount; lia |].
      eapply waiting_frame_trans; eassumption.
Qed.

(** The state in which [__cpu_up] enters its wait loop after
    [default_cpu_boot]. *)
Definition booted (cpu tidle : Z) (st : state) : state :=
  let hartid := to_int (logical_map cpu st) in
  let st1 := snd (call_cpu_boot BootDefault hartid tidle
                    (published cpu tidle st)) in
  if CONFIG_HOTPLUG_CPU then exec (log (EvSendIpi cpu)) st1 else st1.

Lemma cpu_up_default_boot fuel cpu tidle st :
  cpu_boot (cpu_ops st) = Some BootDefault ->
  __cpu_up fuel cpu tidle st =
    match wait_online fuel cpu (booted cpu tidle st) with
    | Some st2 => Some (0, exec (log (EvPrNoticeOnline cpu)) st2)
    | None => None
    end.
Proof.
  intros Hhook. rewrite cpu_up_unfold. cbv zeta. rewrite Hhook. reflexivity.
Qed.

Lemma booted_spec cpu tidle st :
  let hartid := to_int (logical_map cpu st) in
  let st1 := booted cpu tidle st in
  cpu_online_mask st1 = cpu_online_mask st /\
  callin_tape st1 = callin_tape st /\
  relax_count st1 = relax_count st /\
  thread_info_cpu st1 = <[tidle := cpu]> (thread_info_cpu st) /\
  cpu_up_stack_pointer st1 =
    <[Z.to_nat (u32 hartid) := task_stack_page st tidle + THREAD_SIZE]>
      (cpu_up_stack_pointer st) /\
  cpu_up_task_pointer st1 =
    <[Z.to_nat (u32 hartid) := tidle]> (cpu_up_task_pointer st).
Proof.
  unfold booted, call_cpu_boot, bind, log, modify, exec. cbn [snd fst].
  rewrite default_cpu_boot_run. destruct CONFIG_HOTPLUG_CPU; cbn; auto 10.
Qed.

(** [__cpu_up] has no timeout.  With the default start primitive, if the
    hart is not online and never reaches [smp_callin], the call does not
    return, however long the caller spins. *)
Theorem cpu_up_no_timeout cpu tidle st :
  0 <= cpu ->
  cpu_boot (cpu_ops st) = Some BootDefault ->
  cpu_online cpu st = false ->
  (forall k, callin_tape st (relax_count st + k)%nat <> Some cpu) ->
  forall fuel, __cpu_up fuel cpu tidle st = None.
Proof.
  intros Hcpu Hhook Hoff Hnever fuel.
  rewrite cpu_up_default_boot by exact Hhook.
  destruct (booted_spec cpu tidle st) as (Hon & Htape & Hcount & _).
  rewrite wait_online_none; [reflexivity | exact Hcpu | |].
  - unfold cpu_online in *. now rewrite Hon.
  - intros k. rewrite Htape, Hcount. apply Hnever.
Qed.

(** Bringing a hart up.  With the default start primitive, when the hart
    reaches [smp_callin] during the [k + 1]-st [cpu_relax] and not before,
    [__cpu_up] returns 0 after exactly [k + 1] turns of its loop; by then
    the hart is online, the idle task is bound to the cpu, and the hart's
    boot stack pointer and task pointer are the ones published for it. *)
Theorem cpu_up_returns_on_callin fuel cpu tidle st k :
  0 <= cpu ->
  cpu_boot (cpu_ops st) = Some BootDefault ->
  cpu_online cpu st = false ->
  (forall j, (j < k)%nat ->
     callin_tape st (relax_count st + j)%nat <> Some cpu) ->
  callin_tape st (relax_count st + k)%nat = Some cpu ->
  (S k < fuel)%nat ->
  let hartid := to_int (logical_map cpu st) in
  exists st',
    __cpu_up fuel cpu tidle st = Some (0, st') /\
    cpu_online cpu st' = true /\
    relax_count st' = (relax_count st + S k)%nat /\
    thread_info_cpu st' !! tidle = Some cpu /\
    cpu_up_stack_pointer st' =
      <[Z.to_nat (u32 hartid) := task_stack_page st tidle + THREAD_SIZE]>
        (cpu_up_stack_pointer st) /\
    cpu_up_task_pointer st' =
      <[Z.to_nat (u32 hartid) := tidle]> (cpu_up_task_pointer st) /\
    last (trace st') = Some (EvPrNoticeOnline cpu).
Proof.
  intros Hcpu Hhook Hoff Hbefore Hcall Hfuel hartid.
  rewrite cpu_up_default_boot by exact Hhook.
  destruct (booted_spec cpu tidle st)
    as (Hon & Htape & Hcount & Hinfo & Hstack & Htask).
  destruct (wait_online_some cpu k fuel (booted cpu tidle st))
    as (st2 & Hrun & Hon2 & Hcount2 & Hframe); [exact Hcpu | | | | exact Hfuel |].
  - unfold cpu_online in *. now rewrite Hon.
  - intros j Hj. rewrite Htape, Hcount. now apply Hbefore.
  - now rewrite Htape, Hcount.
  - rewrite Hrun. eexists. split; [reflexivity |].
    destruct Hframe as (_ & _ & Hs & Ht & Hi & _).
    unfold exec, log, modify. cbn [snd].
    split; [exact Hon2 |].
    split; [cbn [relax_count set_trace]; now rewrite Hcount2, Hcount |].
    split; [cbn [thread_info_cpu set_trace]; rewrite Hi, Hinfo;
            apply lookup_insert_eq |].
    split; [cbn [cpu_up_stack_pointer set_trace]; now rewrite Hs |].
    split; [cbn [cpu_up_task_pointer set_trace]; now rewrite Ht |].
    cbn [trace set_trace]. apply last_snoc.
Qed.

(** *** More on taking a hart offline *)

(** With the operations this file installs, [__cpu_disable] cannot fail:
    [default_ops] pairs [default_cpu_disable] with [default_cpu_die], so
    the hook finds the die hook it asks for.  The call returns 0 and takes
    the running cpu, and no other, offline. *)
Theorem cpu_disable_default_ops st :
  CONFIG_HOTPLUG_CPU = true ->
  cpu_ops st = default_ops ->
  let cpu := processor_id st in
  let st' := snd (__cpu_disable st) in
  can_hotplug_cpu st = 1 /\
  fst (__cpu_disable st) = 0 /\
  cpu_online cpu st' = false /\
  (forall c, c <> cpu -> cpu_online c st' = cpu_online c st) /\
  trace st' = trace st ++ [EvCpuDisable cpu; EvIrqMigrateAllOffThisCpu].
Proof.
  intros Hcfg Hops cpu st'. subst st'.
  assert (Hdis : cpu_disable (cpu_ops st) = Some DisableDefault)
    by (rewrite Hops; unfold default_ops; now rewrite Hcfg).
  assert (Hdie : cpu_die (cpu_ops st) = Some DieDefault)
    by (rewrite Hops; unfold default_ops; now rewrite Hcfg).
  rewrite (cpu_disable_with_die st DieDefault Hdis Hdie). cbn [fst snd].
  split; [unfold can_hotplug_cpu; now rewrite Hdie |].
  split; [reflexivity |].
  split; [apply cpu_online_clear |].
  split.
  - intros c Hc. unfold cpu_online, taken_offline. cbn.
    unfold cpumask_test_cpu, cpumask_clear_cpu.
    apply Z.clearbit_neq. fold cpu. congruence.
  - cbn. now rewrite <- app_assoc.
Qed.

(** *** More on parking *)

Lemma land_small a b n :
  0 <= n -> 0 <= a < 2 ^ n -> 0 <= Z.land a b < 2 ^ n.
Proof.
  intros Hn Ha.
  assert (Hmod : Z.land a b = Z.land a b mod 2 ^ n).
  { rewrite <- Z.land_ones by exact Hn.
    rewrite <- Z.land_assoc, (Z.land_comm b), Z.land_assoc.
    rewrite Z.land_ones by exact Hn. now rewrite Z.mod_small. }
  rewrite Hmod. apply Z.mod_pos_bound. lia.
Qed.

(** Timer and external interrupts do not wake a dead hart.  After
    [cpu_play_dead] has masked [SIE_STIE] and [SIE_SEIE], a hart parked by
    the default die hook stays parked as long as nothing but timer and
    external interrupts become pending and [scause] does not read as the
    software-interrupt cause. *)
Theorem cpu_play_dead_sleeps_through fuel st :
  cpu_die (cpu_ops st) = Some DieDefault ->
  0 <= csr_sie st < 2 ^ 31 ->
  (forall k, (k < fuel)%nat ->
     let sip := fst (wfi_tape st (wfi_count st + k)) in
     let scause := snd (wfi_tape st (wfi_count st + k)) in
     0 <= sip < 2 ^ 31 /\
     Z.land sip (Z.lnot (Z.lor SIE_STIE SIE_SEIE)) = 0 /\
     to_int scause <> INTERRUPT_CAUSE_SOFTWARE) ->
  cpu_play_dead fuel st = None.
Proof.
  intros Hhook Hsie Hquiet. rewrite cpu_play_dead_unfold, Hhook.
  unfold call_cpu_die.
  match goal with
  | |- default_cpu_die _ _ ?s = None =>
      pose proof (default_cpu_die_spec fuel (processor_id st) s) as H;
      destruct (default_cpu_die fuel (processor_id st) s) as [st' |];
      [| reflexivity]
  end.
  destruct H as (k & Hk & Hwake & _). exfalso.
  destruct (Hquiet k Hk) as (Hsip & Honly & Hcause).
  unfold wakes in Hwake.
  cbn [exec log modify snd wfi_tape wfi_count csr_sie set_trace dying
         set_csrs] in Hwake.
  destruct Hwake as [Hpending | Hsoft]; [| contradiction].
  apply Hpending.
  rewrite !to_int_small.
  - rewrite Z.land_assoc, (Z.land_comm _ (csr_sie st)), <- Z.land_assoc.
    rewrite Honly. apply Z.land_0_r.
  - pose proof (land_small (csr_sie st) (Z.lnot (Z.lor SIE_STIE SIE_SEIE)) 31).
    lia.
  - lia.
Qed.

(** A software interrupt restarts a dead hart.  When, at some wait, an
    interrupt other than the timer and external ones is pending and
    enabled, a hart parked through [cpu_play_dead] with the default die
    hook leaves for [boot_sec_cpu]; it does so with [SIE_STIE] and
    [SIE_SEIE] still cleared, the other enable bits as they were, and the
    online mask untouched. *)
Theorem cpu_play_dead_restarts fuel st k :
  cpu_die (cpu_ops st) = Some DieDefault ->
  0 <= csr_sie st < 2 ^ 31 ->
  0 <= fst (wfi_tape st (wfi_count st + k)) < 2 ^ 31 ->
  Z.land (fst (wfi_tape st (wfi_count st + k)))
    (Z.land (csr_sie st) (Z.lnot (Z.lor SIE_STIE SIE_SEIE))) <> 0 ->
  (k < fuel)%nat ->
  exists st',
    cpu_play_dead fuel st = Some st' /\
    last (trace st') = Some EvBootSecCpu /\
    csr_sie st' = Z.land (csr_sie st) (Z.lnot (Z.lor SIE_STIE SIE_SEIE)) /\
    Z.land (csr_sie st') SIE_STIE = 0 /\
    Z.land (csr_sie st') SIE_SEIE = 0 /\
    cpu_online_mask st' = cpu_online_mask st.
Proof.
  intros Hhook Hsie Hsip Hpending Hfuel.
  rewrite cpu_play_dead_unfold, Hhook. unfold call_cpu_die.
  rewrite default_cpu_die_unfold.
  match goal with
  | |- context [park fuel ?s] =>
      pose proof (park_spec fuel s) as H; destruct (park fuel s) as [st' |]
  end.
  - destruct H as (_ & _ & _ & _ & _ & Hsie' & _ & Hon).
    eexists. split; [reflexivity |].
    cbn [trace set_trace csr_sie cpu_online_mask].
    split; [apply last_snoc |].
    split; [exact Hsie' |].
    rewrite Hsie'. cbn [exec log modify snd csr_sie set_csrs set_trace].
    split; [apply dying_masks |]. split; [apply dying_masks | exact Hon].
  - exfalso. apply (H k Hfuel). left.
    cbn [exec log modify snd wfi_tape wfi_count csr_sie set_trace dying
           set_csrs].
    rewrite !to_int_small; [exact Hpending | | lia].
    pose proof (land_small (csr_sie st) (Z.lnot (Z.lor SIE_STIE SIE_SEIE)) 31).
    lia.
Qed.

(** *** From discovery to boot *)

Lemma setup_smp_run harts st st' :
  setup_smp harts st = Some st' ->
  st' = assign 1 (secondary_harts (logical_map 0 st) harts)
          (set_cpu_ops default_ops st).
Proof.
  unfold setup_smp. rewrite setup_smp_nodes_run by lia.
  change (logical_map 0 (set_cpu_ops default_ops st)) with (logical_map 0 st).
  destruct (decide _) as [_ |]; [| discriminate].
  destruct (_ || _); [| discriminate]. congruence.
Qed.

(** The loop of [setup_smp] leaves the boot arrays alone. *)
Lemma assign_keeps_pointers secs :
  forall cpuid st,
    cpu_up_stack_pointer (assign cpuid secs st) = cpu_up_stack_pointer st /\
    cpu_up_task_pointer (assign cpuid secs st) = cpu_up_task_pointer st /\
    task_stack_page (assign cpuid secs st) = task_stack_page st.
Proof.
  induction secs as [| hart rest IH]; intros cpuid st; cbn [assign];
    [repeat split |].
  match goal with
  | |- context [assign (cpuid + 1) rest ?s] =>
      destruct (IH (cpuid + 1) s) as (-> & -> & ->)
  end.
  repeat split.
Qed.

Lemma cpu_relax_trace st :
  exists evs, trace (exec cpu_relax st) = trace st ++ evs.
Proof.
  unfold cpu_relax, exec, bind, log, modify. cbn [snd].
  cbn [callin_tape relax_count set_trace].
  destruct (callin_tape st (relax_count st)) as [hart |].
  - fold (exec smp_callin
            (set_processor_id hart
               (set_relax_count (S (relax_count st))
                  (set_trace (trace st ++ [EvCpuRelax]) st)))).
    rewrite smp_callin_run.
    cbn [trace set_trace set_processor_id set_relax_count set_cpu_online_mask
           set_cpu_masks set_init_mm_count].
    rewrite <- app_assoc. eauto.
  - cbn [trace set_trace set_relax_count]. eauto.
Qed.

Lemma wait_online_frame cpu fuel :
  forall st st',
    0 <= cpu ->
    wait_online fuel cpu st = Some st' ->
    waiting_frame st st' /\ cpu_online cpu st' = true /\
    exists evs, trace st' = trace st ++ evs.
Proof.
  induction fuel as [| fuel IH]; intros st st' Hcpu Hrun; [discriminate |].
  cbn [wait_online] in Hrun.
  destruct (cpu_online cpu st) eqn:Hon.
  - injection Hrun as <-. split; [repeat split |].
    split; [exact Hon |]. exists []. now rewrite app_nil_r.
  - destruct (cpu_relax_spec cpu st Hcpu) as (_ & Hframe & _).
    destruct (cpu_relax_trace st) as [evs Hevs].
    apply IH in Hrun as (Hframe' & Hon' & evs' & Hevs'); [| exact Hcpu].
    split; [eapply waiting_frame_trans; eassumption |].
    split; [exact Hon' |].
    exists (evs ++ evs'). now rewrite Hevs', Hevs, app_assoc.
Qed.

Lemma booted_trace cpu tidle st :
  trace (booted cpu tidle st) =
  trace st ++ [EvSmpMb; EvCpuBoot (to_int (logical_map cpu st)) tidle] ++
  (if CONFIG_HOTPLUG_CPU then [EvSendIpi cpu] else []).
Proof.
  unfold booted, call_cpu_boot, bind, log, modify, exec. cbn [snd fst].
  rewrite default_cpu_boot_run.
  destruct CONFIG_HOTPLUG_CPU;
    cbn [snd trace set_trace set_cpu_up_pointers published
           set_thread_info_cpu];
    rewrite <- ?app_assoc; reflexivity.
Qed.

(** The logical id [setup_smp] gave a hart leads [__cpu_up] back to that
    hart.  Whenever [__cpu_up] returns for the [i + 1]-st logical id
    handed out, it has called the start primitive with the hart id of the
    [i + 1]-st secondary hart of the device tree, published the idle
    task's stack top and task pointer in that hart's slots, and seen the
    cpu online. *)
Theorem cpu_up_after_setup_smp harts st st1 i h fuel tidle r st' :
  setup_smp harts st = Some st1 ->
  secondary_harts (logical_map 0 st) harts !! i = Some h ->
  (S i < length (cpu_logical_map st))%nat ->
  (Z.to_nat h < length (cpu_up_stack_pointer st))%nat ->
  (Z.to_nat h < length (cpu_up_task_pointer st))%nat ->
  __cpu_up fuel (Z.of_nat (S i)) tidle st1 = Some (r, st') ->
  r = 0 /\
  EvCpuBoot h tidle ∈ trace st' /\
  cpu_up_stack_pointer st' !! Z.to_nat h =
    Some (task_stack_page st tidle + THREAD_SIZE) /\
  cpu_up_task_pointer st' !! Z.to_nat h = Some tidle /\
  cpu_online (Z.of_nat (S i)) st' = true.
Proof.
  intros Hsetup Hi Hroom Hstack Htask Hrun.
  apply setup_smp_run in Hsetup.
  set (secs := secondary_harts (logical_map 0 st) harts) in *.
  assert (Hh : 0 <= h < 2 ^ 31).
  { apply list_elem_of_lookup_2 in Hi. unfold secs, secondary_harts in Hi.
    apply list_elem_of_filter in Hi as [[Hnn _] Hin].
    apply list_elem_of_fmap in Hin as (x & -> & _).
    unfold to_int in *.
    pose proof (Z.mod_pos_bound (x + 2 ^ 31) (2 ^ 32)). lia. }
  destruct (assign_spec secs 1 (set_cpu_ops default_ops st) ltac:(lia))
    as (_ & _ & Hids & _ & _ & _ & Hops & _).
  destruct (assign_keeps_pointers secs 1 (set_cpu_ops default_ops st))
    as (Hsp & Htp & Hpage).
  rewrite <- Hsetup in Hids, Hops, Hsp, Htp, Hpage.
  cbn [cpu_up_stack_pointer cpu_up_task_pointer task_stack_page cpu_ops
         cpu_logical_map set_cpu_ops] in Hids, Hops, Hsp, Htp, Hpage.
  assert (Hmap : logical_map (Z.of_nat (S i)) st1 = h).
  { unfold logical_map. rewrite Nat2Z.id.
    change (S i) with (Z.to_nat 1 + i)%nat.
    rewrite (Hids i h Hi); [reflexivity |].
    change (Z.to_nat 1) with 1%nat. lia. }
  assert (Hhook : cpu_boot (cpu_ops st1) = Some BootDefault)
    by now rewrite Hops.
  rewrite cpu_up_default_boot in Hrun by exact Hhook.
  destruct (wait_online fuel _ _) as [st2 |] eqn:Hwait; [| discriminate].
  injection Hrun as <- <-.
  apply wait_online_frame in Hwait
    as ((_ & _ & Hs2 & Ht2 & _) & Hon & evs & Hevs); [| lia].
  destruct (booted_spec (Z.of_nat (S i)) tidle st1)
    as (_ & _ & _ & _ & Hstack1 & Htask1).
  rewrite Hmap in Hstack1, Htask1.
  rewrite to_int_small, u32_small in Hstack1, Htask1 by lia.
  split; [reflexivity |].
  unfold exec, log, modify.
  cbn [snd trace cpu_up_stack_pointer cpu_up_task_pointer set_trace].
  split.
  { rewrite Hevs, booted_trace, Hmap, to_int_small by lia.
    apply elem_of_app. left. apply elem_of_app. left.
    apply elem_of_app. right. apply elem_of_app. left.
    apply list_elem_of_further, list_elem_of_here. }
  split.
  { rewrite Hs2, Hstack1, Hsp, Hpage.
    now apply list_lookup_insert_eq. }
  split.
  { rewrite Ht2, Htask1, Htp. now apply list_lookup_insert_eq. }
  exact Hon.
Qed.

(** *** What ends the park *)

Lemma to_int_testbit x i :
  0 <= i < 32 -> Z.testbit (to_int x) i = Z.testbit x i.
Proof.
  intros Hi. rewrite <- (Z.mod_pow2_bits_low (to_int x) 32 i) by lia.
  rewrite <- (Z.mod_pow2_bits_low x 32 i) by lia. f_equal.
  unfold to_int. rewrite Zminus_mod_idemp_l. f_equal. lia.
Qed.

Lemma small_testbit x i :
  0 <= x < 2 ^ 31 -> 31 <= i -> Z.testbit x i = false.
Proof.
  intros Hx Hi. rewrite <- (Z.mod_small x (2 ^ 31)) by lia.
  apply Z.mod_pow2_bits_high. lia.
Qed.

(** A software-directed restart is observed after the wait numbered [k]:
    the software interrupt is pending, or [scause] holds the
    software-interrupt cause. *)
Definition software_restart (st : state) (k : nat) : Prop :=
  Z.land (fst (wfi_tape st k)) SIE_SSIE <> 0 \/
  to_int (snd (wfi_tape st k)) = INTERRUPT_CAUSE_SOFTWARE.

(** [sie] holds nothing but the three supervisor interrupt enables. *)
Definition supervisor_enables_only (st : state) : Prop :=
  Z.land (csr_sie st)
    (Z.lnot (Z.lor SIE_SSIE (Z.lor SIE_STIE SIE_SEIE))) = 0.

Section Masked.

Variable st : state.
Hypothesis Hconst : 0 <= Z.lor SIE_SSIE (Z.lor SIE_STIE SIE_SEIE) < 2 ^ 31.
Hypothesis Honly : supervisor_enables_only st.

Lemma sie_small : 0 <= csr_sie st < 2 ^ 31.
Proof.
  assert (Heq : csr_sie st =
                Z.land (Z.lor SIE_SSIE (Z.lor SIE_STIE SIE_SEIE)) (csr_sie st)).
  { apply Z.bits_inj'. intros i Hi.
    pose proof (f_equal (fun z => Z.testbit z i) Honly) as Hbit.
    cbv beta in Hbit.
    rewrite Z.land_spec, Z.lnot_spec, Z.bits_0 in Hbit by exact Hi.
    rewrite Z.land_spec.
    destruct (Z.testbit (csr_sie st) i),
      (Z.testbit (Z.lor SIE_SSIE (Z.lor SIE_STIE SIE_SEIE)) i);
      simpl in *; congruence. }
  rewrite Heq. now apply land_small.
Qed.

Lemma dying_sie_small : 0 <= csr_sie (dying st) < 2 ^ 31.
Proof.
  cbn [dying csr_sie set_csrs]. apply land_small; [lia | apply sie_small].
Qed.

(** With the timer and external enables cleared, an interrupt that is
    pending and enabled is the software interrupt. *)
Lemma dying_wakes_software k :
  wakes (dying st) k -> software_restart st k.
Proof.
  intros [Hpending | Hcause]; [| now right]. left. intros Hzero.
  apply Hpending.
  change (wfi_tape (dying st) k) with (wfi_tape st k).
  rewrite (to_int_small (csr_sie (dying st)))
    by (pose proof dying_sie_small; lia).
  apply Z.bits_inj'. intros i Hi. rewrite Z.bits_0, Z.land_spec.
  destruct (Z.lt_ge_cases i 31) as [Hlow | Hhigh];
    [| rewrite (small_testbit (csr_sie (dying st)))
         by (apply dying_sie_small || lia); apply andb_false_r].
  rewrite to_int_testbit by lia.
  pose proof (f_equal (fun z => Z.testbit z i) Honly) as Hbit.
  pose proof (f_equal (fun z => Z.testbit z i) Hzero) as Hsoft.
  cbv beta in Hbit, Hsoft. unfold supervisor_enables_only in Hbit.
  rewrite Z.land_spec, Z.lnot_spec, !Z.lor_spec, Z.bits_0 in Hbit by exact Hi.
  rewrite Z.land_spec, Z.bits_0 in Hsoft.
  cbn [dying csr_sie set_csrs].
  rewrite Z.land_spec, Z.lnot_spec, Z.lor_spec by exact Hi.
  destruct (Z.testbit (fst (wfi_tape st k)) i), (Z.testbit (csr_sie st) i),
    (Z.testbit SIE_SSIE i), (Z.testbit SIE_STIE i), (Z.testbit SIE_SEIE i);
    simpl in *; congruence.
Qed.

(** With the software interrupt enabled, its being pending is enough. *)
Lemma software_wakes_dying k :
  Z.land SIE_SSIE (Z.lor SIE_STIE SIE_SEIE) = 0 ->
  Z.land (csr_sie st) SIE_SSIE = SIE_SSIE ->
  software_restart st k -> wakes (dying st) k.
Proof.
  intros Hdisj Hen [Hsoft | Hcause]; [| now right]. left. intros Hzero.
  apply Hsoft.
  change (wfi_tape (dying st) k) with (wfi_tape st k) in Hzero.
  rewrite (to_int_small (csr_sie (dying st))) in Hzero
    by (pose proof dying_sie_small; lia).
  apply Z.bits_inj'. intros i Hi. rewrite Z.bits_0, Z.land_spec.
  destruct (Z.testbit SIE_SSIE i) eqn:Hssie; [| apply andb_false_r].
  rewrite andb_true_r.
  pose proof (f_equal (fun z => Z.testbit z i) Hdisj) as Hd.
  pose proof (f_equal (fun z => Z.testbit z i) Hen) as He.
  pose proof (f_equal (fun z => Z.testbit z i) Hzero) as Hz.
  cbv beta in Hd, He, Hz.
  rewrite Z.land_spec, Z.lor_spec, Z.bits_0, Hssie in Hd.
  rewrite Z.land_spec, Hssie, andb_true_r in He.
  assert (Hlow : i < 31).
  { destruct (Z.lt_ge_cases i 31) as [Hlow | Hhigh]; [exact Hlow |].
    rewrite (small_testbit (csr_sie st)) in He by (apply sie_small || lia).
    discriminate. }
  rewrite Z.land_spec, Z.bits_0, to_int_testbit in Hz by lia.
  cbn [dying csr_sie set_csrs] in Hz.
  rewrite Z.land_spec, Z.lnot_spec, Z.lor_spec in Hz by exact Hi.
  rewrite He in Hz.
  destruct (Z.testbit (fst (wfi_tape st k)) i), (Z.testbit SIE_STIE i),
    (Z.testbit SIE_SEIE i); simpl in *; congruence.
Qed.

End Masked.

(** C7.  A hart that parks through [cpu_play_dead] with the default die
    hook, [sie] holding only the supervisor software, timer and external
    enables, leaves the wait loop only when a software-directed restart is
    observed: if the call goes on to [boot_sec_cpu], it does so after a
    wait at which the software interrupt was pending or [scause] held the
    software-interrupt cause, and as long as no wait shows either the hart
    stays parked.  With the software interrupt enabled, such a wait does
    end the park. *)
Theorem cpu_play_dead_leaves_on_software_restart fuel st :
  cpu_die (cpu_ops st) = Some DieDefault ->
  0 <= Z.lor SIE_SSIE (Z.lor SIE_STIE SIE_SEIE) < 2 ^ 31 ->
  supervisor_enables_only st ->
  (forall st', cpu_play_dead fuel st = Some st' ->
     exists k, (k < fuel)%nat /\
       software_restart st (wfi_count st + k) /\
       trace st' =
         trace st ++
         [EvIdleTaskExit; EvCpuReportDeath; EvCpuDie (processor_id st)] ++
         repeat EvWaitForInterrupt (S k) ++ [EvBootSecCpu]) /\
  ((forall k, (k < fuel)%nat -> ~ software_restart st (wfi_count st + k)) ->
   cpu_play_dead fuel st = None) /\
  (Z.land SIE_SSIE (Z.lor SIE_STIE SIE_SEIE) = 0 ->
   Z.land (csr_sie st) SIE_SSIE = SIE_SSIE ->
   forall k, (k < fuel)%nat -> software_restart st (wfi_count st + k) ->
     exists st', cpu_play_dead fuel st = Some st' /\
                 last (trace st') = Some EvBootSecCpu).
Proof.
  intros Hhook Hconst Honly.
  rewrite cpu_play_dead_unfold, Hhook. unfold call_cpu_die.
  set (s := exec (log (EvCpuDie (processor_id st))) (dying st)).
  assert (Hw : forall k, wakes s k <-> wakes (dying st) k) by reflexivity.
  assert (Hcount : wfi_count s = wfi_count st) by reflexivity.
  assert (Htrace : trace s =
            trace st ++
            [EvIdleTaskExit; EvCpuReportDeath; EvCpuDie (processor_id st)]).
  { unfold s, exec, log, modify. cbn [snd trace set_trace dying set_csrs].
    now rewrite <- app_assoc. }
  pose proof (default_cpu_die_spec fuel (processor_id st) s) as Hspec.
  destruct (default_cpu_die fuel (processor_id st) s) as [st1 |].
  - destruct Hspec as (k & Hk & Hwake & _ & Htr).
    rewrite Hcount in Hwake.
    apply Hw, (dying_wakes_software st Hconst Honly) in Hwake.
    split; [| split].
    + intros st' Heq. injection Heq as <-. exists k.
      split; [exact Hk |]. split; [exact Hwake |].
      rewrite Htr, Htrace. now rewrite <- app_assoc.
    + intros Hnever. now destruct (Hnever k Hk).
    + intros _ _ _ _ _. exists st1. split; [reflexivity |].
      rewrite Htr, app_assoc. apply last_snoc.
  - split; [| split].
    + intros st' Heq. discriminate.
    + reflexivity.
    + intros Hdisj Hen k Hk Hsoft. exfalso. apply (Hspec k Hk).
      rewrite Hcount. apply Hw.
      now apply (software_wakes_dying st Hconst Honly).
Qed.

End Kernel.

(** *** The file on a two-hart board *)

(** Platform hooks for the examples: a start primitive that reports [-EIO],
    a disable hook that agrees, a die hook that returns. *)
Definition failing_boot (id : nat) (hartid tidle : Z) : StateMonad.M state Z :=
  ret (- Board.EIO).
Definition willing_disable (id : nat) (cpu : Z) : StateMonad.M state Z := ret 0.
Definition returning_die (id : nat) (cpu : Z) (st : state) : option state :=
  Some st.

(** The kernel as configured for the examples, with hotplug. *)
Definition cpu_up := __cpu_up Board.THREAD_SIZE true failing_boot.
Definition cpu_disable_self := __cpu_disable Board.EOPNOTSUPP willing_disable.
Definition play_dead :=
  cpu_play_dead Board.SIE_STIE Board.SIE_SEIE Board.INTERRUPT_CAUSE_SOFTWARE
    returning_die.

(** Hart 0 alone, before [setup_smp]. *)
Definition demo_early : state :=
  mkState (mkOps None None None) 1 1 1 (replicate 8 0)
    (replicate 8 0) (replicate 8 0) (fun task => task + 0x2000) ∅ 1 0
    0 0 0 (fun _ => None) 0 (fun _ => (0, 0)) 0 [].

(** A device tree with a node for the running hart, two more harts, and a
    node [riscv_of_processor_hart] rejects. *)
Example demo_setup_smp :
  (fun st => (cpu_possible_mask st, cpu_present_mask st, cpu_online_mask st,
              cpu_logical_map st, cpu_ops st))
    <$> setup_smp true [0; 1; -1; 2] demo_early =
  Some (7, 7, 1, [0; 1; 2; 0; 0; 0; 0; 0], default_ops true).
Proof. reflexivity. Qed.

Example demo_setup_smp_no_boot_cpu : setup_smp true [1; 2] demo_early = None.
Proof. reflexivity. Qed.

(** Hart 0 has booted and is about to bring up hart 1, which will reach
    [smp_callin] during the third [cpu_relax]. *)
Definition demo_boot : state :=
  mkState (default_ops true) 3 3 1 [0; 1; 0; 0; 0; 0; 0; 0]
    (replicate 8 0) (replicate 8 0) (fun task => task + 0x2000) ∅ 1 0
    (Z.lor Board.SIE_SSIE (Z.lor Board.SIE_STIE Board.SIE_SEIE)) 0 0
    (fun k => if (k =? 2)%nat then Some 1 else None) 0
    (fun _ => (0, 0)) 0 [].

Example demo_cpu_up :
  (fun r => (fst r, cpu_online 1 (snd r), trace (snd r)))
    <$> cpu_up 10 1 0x80200000 demo_boot =
  Some (0, true,
        [EvSmpMb; EvCpuBoot 1 0x80200000; EvSendIpi 1;
         EvCpuRelax; EvCpuRelax; EvCpuRelax;
         EvTrapInit; EvNotifyCpuStarting 1; EvLocalFlushTlbAll;
         EvLocalIrqEnable; EvPreemptDisable; EvCpuStartupEntry;
         EvPrNoticeOnline 1]).
Proof. reflexivity. Qed.

Example demo_cpu_up_hangs : cpu_up 3 1 0x80200000 demo_boot = None.
Proof. reflexivity. Qed.

(** The same board with a platform start primitive installed. *)
Definition demo_platform_boot : state :=
  mkState (mkOps (Some (BootPlatform 0)) (Some DisableDefault) (Some DieDefault))
    3 3 1 [0; 1; 0; 0; 0; 0; 0; 0]
    (replicate 8 0) (replicate 8 0) (fun task => task + 0x2000) ∅ 1 0
    (Z.lor Board.SIE_SSIE (Z.lor Board.SIE_STIE Board.SIE_SEIE)) 0 0
    (fun _ => None) 0 (fun _ => (0, 0)) 0 [].

(** C2 fails on the code.  The start primitive reports [-EIO] for hart 1;
    [__cpu_up] logs that the hart failed to boot and returns 0, the value a
    successful boot returns, with hart 1 not online. *)
Lemma cpu_up_hides_boot_failure :
  exists st',
    cpu_up 10 1 0x80200000 demo_platform_boot = Some (0, st') /\
    cpu_online 1 st' = false /\
    trace st' = [EvSmpMb; EvCpuBoot 1 0x80200000; EvPrErrBoot 1 1] /\
    fst <$> cpu_up 10 1 0x80200000 demo_boot = Some 0.
Proof. eexists. repeat split. Qed.

(** Both harts online; hart 1 was booted on the idle task at [0x80200000]. *)
Definition demo_online : state :=
  mkState (default_ops true) 3 3 3 [0; 1; 0; 0; 0; 0; 0; 0]
    [0; 0x80204000; 0; 0; 0; 0; 0; 0] [0; 0x80200000; 0; 0; 0; 0; 0; 0]
    (fun task => task + 0x2000) (<[0x80200000 := 1]> ∅) 2 0
    (Z.lor Board.SIE_SSIE (Z.lor Board.SIE_STIE Board.SIE_SEIE)) 0 0
    (fun _ => None) 0 (fun _ => (0, 0)) 0 [].

(** C3 as the spec words it fails here: hart 1 is online, and [__cpu_up]
    on it calls the start primitive again and replaces the published stack
    pointer and task handle. *)
Lemma cpu_up_online_republishes :
  cpu_online 1 demo_online = true /\
  exists st',
    cpu_up 10 1 0x80300000 demo_online = Some (0, st') /\
    EvCpuBoot 1 0x80300000 ∈ trace st' /\
    cpu_up_stack_pointer demo_online !! 1%nat = Some 0x80204000 /\
    cpu_up_stack_pointer st' !! 1%nat = Some 0x80306000 /\
    cpu_up_task_pointer demo_online !! 1%nat = Some 0x80200000 /\
    cpu_up_task_pointer st' !! 1%nat = Some 0x80300000.
Proof.
  split; [reflexivity |]. eexists. split; [reflexivity |].
  split; [| repeat split].
  vm_compute. apply list_elem_of_In. simpl. tauto.
Qed.

Lemma cpu_up_online_hart_witness :
  cpu_online 1 demo_online = true /\
  cpu_boot (cpu_ops demo_online) = Some BootDefault /\
  0 <= to_int (logical_map 1 demo_online) /\
  (Z.to_nat (to_int (logical_map 1 demo_online))
     < length (cpu_up_stack_pointer demo_online))%nat /\
  (Z.to_nat (to_int (logical_map 1 demo_online))
     < length (cpu_up_task_pointer demo_online))%nat /\
  (0 < 1)%nat /\
  exists st',
    cpu_up 1 1 0x80300000 demo_online = Some (0, st') /\
    relax_count st' = relax_count demo_online.
Proof.
  assert (H1 : cpu_online 1 demo_online = true) by reflexivity.
  assert (H2 : cpu_boot (cpu_ops demo_online) = Some BootDefault)
    by reflexivity.
  assert (H3 : 0 <= to_int (logical_map 1 demo_online))
    by (vm_compute; congruence).
  assert (H4 : (Z.to_nat (to_int (logical_map 1 demo_online))
                  < length (cpu_up_stack_pointer demo_online))%nat)
    by (vm_compute; lia).
  assert (H5 : (Z.to_nat (to_int (logical_map 1 demo_online))
                  < length (cpu_up_task_pointer demo_online))%nat)
    by (vm_compute; lia).
  assert (H6 : (0 < 1)%nat) by lia.
  destruct (cpu_up_online_hart Board.THREAD_SIZE true failing_boot
              1 1 0x80300000 demo_online H1 H2 H3 H4 H5 H6)
    as (st' & Hrun & _ & _ & _ & _ & Hrelax).
  repeat (split; [assumption |]).
  exists st'. split; assumption.
Defined.

(** A platform whose [cpu_ops] has no disable hook. *)
Definition demo_no_disable : state :=
  mkState (mkOps (Some BootDefault) None (Some DieDefault))
    3 3 3 [0; 1; 0; 0; 0; 0; 0; 0]
    (replicate 8 0) (replicate 8 0) (fun task => task + 0x2000) ∅ 2 1
    (Z.lor Board.SIE_SSIE (Z.lor Board.SIE_STIE Board.SIE_SEIE)) 0 0
    (fun _ => None) 0 (fun _ => (0, 0)) 0 [].

(** C8 as the spec words it fails here: with no disable hook
    [__cpu_disable], run on hart 1, returns 0, marks the hart offline and
    asks for its interrupts to be moved. *)
Lemma cpu_disable_without_hook_succeeds :
  cpu_disable (cpu_ops demo_no_disable) = None /\
  cpu_online 1 demo_no_disable = true /\
  fst (cpu_disable_self demo_no_disable) = 0 /\
  cpu_online 1 (snd (cpu_disable_self demo_no_disable)) = false /\
  trace (snd (cpu_disable_self demo_no_disable)) = [EvIrqMigrateAllOffThisCpu].
Proof. repeat split. Qed.

(** A platform with the default disable hook and no die hook. *)
Definition demo_no_die : state :=
  mkState (mkOps (Some BootDefault) (Some DisableDefault) None)
    3 3 3 [0; 1; 0; 0; 0; 0; 0; 0]
    (replicate 8 0) (replicate 8 0) (fun task => task + 0x2000) ∅ 2 1
    (Z.lor Board.SIE_SSIE (Z.lor Board.SIE_STIE Board.SIE_SEIE)) 0 0
    (fun _ => None) 0 (fun _ => (0, 0)) 0 [].

Lemma cpu_disable_outcomes_witness :
  Board.EOPNOTSUPP <> 0 /\
  (cpu_disable (cpu_ops demo_no_die) = None \/
   cpu_disable (cpu_ops demo_no_die) = Some DisableDefault) /\
  cpu_die (cpu_ops demo_no_die) = None /\
  fst (cpu_disable_self demo_no_die) = - Board.EOPNOTSUPP /\
  cpu_online 1 (snd (cpu_disable_self demo_no_die)) = true.
Proof.
  assert (H1 : Board.EOPNOTSUPP <> 0) by (vm_compute; congruence).
  assert (H2 : cpu_disable (cpu_ops demo_no_die) = None \/
               cpu_disable (cpu_ops demo_no_die) = Some DisableDefault)
    by (right; reflexivity).
  assert (H3 : cpu_die (cpu_ops demo_no_die) = None) by reflexivity.
  destruct (cpu_disable_outcomes Board.EOPNOTSUPP willing_disable
              demo_no_die H1 H2) as (Hunsupported & _).
  destruct (Hunsupported eq_refl H3) as (Hr & _ & Honline).
  split; [exact H1 | split; [exact H2 | split; [exact H3 |]]].
  split; [exact Hr | exact Honline].
Defined.

(** Hart 1 on its way out; the next wait returns with a software interrupt
    pending and [scause] still 0. *)
Definition demo_dying : state :=
  mkState (default_ops true) 3 3 1 [0; 1; 0; 0; 0; 0; 0; 0]
    (replicate 8 0) (replicate 8 0) (fun task => task + 0x2000) ∅ 2 1
    (Z.lor Board.SIE_SSIE (Z.lor Board.SIE_STIE Board.SIE_SEIE)) 0 0
    (fun _ => None) 0 (fun _ => (Board.SIE_SSIE, 0)) 0 [].

(** Hart 1 on its way out, with the software and timer enables set; every
    wait returns with the timer interrupt pending and [scause] still 0. *)
Definition demo_timer_pending : state :=
  mkState (default_ops true) 3 3 1 [0; 1; 0; 0; 0; 0; 0; 0]
    (replicate 8 0) (replicate 8 0) (fun task => task + 0x2000) ∅ 2 1
    (Z.lor Board.SIE_SSIE Board.SIE_STIE) 0 0
    (fun _ => None) 0 (fun _ => (Board.SIE_STIE, 0)) 0 [].

(** The cpu nodes of the examples: the running hart, hart 1, a node
    [riscv_of_processor_hart] rejects, hart 2. *)
Definition demo_tree : list Z := [0; 1; -1; 2].

Lemma setup_smp_assigns_ids_witness :
  let st' := assign 1 [1; 2] (set_cpu_ops (default_ops true) demo_early) in
  setup_smp true demo_tree demo_early = Some st' /\
  (length (secondary_harts (logical_map 0 demo_early) demo_tree)
     < length (cpu_logical_map demo_early))%nat /\
  cpu_logical_map st' !! 0%nat = cpu_logical_map demo_early !! 0%nat /\
  cpu_online_mask st' = cpu_online_mask demo_early /\
  cpu_ops st' = default_ops true.
Proof.
  intros st'.
  assert (H1 : setup_smp true demo_tree demo_early = Some st')
    by reflexivity.
  assert (H2 : (length (secondary_harts (logical_map 0 demo_early)
                          demo_tree)
                  < length (cpu_logical_map demo_early))%nat)
    by (vm_compute; lia).
  destruct (setup_smp_assigns_ids true demo_tree demo_early st' H1 H2)
    as (_ & Hzero & _ & _ & Hon & Hops & _).
  split; [exact H1 | split; [exact H2 |]].
  split; [exact Hzero | split; [exact Hon | exact Hops]].
Defined.

Lemma cpu_up_no_timeout_witness :
  0 <= 2 /\
  cpu_boot (cpu_ops demo_boot) = Some BootDefault /\
  cpu_online 2 demo_boot = false /\
  (forall k, callin_tape demo_boot (relax_count demo_boot + k)%nat <> Some 2) /\
  forall fuel, cpu_up fuel 2 0x80200000 demo_boot = None.
Proof.
  assert (H1 : 0 <= 2) by lia.
  assert (H2 : cpu_boot (cpu_ops demo_boot) = Some BootDefault) by reflexivity.
  assert (H3 : cpu_online 2 demo_boot = false) by reflexivity.
  assert (H4 : forall k,
            callin_tape demo_boot (relax_count demo_boot + k)%nat <> Some 2).
  { intros k. unfold demo_boot. cbn [callin_tape relax_count].
    destruct (_ =? _)%nat; congruence. }
  split; [exact H1 | split; [exact H2 | split; [exact H3 |]]].
  split; [exact H4 |].
  exact (cpu_up_no_timeout Board.THREAD_SIZE true failing_boot 2 0x80200000
           demo_boot H1 H2 H3 H4).
Defined.

Lemma cpu_up_returns_on_callin_witness :
  0 <= 1 /\
  cpu_boot (cpu_ops demo_boot) = Some BootDefault /\
  cpu_online 1 demo_boot = false /\
  (forall j, (j < 2)%nat ->
     callin_tape demo_boot (relax_count demo_boot + j)%nat <> Some 1) /\
  callin_tape demo_boot (relax_count demo_boot + 2)%nat = Some 1 /\
  (3 < 10)%nat /\
  exists st',
    cpu_up 10 1 0x80200000 demo_boot = Some (0, st') /\
    cpu_online 1 st' = true /\
    relax_count st' = (relax_count demo_boot + 3)%nat.
Proof.
  assert (H1 : 0 <= 1) by lia.
  assert (H2 : cpu_boot (cpu_ops demo_boot) = Some BootDefault) by reflexivity.
  assert (H3 : cpu_online 1 demo_boot = false) by reflexivity.
  assert (H4 : forall j, (j < 2)%nat ->
            callin_tape demo_boot (relax_count demo_boot + j)%nat <> Some 1).
  { intros j Hj. unfold demo_boot. cbn [callin_tape relax_count Nat.add].
    destruct j as [| [| j]]; cbn [Nat.eqb]; [discriminate .. | lia]. }
  assert (H5 : callin_tape demo_boot (relax_count demo_boot + 2)%nat = Some 1)
    by reflexivity.
  assert (H6 : (3 < 10)%nat) by lia.
  destruct (cpu_up_returns_on_callin Board.THREAD_SIZE true failing_boot
              10 1 0x80200000 demo_boot 2 H1 H2 H3 H4 H5 H6)
    as (st' & Hrun & Hon & Hcount & _).
  split; [exact H1 | split; [exact H2 | split; [exact H3 |]]].
  split; [exact H4 | split; [exact H5 | split; [exact H6 |]]].
  exists st'. split; [exact Hrun | split; [exact Hon | exact Hcount]].
Defined.

Lemma cpu_disable_default_ops_witness :
  true = true /\
  cpu_ops demo_online = default_ops true /\
  fst (cpu_disable_self demo_online) = 0 /\
  cpu_online 0 (snd (cpu_disable_self demo_online)) = false /\
  cpu_online 1 (snd (cpu_disable_self demo_online)) = cpu_online 1 demo_online.
Proof.
  assert (H1 : true = true) by reflexivity.
  assert (H2 : cpu_ops demo_online = default_ops true) by reflexivity.
  destruct (cpu_disable_default_ops Board.EOPNOTSUPP true willing_disable
              demo_online H1 H2) as (_ & Hr & Hoff & Hothers & _).
  split; [exact H1 | split; [exact H2 | split; [exact Hr |]]].
  split; [exact Hoff |]. apply Hothers. discriminate.
Defined.

Lemma cpu_play_dead_sleeps_through_witness :
  cpu_die (cpu_ops demo_timer_pending) = Some DieDefault /\
  0 <= csr_sie demo_timer_pending < 2 ^ 31 /\
  (forall k, (k < 5)%nat ->
     let sip := fst (wfi_tape demo_timer_pending
                       (wfi_count demo_timer_pending + k)) in
     let scause := snd (wfi_tape demo_timer_pending
                          (wfi_count demo_timer_pending + k)) in
     0 <= sip < 2 ^ 31 /\
     Z.land sip (Z.lnot (Z.lor Board.SIE_STIE Board.SIE_SEIE)) = 0 /\
     to_int scause <> Board.INTERRUPT_CAUSE_SOFTWARE) /\
  play_dead 5 demo_timer_pending = None.
Proof.
  assert (H1 : cpu_die (cpu_ops demo_timer_pending) = Some DieDefault)
    by reflexivity.
  assert (H2 : 0 <= csr_sie demo_timer_pending < 2 ^ 31)
    by (vm_compute; split; congruence).
  assert (H3 : forall k, (k < 5)%nat ->
     let sip := fst (wfi_tape demo_timer_pending
                       (wfi_count demo_timer_pending + k)) in
     let scause := snd (wfi_tape demo_timer_pending
                          (wfi_count demo_timer_pending + k)) in
     0 <= sip < 2 ^ 31 /\
     Z.land sip (Z.lnot (Z.lor Board.SIE_STIE Board.SIE_SEIE)) = 0 /\
     to_int scause <> Board.INTERRUPT_CAUSE_SOFTWARE).
  { intros k _. unfold demo_timer_pending. cbn [wfi_tape fst snd].
    split; [vm_compute; split; congruence |].
    split; [reflexivity | vm_compute; congruence]. }
  split; [exact H1 | split; [exact H2 | split; [exact H3 |]]].
  exact (cpu_play_dead_sleeps_through Board.SIE_STIE Board.SIE_SEIE
           Board.INTERRUPT_CAUSE_SOFTWARE returning_die 5 demo_timer_pending
           H1 H2 H3).
Defined.

Lemma cpu_play_dead_restarts_witness :
  cpu_die (cpu_ops demo_dying) = Some DieDefault /\
  0 <= csr_sie demo_dying < 2 ^ 31 /\
  0 <= fst (wfi_tape demo_dying (wfi_count demo_dying + 0)) < 2 ^ 31 /\
  Z.land (fst (wfi_tape demo_dying (wfi_count demo_dying + 0)))
    (Z.land (csr_sie demo_dying)
       (Z.lnot (Z.lor Board.SIE_STIE Board.SIE_SEIE))) <> 0 /\
  (0 < 5)%nat /\
  exists st',
    play_dead 5 demo_dying = Some st' /\
    last (trace st') = Some EvBootSecCpu /\
    Z.land (csr_sie st') Board.SIE_STIE = 0.
Proof.
  assert (H1 : cpu_die (cpu_ops demo_dying) = Some DieDefault) by reflexivity.
  assert (H2 : 0 <= csr_sie demo_dying < 2 ^ 31)
    by (vm_compute; split; congruence).
  assert (H3 : 0 <= fst (wfi_tape demo_dying (wfi_count demo_dying + 0))
               < 2 ^ 31)
    by (vm_compute; split; congruence).
  assert (H4 : Z.land (fst (wfi_tape demo_dying (wfi_count demo_dying + 0)))
                 (Z.land (csr_sie demo_dying)
                    (Z.lnot (Z.lor Board.SIE_STIE Board.SIE_SEIE))) <> 0)
    by (vm_compute; congruence).
  assert (H5 : (0 < 5)%nat) by lia.
  destruct (cpu_play_dead_restarts Board.SIE_STIE Board.SIE_SEIE
              Board.INTERRUPT_CAUSE_SOFTWARE returning_die 5 demo_dying 0
              H1 H2 H3 H4 H5) as (st' & Hrun & Hlast & _ & Hstie & _).
  split; [exact H1 | split; [exact H2 | split; [exact H3 |]]].
  split; [exact H4 | split; [exact H5 |]].
  exists st'. split; [exact Hrun | split; [exact Hlast | exact Hstie]].
Defined.

(** Hart 0 before [setup_smp], on a board whose hart 1 will reach
    [smp_callin] during the third [cpu_relax]. *)
Definition demo_cold : state :=
  mkState (mkOps None None None) 1 1 1 (replicate 8 0)
    (replicate 8 0) (replicate 8 0) (fun task => task + 0x2000) ∅ 1 0
    0 0 0 (fun k => if (k =? 2)%nat then Some 1 else None) 0
    (fun _ => (0, 0)) 0 [].

Lemma cpu_up_after_setup_smp_witness :
  let st1 := assign 1 [1; 2] (set_cpu_ops (default_ops true) demo_cold) in
  setup_smp true demo_tree demo_cold = Some st1 /\
  secondary_harts (logical_map 0 demo_cold) demo_tree !! 0%nat = Some 1 /\
  (1 < length (cpu_logical_map demo_cold))%nat /\
  (Z.to_nat 1 < length (cpu_up_stack_pointer demo_cold))%nat /\
  (Z.to_nat 1 < length (cpu_up_task_pointer demo_cold))%nat /\
  exists st',
    __cpu_up Board.THREAD_SIZE true failing_boot 10 (Z.of_nat 1) 0x80200000
      st1 = Some (0, st') /\
    EvCpuBoot 1 0x80200000 ∈ trace st' /\
    cpu_up_task_pointer st' !! Z.to_nat 1 = Some 0x80200000.
Proof.
  intros st1.
  assert (H1 : setup_smp true demo_tree demo_cold = Some st1) by reflexivity.
  assert (H2 : secondary_harts (logical_map 0 demo_cold) demo_tree !! 0%nat
               = Some 1)
    by reflexivity.
  assert (H3 : (1 < length (cpu_logical_map demo_cold))%nat)
    by (vm_compute; lia).
  assert (H4 : (Z.to_nat 1 < length (cpu_up_stack_pointer demo_cold))%nat)
    by (vm_compute; lia).
  assert (H5 : (Z.to_nat 1 < length (cpu_up_task_pointer demo_cold))%nat)
    by (vm_compute; lia).
  assert (H6 : is_Some (__cpu_up Board.THREAD_SIZE true failing_boot 10
                          (Z.of_nat 1) 0x80200000 st1))
    by (vm_compute; eexists; reflexivity).
  destruct H6 as [[r st'] Hrun].
  destruct (cpu_up_after_setup_smp Board.THREAD_SIZE true failing_boot
              demo_tree demo_cold st1 0 1 10 0x80200000 r st'
              H1 H2 H3 H4 H5 Hrun) as (-> & Hboot & _ & Htask & _).
  split; [exact H1 | split; [exact H2 | split; [exact H3 |]]].
  split; [exact H4 | split; [exact H5 |]].
  exists st'. split; [exact Hrun | split; [exact Hboot | exact Htask]].
Defined.

Lemma cpu_play_dead_leaves_on_software_restart_witness :
  cpu_die (cpu_ops demo_dying) = Some DieDefault /\
  0 <= Z.lor Board.SIE_SSIE (Z.lor Board.SIE_STIE Board.SIE_SEIE) < 2 ^ 31 /\
  supervisor_enables_only Board.SIE_SSIE Board.SIE_STIE Board.SIE_SEIE
    demo_dying /\
  Z.land Board.SIE_SSIE (Z.lor Board.SIE_STIE Board.SIE_SEIE) = 0 /\
  Z.land (csr_sie demo_dying) Board.SIE_SSIE = Board.SIE_SSIE /\
  (0 < 5)%nat /\
  software_restart Board.SIE_SSIE Board.INTERRUPT_CAUSE_SOFTWARE demo_dying
    (wfi_count demo_dying + 0) /\
  exists st',
    play_dead 5 demo_dying = Some st' /\
    last (trace st') = Some EvBootSecCpu.
Proof.
  assert (H1 : cpu_die (cpu_ops demo_dying) = Some DieDefault) by reflexivity.
  assert (H2 : 0 <= Z.lor Board.SIE_SSIE (Z.lor Board.SIE_STIE Board.SIE_SEIE)
               < 2 ^ 31)
    by (vm_compute; split; congruence).
  assert (H3 : supervisor_enables_only Board.SIE_SSIE Board.SIE_STIE
                 Board.SIE_SEIE demo_dying)
    by reflexivity.
  assert (H4 : Z.land Board.SIE_SSIE (Z.lor Board.SIE_STIE Board.SIE_SEIE) = 0)
    by reflexivity.
  assert (H5 : Z.land (csr_sie demo_dying) Board.SIE_SSIE = Board.SIE_SSIE)
    by reflexivity.
  assert (H6 : (0 < 5)%nat) by lia.
  assert (H7 : software_restart Board.SIE_SSIE Board.INTERRUPT_CAUSE_SOFTWARE
                 demo_dying (wfi_count demo_dying + 0))
    by (left; vm_compute; congruence).
  split; [exact H1 | split; [exact H2 | split; [exact H3 |]]].
  split; [exact H4 | split; [exact H5 | split; [exact H6 |]]].
  split; [exact H7 |].
  exact (proj2 (proj2 (cpu_play_dead_leaves_on_software_restart
                         Board.SIE_SSIE Board.SIE_STIE Board.SIE_SEIE
                         Board.INTERRUPT_CAUSE_SOFTWARE returning_die 5
                         demo_dying H1 H2 H3)) H4 H5 0%nat H6 H7).
Defined.

End Smpboot.
